(** * dynago: the update service, its providers and its logger

    A shallow embedding of the Go sources of dynago (a dynamic DNS updater)
    and the properties of its update loop, provider registry, IP source
    client, provider adapters and logger.

    Go packages become modules of the same name.  Calls that leave the
    program (net/http, the vendor SDKs, yaml, os, the runtime's select)
    are fields of type classes: the development is parametric in them, and
    the module [stub] instantiates them for runs on concrete inputs. *)

From Stdlib Require Import ZArith DecimalString.
From stdpp Require Import base option list strings gmap.

(** ** Go values *)

(** A Go [error] value.  A nil error is [None] of [option error]. *)
Inductive error : Type :=
| errors_New (text : string)                    (* errors.New(text) *)
| fmt_Errorf_w (format : string) (err : error)  (* fmt.Errorf(format with one %w, err) *)
| lib_error (text : string).                    (* an error made by a library *)

(** Arguments of a logging call ([...any]). *)
Inductive Arg : Type :=
| AStr (s : string)
| AErr (e : error).

(** The two communications of the select statement in [Start]. *)
Inductive SelectCase : Type :=
| CtxDone    (* case <-s.ctx.Done() *)
| TickerC.   (* case <-ticker.C *)

(** net/http: the part of [*http.Response] that the program reads.  [Body] is
    what [io.ReadAll(resp.Body)] returns. *)
Record Response : Type := mkResponse {
  StatusCode : Z;
  Body : string * option error
}.

Definition http_StatusOK : Z := 200.

(** cloudflare-go: the fields of the SDK's structs that the program uses. *)
Module cf.
Record DNSRecord : Type := mkDNSRecord {
  ID : string;
  Name : string;
  Type_ : string;
  Content : string
}.
Record ListDNSRecordsParams : Type := mkListDNSRecordsParams {
  lp_Name : string;
  lp_Type : string
}.
Record UpdateDNSRecordParams : Type := mkUpdateDNSRecordParams {
  up_ID : string;
  up_Type : string;
  up_Name : string;
  up_Content : string;
  up_Proxied : bool
}.
End cf.

(** aws-sdk-go-v2/service/route53: likewise. *)
Module r53types.
Record ResourceRecordSet : Type := mkResourceRecordSet {
  Name : string;
  Type_ : string;
  TTL : Z;
  ResourceRecords : list string   (* the Value of each ResourceRecord *)
}.
Inductive ChangeAction : Type := ChangeActionCreate | ChangeActionDelete | ChangeActionUpsert.
Record Change : Type := mkChange {
  Action : ChangeAction;
  ResourceRecordSet_ : ResourceRecordSet
}.
Record ListResourceRecordSetsInput : Type := mkListInput {
  li_HostedZoneId : string;
  li_StartRecordName : string;
  li_StartRecordType : string;
  li_MaxItems : Z
}.
Record ChangeResourceRecordSetsInput : Type := mkChangeInput {
  ci_HostedZoneId : string;
  ci_Changes : list Change
}.
End r53types.

(** ** The call log

    Every call that leaves the package under study is logged, in program
    order, together with what it returned.  There are two layers: the
    calls of library functions, made by the providers, the IP source
    client and the logger, and the calls the service makes. *)
Inductive LibCall : Type :=
(* net/http *)
| EvHttpGet (url : string) (ret : Response + error)
(* cloudflare-go *)
| EvListDNSRecords (zone : string) (params : cf.ListDNSRecordsParams)
    (ret : list cf.DNSRecord * option error)
| EvUpdateDNSRecord (zone : string) (params : cf.UpdateDNSRecordParams) (ret : option error)
(* aws-sdk-go-v2 *)
| EvLoadDefaultConfig (region accessKeyID secretAccessKey : string) (ret : option error)
| EvListResourceRecordSets (input : r53types.ListResourceRecordSetsInput)
    (ret : list r53types.ResourceRecordSet * option error)
| EvChangeResourceRecordSets (input : r53types.ChangeResourceRecordSetsInput) (ret : option error)
(* os *)
| EvOpenFile (name : string) (ret : option error).

Inductive Event : Type :=
(* internal/logger *)
| logger_Info (format : string) (args : list Arg)
| logger_Error (format : string) (args : list Arg)
| logger_Debug (format : string) (args : list Arg)
(* internal/utils *)
| EvGetCurrentIP (ipSource : string) (ret : string * option error)
(* the DNSProvider interface *)
| EvGetRecordIP (provider : string) (ret : string * option error)
| EvUpdateRecordIP (provider : string) (ip : string) (ret : option error)
(* time and the select statement *)
| EvNewTicker (d : Z)
| EvTickerStop
| EvSelect (c : SelectCase)
(* a library call made on behalf of the service *)
| EvLib (c : LibCall).

(** ** Effects: the world is threaded, the calls are logged

    [World] is the state of everything outside the process: the DNS zones
    at the vendors, the network, the file system, and whether the service's
    context has been cancelled.  An entry of the log is stamped with the
    world in which the call was issued. *)
Section Effects.
Context {World E : Type}.

Definition Trace : Type := list (World * E).

Definition IO (A : Type) : Type := World -> A * World * Trace.

Definition ret {A} (a : A) : IO A := fun w => (a, w, []).

Definition bind {A B} (m : IO A) (k : A -> IO B) : IO B :=
  fun w =>
    let '(a, w1, t1) := m w in
    let '(b, w2, t2) := k a w1 in
    (b, w2, t1 ++ t2).

(** Log one event that has no result. *)
Definition emit (e : E) : IO unit := fun w => (tt, w, [(w, e)]).

(** Log a call of [m]: the entry stands where the call is issued and
    carries the result; what [m] logs itself follows it. *)
Definition traced {A} (ev : A -> E) (m : IO A) : IO A :=
  fun w => let '(a, w', t) := m w in (a, w', (w, ev a) :: t).

(** A call of a library function. *)
Definition extern {A} (ev : A -> E) (f : World -> A * World) : IO A :=
  traced ev (fun w => let '(a, w') := f w in (a, w', [])).

Definition result {A} (m : IO A) (w : World) : A := (m w).1.1.
Definition world_after {A} (m : IO A) (w : World) : World := (m w).1.2.
Definition trace_of {A} (m : IO A) (w : World) : Trace := (m w).2.

(** The events of a log, without their stamps. *)
Definition events (t : Trace) : list E := t.*2.
End Effects.

Arguments Trace : clear implicits.
Arguments IO : clear implicits.

Notation "x <- m ;; k" := (bind m (fun x => k))
  (at level 100, m at next level, right associativity).

(** Library-level code run by the service: its log is embedded. *)
Definition lib {World A : Type} (m : IO World LibCall A) : IO World Event A :=
  fun w => let '(a, w', t) := m w in (a, w', prod_map id EvLib <$> t).

(** ** The libraries the program calls *)

(** net/http *)
Class net_http (World : Type) := {
  http_Get : string -> World -> (Response + error) * World
}.

(** gopkg.in/yaml.v3.  [any] is the type of the values found under
    [providers:], [yaml_data] that of a marshalled document, and
    [yaml_Unmarshal data out] fills the struct [out]. *)
Class yaml_Marshaler (any : Type) := {
  yaml_data : Type;
  yaml_Marshal : any -> yaml_data * option error
}.
Class yaml_Unmarshaler {any : Type} `{!yaml_Marshaler any} (T : Type) := {
  yaml_Unmarshal : yaml_data -> T -> T * option error
}.

(** strings *)
Class strings_pkg := {
  strings_ToLower : string -> string;
  strings_EqualFold : string -> string -> bool
}.

(** The runtime: the service's context and the blocking select of the
    update loop, which returns the communication that was chosen. *)
Class runtime (World : Type) := {
  ctx_cancelled : World -> bool;
  rt_select : World -> SelectCase * World
}.

(** cloudflare-go *)
Class cloudflare_go (World : Type) := {
  cf_API : Type;
  cf_NewWithAPIToken : string -> cf_API + error;
  cf_ListDNSRecords : cf_API -> string -> cf.ListDNSRecordsParams ->
                      World -> (list cf.DNSRecord * option error) * World;
  cf_UpdateDNSRecord : cf_API -> string -> cf.UpdateDNSRecordParams ->
                       World -> option error * World
}.

(** aws-sdk-go-v2 *)
Class aws_sdk (World : Type) := {
  aws_Config : Type;
  route53_Client : Type;
  awsconfig_LoadDefaultConfig : string -> string -> string -> World -> (aws_Config + error) * World;
  route53_NewFromConfig : aws_Config -> route53_Client;
  route53_ListResourceRecordSets : route53_Client -> r53types.ListResourceRecordSetsInput ->
                                   World -> (list r53types.ResourceRecordSet * option error) * World;
  route53_ChangeResourceRecordSets : route53_Client -> r53types.ChangeResourceRecordSetsInput ->
                                     World -> option error * World
}.

(** os *)
Class os_pkg (World : Type) := {
  os_File : Type;
  os_OpenFile : string -> World -> (os_File + error) * World
}.


(** ** internal/config *)
Module config.
Section config.
Context {any : Type} `{!yaml_Marshaler any}.

(** [Config]: [Interval] is a [time.Duration], a count of nanoseconds;
    [Providers] is a [map[string]any]. *)
Record Config : Type := mkConfig {
  Interval : Z;
  IPSource : string;
  LogLevel : string;
  Providers : gmap string any
}.

(** [ConfigFromMap(m, out)]: marshal the generic value, unmarshal it into
    the struct behind [out]. *)
Definition ConfigFromMap {T : Type} `{!yaml_Unmarshaler (any := any) T} (m : any) (out : T) : T * option error :=
  let '(data, err) := yaml_Marshal m in
  match err with
  | Some err => (out, Some err)
  | None => yaml_Unmarshal data out
  end.
End config.
Arguments Config : clear implicits.
End config.

(** ** internal/utils *)
Module utils.
Section utils.
Context {World : Type} `{!net_http World}.

(** [GetCurrentIP(ipSource)].  The deferred [resp.Body.Close()] has no
    effect the program can see. *)
Definition GetCurrentIP (ipSource : string) : IO World LibCall (string * option error) :=
  r <- extern (EvHttpGet ipSource) (http_Get ipSource) ;;
  match r with
  | inr err => ret ("", Some err)
  | inl resp =>
      if negb (StatusCode resp =? http_StatusOK)%Z
      then ret ("", Some (errors_New "failed to fetch IP: non-200 response"))
      else
        let '(body, err) := Body resp in
        match err with
        | Some err => ret ("", Some err)
        | None => ret (body, None)
        end
  end.
End utils.
End utils.

(** ** providers: the interface and the registry *)
Module providers.
Section providers.
Context {World : Type}.

(** The method set of the interface [DNSProvider].  The receivers are
    pointers, so a method returns the receiver as it leaves it. *)
Class DNSProviderMethods (P : Type) := {
  GetRecordIP : P -> IO World LibCall ((string * option error) * P);
  UpdateRecordIP : P -> string -> IO World LibCall (option error * P);
  ProviderName : P -> string
}.

(** A value of the interface type: a dynamic type that has the methods,
    and the object. *)
Record DNSProvider : Type := mkDNSProvider {
  dynamic_type : Type;
  methods : DNSProviderMethods dynamic_type;
  receiver : dynamic_type
}.

Definition with_receiver (p : DNSProvider) (o : dynamic_type p) : DNSProvider :=
  {| dynamic_type := dynamic_type p; methods := methods p; receiver := o |}.

(** [p.ProviderName()] *)
Definition name (p : DNSProvider) : string :=
  @ProviderName _ (methods p) (receiver p).

(** [p.GetRecordIP()] and [p.UpdateRecordIP(ip)] on a value of the
    interface type. *)
Definition DNSProvider_GetRecordIP (p : DNSProvider)
  : IO World LibCall ((string * option error) * DNSProvider) :=
  r <- @GetRecordIP _ (methods p) (receiver p) ;;
  ret (r.1, with_receiver p r.2).

Definition DNSProvider_UpdateRecordIP (p : DNSProvider) (ip : string)
  : IO World LibCall (option error * DNSProvider) :=
  r <- @UpdateRecordIP _ (methods p) (receiver p) ip ;;
  ret (r.1, with_receiver p r.2).

Record DNSProviderRegistry : Type := mkDNSProviderRegistry {
  Providers : list DNSProvider
}.

(** [NewDNSProviderRegistry(cfg, providers...)]; [cfg] is not used. *)
Definition NewDNSProviderRegistry {C : Type} (cfg : option C) (providers : list DNSProvider)
  : DNSProviderRegistry + error :=
  if (length providers =? 0)%nat
  then inr (errors_New "no DNS providers enabled in config")
  else inl {| Providers := providers |}.
End providers.
Arguments DNSProvider : clear implicits.
Arguments DNSProviderRegistry : clear implicits.
Arguments DNSProviderMethods : clear implicits.
End providers.

(** ** providers/cloudflare *)
Module cloudflare.
Section cloudflare.
Context {World any : Type} `{!cloudflare_go World} `{!yaml_Marshaler any}.

Record CloudflareConfig : Type := mkCloudflareConfig {
  Enabled : bool;
  APIToken : string;
  ZoneID : string;
  RecordName : string;
  RecordType : string;
  Proxied : bool
}.

(** The zero value of [var cfg CloudflareConfig]. *)
Definition zero : CloudflareConfig :=
  {| Enabled := false; APIToken := ""; ZoneID := ""; RecordName := ""; RecordType := "";
     Proxied := false |}.

Record CloudflareProvider : Type := mkCloudflareProvider {
  Cfg : CloudflareConfig;
  Client : option cf_API
}.

Context `{!yaml_Unmarshaler (any := any) CloudflareConfig}.

Definition New (raw : any) : CloudflareProvider + error :=
  let '(cfg, err) := config.ConfigFromMap raw zero in
  match err with
  | Some err => inr err
  | None => inl {| Cfg := cfg; Client := None |}
  end.

Definition getClient (c : CloudflareProvider) : (cf_API + error) * CloudflareProvider :=
  match Client c with
  | Some api => (inl api, c)
  | None =>
      match cf_NewWithAPIToken (APIToken (Cfg c)) with
      | inr err => (inr err, c)
      | inl api => (inl api, {| Cfg := Cfg c; Client := Some api |})
      end
  end.

Definition ProviderName (c : CloudflareProvider) : string := "cloudflare".

(** The condition of both range loops:
    [record.Name == c.Cfg.RecordName && record.Type == c.Cfg.RecordType]. *)
Definition matches (c : CloudflareProvider) (record : cf.DNSRecord) : bool :=
  String.eqb (cf.Name record) (RecordName (Cfg c)) &&
  String.eqb (cf.Type_ record) (RecordType (Cfg c)).

Definition listParams (c : CloudflareProvider) : cf.ListDNSRecordsParams :=
  {| cf.lp_Name := RecordName (Cfg c); cf.lp_Type := RecordType (Cfg c) |}.

Definition GetRecordIP (c : CloudflareProvider) : IO World LibCall ((string * option error) * CloudflareProvider) :=
  let '(r, c) := getClient c in
  match r with
  | inr err => ret (("", Some err), c)
  | inl client =>
      let zone := ZoneID (Cfg c) in
      r <- extern (EvListDNSRecords zone (listParams c))
             (cf_ListDNSRecords client zone (listParams c)) ;;
      let '(records, err) := r in
      match err with
      | Some err => ret (("", Some err), c)
      | None =>
          match List.find (matches c) records with
          | Some record => ret ((cf.Content record, None), c)
          | None => ret (("", Some (errors_New "record not found")), c)
          end
      end
  end.

(** The [edit] of [UpdateRecordIP]. *)
Definition editParams (c : CloudflareProvider) (record : cf.DNSRecord) (ip : string)
  : cf.UpdateDNSRecordParams :=
  {| cf.up_ID := cf.ID record;
     cf.up_Type := RecordType (Cfg c);
     cf.up_Name := RecordName (Cfg c);
     cf.up_Content := ip;
     cf.up_Proxied := Proxied (Cfg c) |}.

Definition UpdateRecordIP (c : CloudflareProvider) (ip : string) : IO World LibCall (option error * CloudflareProvider) :=
  let '(r, c) := getClient c in
  match r with
  | inr err => ret (Some err, c)
  | inl client =>
      let zone := ZoneID (Cfg c) in
      r <- extern (EvListDNSRecords zone (listParams c))
             (cf_ListDNSRecords client zone (listParams c)) ;;
      let '(records, err) := r in
      match err with
      | Some err => ret (Some err, c)
      | None =>
          match List.find (matches c) records with
          | Some record =>
              let edit := editParams c record ip in
              err <- extern (EvUpdateDNSRecord zone edit) (cf_UpdateDNSRecord client zone edit) ;;
              ret (err, c)
          | None => ret (Some (errors_New "record not found for update"), c)
          end
      end
  end.

#[export] Instance CloudflareProvider_DNSProvider : providers.DNSProviderMethods World CloudflareProvider :=
  {| providers.GetRecordIP := GetRecordIP;
     providers.UpdateRecordIP := UpdateRecordIP;
     providers.ProviderName := ProviderName |}.
End cloudflare.
Arguments CloudflareProvider World {_}.
End cloudflare.

(** ** providers/route53 *)
Module route53.
Section route53.
Context {World any : Type} `{!aws_sdk World} `{!yaml_Marshaler any} `{!strings_pkg}.

Record Route53Config : Type := mkRoute53Config {
  Enabled : bool;
  AccessKeyID : string;
  SecretAccessKey : string;
  HostedZoneID : string;
  RecordName : string;
  RecordType : string;
  Region : string
}.

Definition zero : Route53Config :=
  {| Enabled := false; AccessKeyID := ""; SecretAccessKey := ""; HostedZoneID := "";
     RecordName := ""; RecordType := ""; Region := "" |}.

Record Route53Provider : Type := mkRoute53Provider {
  Cfg : Route53Config;
  Client : option route53_Client
}.

Context `{!yaml_Unmarshaler (any := any) Route53Config}.

Definition New (raw : any) : Route53Provider + error :=
  let '(cfg, err) := config.ConfigFromMap raw zero in
  match err with
  | Some err => inr err
  | None => inl {| Cfg := cfg; Client := None |}
  end.

Definition getClient (r : Route53Provider) : IO World LibCall ((route53_Client + error) * Route53Provider) :=
  match Client r with
  | Some client => ret (inl client, r)
  | None =>
      let cfg := Cfg r in
      x <- extern (fun x => EvLoadDefaultConfig (Region cfg) (AccessKeyID cfg) (SecretAccessKey cfg)
                              (match x with inl _ => None | inr err => Some err end))
             (awsconfig_LoadDefaultConfig (Region cfg) (AccessKeyID cfg) (SecretAccessKey cfg)) ;;
      match x with
      | inr err => ret (inr err, r)
      | inl awsCfg =>
          let client := route53_NewFromConfig awsCfg in
          ret (inl client, {| Cfg := cfg; Client := Some client |})
      end
  end.

Definition ProviderName (r : Route53Provider) : string := "route53".

(** The record set the range loop of [GetRecordIP] returns from: name and
    type match and there is at least one resource record. *)
Definition matches (r : Route53Provider) (record : r53types.ResourceRecordSet) : bool :=
  strings_EqualFold (r53types.Name record) (RecordName (Cfg r) ++ ".") &&
  String.eqb (r53types.Type_ record) (RecordType (Cfg r)) &&
  (0 <? length (r53types.ResourceRecords record))%nat.

(** The [input] of [GetRecordIP]. *)
Definition listInput (r : Route53Provider) : r53types.ListResourceRecordSetsInput :=
  {| r53types.li_HostedZoneId := HostedZoneID (Cfg r);
     r53types.li_StartRecordName := RecordName (Cfg r);
     r53types.li_StartRecordType := RecordType (Cfg r);
     r53types.li_MaxItems := 1 |}.

(** The [input] of [UpdateRecordIP]: one UPSERT of the record set. *)
Definition changeInput (r : Route53Provider) (ip : string) : r53types.ChangeResourceRecordSetsInput :=
  {| r53types.ci_HostedZoneId := HostedZoneID (Cfg r);
     r53types.ci_Changes :=
       [ {| r53types.Action := r53types.ChangeActionUpsert;
            r53types.ResourceRecordSet_ :=
              {| r53types.Name := RecordName (Cfg r);
                 r53types.Type_ := RecordType (Cfg r);
                 r53types.TTL := 300;
                 r53types.ResourceRecords := [ip] |} |} ] |}.

Definition GetRecordIP (r : Route53Provider) : IO World LibCall ((string * option error) * Route53Provider) :=
  x <- getClient r ;;
  let '(c, r) := x in
  match c with
  | inr err => ret (("", Some err), r)
  | inl client =>
      let input := listInput r in
      x <- extern (EvListResourceRecordSets input) (route53_ListResourceRecordSets client input) ;;
      let '(sets, err) := x in
      match err with
      | Some err => ret (("", Some err), r)
      | None =>
          match List.find (matches r) sets with
          | Some record => ret ((hd "" (r53types.ResourceRecords record), None), r)
          | None => ret (("", Some (errors_New "record not found")), r)
          end
      end
  end.

Definition UpdateRecordIP (r : Route53Provider) (ip : string) : IO World LibCall (option error * Route53Provider) :=
  x <- getClient r ;;
  let '(c, r) := x in
  match c with
  | inr err => ret (Some err, r)
  | inl client =>
      let input := changeInput r ip in
      err <- extern (EvChangeResourceRecordSets input) (route53_ChangeResourceRecordSets client input) ;;
      ret (err, r)
  end.

#[export] Instance Route53Provider_DNSProvider : providers.DNSProviderMethods World Route53Provider :=
  {| providers.GetRecordIP := GetRecordIP;
     providers.UpdateRecordIP := UpdateRecordIP;
     providers.ProviderName := ProviderName |}.
End route53.
Arguments Route53Provider World {_}.
End route53.

(** ** internal/logger *)
Module logger.

(** The levels of zerolog that the package uses, in increasing order
    (their codes are 0 to 3). *)
Inductive Level : Type := DebugLevel | InfoLevel | WarnLevel | ErrorLevel.

Section logger.
Context {World : Type} `{!os_pkg World} `{!strings_pkg}.

Inductive Writer : Type :=
| io_Discard
| FileWriter (f : os_File)
| ConsoleWriter.

(** The package's variables, and the global level of zerolog.
    [logger] is the list of writers of its multi-writer. *)
Record Globals : Type := mkGlobals {
  appWriter : Writer;
  logLevel : Level;
  zerolog_GlobalLevel : Level;
  logger : list Writer
}.

(** The [switch strings.ToLower(level)] of [InitLogger]. *)
Definition switchLevel (level : string) : Level :=
  let l := strings_ToLower level in
  if String.eqb l "debug" then DebugLevel
  else if String.eqb l "info" then InfoLevel
  else if String.eqb l "warn" then WarnLevel
  else if String.eqb l "error" then ErrorLevel
  else InfoLevel.

(** [InitLogger], from the switch on: the level, then the writers. *)
Definition setup (level : string) (g : Globals) : Globals :=
  let lvl := switchLevel level in
  {| appWriter := appWriter g;
     logLevel := lvl;
     zerolog_GlobalLevel := lvl;
     logger := [appWriter g; ConsoleWriter] |}.

Definition set_appWriter (w : Writer) (g : Globals) : Globals :=
  {| appWriter := w; logLevel := logLevel g;
     zerolog_GlobalLevel := zerolog_GlobalLevel g; logger := logger g |}.

Definition InitLogger (appLogFile level : string) (g : Globals) : IO World LibCall (option error * Globals) :=
  let g := set_appWriter io_Discard g in
  if negb (String.eqb appLogFile "")
  then
    r <- extern (fun r => EvOpenFile appLogFile (match r with inl _ => None | inr err => Some err end))
           (os_OpenFile appLogFile) ;;
    match r with
    | inr err => ret (Some err, g)
    | inl appFile => ret (None, setup level (set_appWriter (FileWriter appFile) g))
    end
  else ret (None, setup level g).
End logger.
Arguments Globals World {_}.
Arguments Writer World {_}.

(** The calls of the package's logging functions, as seen by a caller. *)
Definition Info {World : Type} (format : string) (args : list Arg) : IO World Event unit :=
  emit (logger_Info format args).
Definition Error {World : Type} (format : string) (args : list Arg) : IO World Event unit :=
  emit (logger_Error format args).
Definition Debug {World : Type} (format : string) (args : list Arg) : IO World Event unit :=
  emit (logger_Debug format args).
End logger.

(** ** internal/service *)
Module service.

(** How a call of [Start] ends: it returns, it panics, or it is still in
    its loop when the fuel is spent. *)
Inductive Outcome : Type :=
| Returned (err : option error)
| Panicked (v : string)
| Running.

Section service.
Context {World any : Type}.
Context `{!net_http World} `{!runtime World} `{!cloudflare_go World} `{!aws_sdk World}.
Context `{!strings_pkg} `{!yaml_Marshaler any}.
Context `{!yaml_Unmarshaler (any := any) cloudflare.CloudflareConfig}.
Context `{!yaml_Unmarshaler (any := any) route53.Route53Config}.

Abbreviation DNSProvider := (providers.DNSProvider World).

(** [DNSUpdateService]: [cfg] is a pointer that may be nil; [ctx] lives in
    the world ([ctx_cancelled]); the field [provider] is never used. *)
Record DNSUpdateService : Type := mkDNSUpdateService {
  cfg : option (config.Config any)
}.

Definition NewDNSUpdateService (cfg : option (config.Config any)) : DNSUpdateService :=
  {| cfg := cfg |}.

(** Lines 70-82 of [Start]: the list of providers. *)
Definition providersList (cfg : config.Config any) : list DNSProvider :=
  let l1 :=
    match config.Providers cfg !! "cloudflare" with
    | Some raw =>
        match cloudflare.New (World := World) raw with
        | inl cf =>
            if cloudflare.Enabled (cloudflare.Cfg cf)
            then [providers.mkDNSProvider _ cloudflare.CloudflareProvider_DNSProvider cf]
            else []
        | inr _ => []
        end
    | None => []
    end in
  let l2 :=
    match config.Providers cfg !! "route53" with
    | Some raw =>
        match route53.New (World := World) raw with
        | inl r53 =>
            if route53.Enabled (route53.Cfg r53)
            then l1 ++ [providers.mkDNSProvider _ route53.Route53Provider_DNSProvider r53]
            else l1
        | inr _ => l1
        end
    | None => l1
    end in
  l2.

(** The two calls of the range loop, logged.  The entry names the
    provider as the log lines of the service do, by the [providerName] of
    the iteration. *)
Definition call_GetRecordIP (providerName : string) (p : DNSProvider)
  : IO World Event ((string * option error) * DNSProvider) :=
  traced (fun r => EvGetRecordIP providerName r.1) (lib (providers.DNSProvider_GetRecordIP p)).

Definition call_UpdateRecordIP (providerName : string) (p : DNSProvider) (ip : string)
  : IO World Event (option error * DNSProvider) :=
  traced (fun r => EvUpdateRecordIP providerName ip r.1)
    (lib (providers.DNSProvider_UpdateRecordIP p ip)).

(** Lines 108-124: the body of the range loop, for one provider.  It
    returns the provider as the calls leave it and the map [lastKnown]. *)
Definition visit (currentIP : string) (p : DNSProvider) (lastKnown : gmap string string)
  : IO World Event (DNSProvider * gmap string string) :=
  let providerName := providers.name p in
  r <- call_GetRecordIP providerName p ;;
  let '((dnsIP, err), p) := r in
  match err with
  | Some err =>
      _ <- logger.Error "%s: failed to get DNS record IP: %v" [AStr providerName; AErr err] ;;
      ret (p, lastKnown)
  | None =>
      if negb (String.eqb dnsIP currentIP)
      then
        _ <- logger.Info "%s: IP mismatch (current: %s, DNS: %s), updating..."
               [AStr providerName; AStr currentIP; AStr dnsIP] ;;
        r <- call_UpdateRecordIP providerName p currentIP ;;
        let '(err, p) := r in
        match err with
        | Some err =>
            _ <- logger.Error "%s: failed to update DNS record: %v" [AStr providerName; AErr err] ;;
            ret (p, lastKnown)
        | None =>
            let lastKnown := <[providerName := currentIP]> lastKnown in
            _ <- logger.Info "%s: DNS record updated to %s" [AStr providerName; AStr currentIP] ;;
            ret (p, lastKnown)
        end
      else
        _ <- logger.Debug "%s: IP unchanged (%s)" [AStr providerName; AStr currentIP] ;;
        ret (p, lastKnown)
  end.

(** Lines 107-125: [for _, p := range reg.Providers]. *)
Fixpoint rangeProviders (currentIP : string) (ps : list DNSProvider) (lastKnown : gmap string string)
  : IO World Event (list DNSProvider * gmap string string) :=
  match ps with
  | [] => ret ([], lastKnown)
  | p :: ps =>
      r <- visit currentIP p lastKnown ;;
      s <- rangeProviders currentIP ps r.2 ;;
      ret (r.1 :: s.1, s.2)
  end.

(** Lines 102-125: the case [<-ticker.C], one update pass. *)
Definition pass (ipSource : string) (ps : list DNSProvider) (lastKnown : gmap string string)
  : IO World Event (list DNSProvider * gmap string string) :=
  r <- traced (EvGetCurrentIP ipSource) (lib (utils.GetCurrentIP ipSource)) ;;
  let '(currentIP, err) := r in
  match err with
  | Some err =>
      _ <- logger.Error "Failed to get current IP: %v" [AErr err] ;;
      ret (ps, lastKnown)
  | None => rangeProviders currentIP ps lastKnown
  end.

(** Lines 96-127: [for { select { ... } }].  One unit of fuel is one
    execution of the select statement; [None] is a loop still running. *)
Fixpoint loop (fuel : nat) (ipSource : string) (ps : list DNSProvider) (lastKnown : gmap string string)
  : IO World Event (option (option error)) :=
  match fuel with
  | O => ret None
  | S fuel =>
      c <- extern EvSelect rt_select ;;
      match c with
      | CtxDone =>
          _ <- logger.Info "DNSUpdateService stopped" [] ;;
          ret (Some None)
      | TickerC =>
          r <- pass ipSource ps lastKnown ;;
          loop fuel ipSource r.1 r.2
      end
  end.

(** [Start].  [time.NewTicker] panics on an interval that is not
    positive; the deferred [ticker.Stop()] runs when [Start] returns. *)
Definition Start (fuel : nat) (s : DNSUpdateService) : IO World Event Outcome :=
  match cfg s with
  | None => ret (Returned None)
  | Some cfg =>
      _ <- logger.Info "DNSUpdateService starting... " [] ;;
      let providersList := providersList cfg in
      match providers.NewDNSProviderRegistry (Some cfg) providersList with
      | inr err =>
          _ <- logger.Error "No DNS providers enabled: %v" [AErr err] ;;
          ret (Returned (Some (fmt_Errorf_w "failed to create DNS provider registry: %w" err)))
      | inl reg =>
          let interval := config.Interval cfg in
          let ipSource := config.IPSource cfg in
          let lastKnown : gmap string string := ∅ in
          if (interval <=? 0)%Z
          then ret (Panicked "non-positive interval for NewTicker")
          else
            _ <- emit (EvNewTicker interval) ;;
            r <- loop fuel ipSource (providers.Providers reg) lastKnown ;;
            match r with
            | Some err =>
                _ <- emit EvTickerStop ;;
                ret (Returned err)
            | None => ret Running
            end
      end
  end.
End service.
End service.

(** ** internal/logger: the logging functions

    [Info], [Warn], [Error] and [Debug] compare the level of the package
    with their own and then call zerolog, or do nothing.  A function
    returns the call it makes: the writers of the logger it is made on and
    the message. *)
Module logging.
Section logging.
Context {World : Type} `{!os_pkg World}.

(** The codes of the levels in zerolog. *)
Definition level_code (l : logger.Level) : Z :=
  match l with
  | logger.DebugLevel => 0
  | logger.InfoLevel => 1
  | logger.WarnLevel => 2
  | logger.ErrorLevel => 3
  end.

(** [logger.X().Msgf(format, args...)]: the level of the event, the format
    and its arguments. *)
Record Msgf : Type := mkMsgf {
  msg_level : logger.Level;
  msg_format : string;
  msg_args : list Arg
}.

Definition Info (g : logger.Globals World) (format : string) (args : list Arg)
  : option (list (logger.Writer World) * Msgf) :=
  if (level_code (logger.logLevel g) <=? level_code logger.InfoLevel)%Z
  then Some (logger.logger g, mkMsgf logger.InfoLevel format args)
  else None.

Definition Warn (g : logger.Globals World) (format : string) (args : list Arg)
  : option (list (logger.Writer World) * Msgf) :=
  if (level_code (logger.logLevel g) <=? level_code logger.WarnLevel)%Z
  then Some (logger.logger g, mkMsgf logger.WarnLevel format args)
  else None.

Definition Error (g : logger.Globals World) (format : string) (args : list Arg)
  : option (list (logger.Writer World) * Msgf) :=
  if (level_code (logger.logLevel g) <=? level_code logger.ErrorLevel)%Z
  then Some (logger.logger g, mkMsgf logger.ErrorLevel format args)
  else None.

Definition Debug (g : logger.Globals World) (format : string) (args : list Arg)
  : option (list (logger.Writer World) * Msgf) :=
  if (level_code (logger.logLevel g) <=? level_code logger.DebugLevel)%Z
  then Some (logger.logger g, mkMsgf logger.DebugLevel format args)
  else None.

(** The function of the package for a level. *)
Definition log (lvl : logger.Level) : logger.Globals World -> string -> list Arg ->
                                      option (list (logger.Writer World) * Msgf) :=
  match lvl with
  | logger.DebugLevel => Debug
  | logger.InfoLevel => Info
  | logger.WarnLevel => Warn
  | logger.ErrorLevel => Error
  end.
End logging.
End logging.

(** ** internal/config: [LoadConfig], and cmd/dynago: [run]

    The entry of the program wraps errors with [fmt.Errorf] from formats
    that have operands before their [%w]; the operands are kept. *)
Inductive Error : Type :=
| Err (e : error)                                              (* an error of the packages above *)
| fmt_Errorf (format : string) (args : list Arg) (err : Error). (* fmt.Errorf(format, args..., err) *)

(** The log of the entry: the read of the configuration file, and what
    the logger and the service log. *)
Inductive MainEvent : Type :=
| EvReadFile (name : string) (ret : option error)
| EvService (e : Event).

(** Code of the packages above, run by the entry: its log is embedded. *)
Definition svc {World A : Type} (m : IO World Event A) : IO World MainEvent A :=
  fun w => let '(a, w', t) := m w in (a, w', prod_map id EvService <$> t).

Module config_file.
Section config_file.
Context {World any : Type}.

(** The struct [raw] of [LoadConfig]: the interval is still a string. *)
Record raw : Type := mkRaw {
  Interval : string;
  IPSource : string;
  LogLevel : string;
  Providers : gmap string any
}.

(** The zero value of [var raw struct {...}]. *)
Definition zero : raw :=
  {| Interval := ""; IPSource := ""; LogLevel := ""; Providers := ∅ |}.

(** os, gopkg.in/yaml.v3 and time, as [LoadConfig] calls them:
    [yaml_Unmarshal_file data out] fills the struct [out]. *)
Class libs := {
  file_bytes : Type;
  os_ReadFile : string -> World -> (file_bytes + error) * World;
  yaml_Unmarshal_file : file_bytes -> raw -> raw * option error;
  time_ParseDuration : string -> Z * option error
}.

Context `{!libs}.

Definition LoadConfig (path : string) : IO World MainEvent (config.Config any + Error) :=
  r <- extern (fun r => EvReadFile path (match r with inl _ => None | inr err => Some err end))
         (os_ReadFile path) ;;
  match r with
  | inr err => ret (inr (fmt_Errorf "failed to read config file %s: %w" [AStr path] (Err err)))
  | inl data =>
      let '(raw, err) := yaml_Unmarshal_file data zero in
      match err with
      | Some err =>
          ret (inr (fmt_Errorf "failed to parse config file %s: %w" [AStr path] (Err err)))
      | None =>
          let '(interval, err) := time_ParseDuration (Interval raw) in
          match err with
          | Some err =>
              ret (inr (fmt_Errorf "invalid interval %q in config file %s: %w"
                          [AStr (Interval raw); AStr path] (Err err)))
          | None =>
              ret (inl {| config.Interval := interval;
                          config.IPSource := IPSource raw;
                          config.LogLevel := LogLevel raw;
                          config.Providers := Providers raw |})
          end
      end
  end.
End config_file.
Arguments raw : clear implicits.
Arguments libs : clear implicits.
End config_file.

Module main.

(** How a call of [run] ends. *)
Inductive Outcome : Type :=
| Returned (err : option Error)
| Panicked (v : string)
| Running.

(** The variables of the package: three are set when the program is
    built, two by the flags. *)
Record Vars : Type := mkVars {
  Version : string;
  BuildTime : string;
  GitCommit : string;
  ConfigPath : string;
  LogFile : string
}.

Section main.
Context {World any : Type}.
Context `{!net_http World} `{!runtime World} `{!cloudflare_go World} `{!aws_sdk World}.
Context `{!strings_pkg} `{!yaml_Marshaler any} `{!os_pkg World}.
Context `{!yaml_Unmarshaler (any := any) cloudflare.CloudflareConfig}.
Context `{!yaml_Unmarshaler (any := any) route53.Route53Config}.
Context `{!config_file.libs World any}.

(** [run].  The context of the service lives in the world, and so does
    the goroutine that cancels it when a signal arrives ([ctx_cancelled],
    [rt_select]); the deferred [cancel()] has no effect the program can
    see.  [g] holds the variables of the logger, which [InitLogger] sets. *)
Definition run (v : Vars) (fuel : nat) (g : logger.Globals World)
  : IO World MainEvent (Outcome * logger.Globals World) :=
  r <- config_file.LoadConfig (ConfigPath v) ;;
  match r with
  | inr err => ret (Returned (Some (fmt_Errorf "failed to load configuration: %w" [] err)), g)
  | inl cfg =>
      r <- svc (lib (logger.InitLogger (LogFile v) (config.LogLevel cfg) g)) ;;
      let '(err, g) := r in
      match err with
      | Some err =>
          ret (Returned (Some (fmt_Errorf "failed to initialize logger: %w" [] (Err err))), g)
      | None =>
          _ <- svc (logger.Debug "Starting dynago version %s (built at %s, commit %s)"
                      [AStr (Version v); AStr (BuildTime v); AStr (GitCommit v)]) ;;
          _ <- svc (logger.Debug "Configuration loaded from %s" [AStr (ConfigPath v)]) ;;
          let dnsService := service.NewDNSUpdateService (Some cfg) in
          o <- svc (service.Start fuel dnsService) ;;
          match o with
          | service.Returned (Some err) =>
              ret (Returned (Some (fmt_Errorf "failed to start DNS update service: %w" []
                                     (Err err))), g)
          | service.Returned None => ret (Returned None, g)
          | service.Panicked v => ret (Panicked v, g)
          | service.Running => ret (Running, g)
          end
      end
  end.
End main.
End main.

(** ** A concrete environment

    Stand-ins for the libraries, in the manner of the stub servers and
    mocks of the repository's tests, on which the definitions above can be
    run. *)
Module stub.

(** Values under [providers:] of a configuration file. *)
Inductive scalar : Type :=
| YNull
| YBool (b : bool)
| YStr (s : string)
| YInt (n : Z).

Inductive yaml : Type :=
| YScalar (v : scalar)
| YMap (m : list (string * scalar)).

(** The world: the context of the service and the signal that will
    cancel it (after that many more blocking calls), the answer of the IP
    source, the zones at the two vendors, and the files that cannot be
    opened. *)
Record World : Type := mkWorld {
  cancelled : bool;
  signal_in : option nat;
  ip_source : Response + error;
  cf_zone : list cf.DNSRecord;
  cf_down : bool;
  r53_zone : list r53types.ResourceRecordSet;
  r53_down : bool;
  locked_files : list string
}.

(** Time passes during a blocking call: the signal may arrive. *)
Definition elapse (w : World) : World :=
  match signal_in w with
  | None => w
  | Some n =>
      {| cancelled := match n with O => true | S _ => cancelled w end;
         signal_in := match n with O => None | S n => Some n end;
         ip_source := ip_source w; cf_zone := cf_zone w; cf_down := cf_down w;
         r53_zone := r53_zone w; r53_down := r53_down w; locked_files := locked_files w |}
  end.

Definition set_cf_zone (z : list cf.DNSRecord) (w : World) : World :=
  {| cancelled := cancelled w; signal_in := signal_in w; ip_source := ip_source w;
     cf_zone := z; cf_down := cf_down w;
     r53_zone := r53_zone w; r53_down := r53_down w; locked_files := locked_files w |}.

Definition set_r53_zone (z : list r53types.ResourceRecordSet) (w : World) : World :=
  {| cancelled := cancelled w; signal_in := signal_in w; ip_source := ip_source w;
     cf_zone := cf_zone w; cf_down := cf_down w;
     r53_zone := z; r53_down := r53_down w; locked_files := locked_files w |}.

(** The select statement: the Done case once the context is cancelled,
    the ticker otherwise. *)
Definition select (w : World) : SelectCase * World :=
  let w := elapse w in
  if cancelled w then (CtxDone, w) else (TickerC, w).

#[export] Instance stub_runtime : runtime World :=
  {| ctx_cancelled := cancelled; rt_select := select |}.

#[export] Instance stub_http : net_http World :=
  {| http_Get := fun url w => (ip_source w, elapse w) |}.

(** strings, on ASCII *)
Definition lower_ascii (c : Ascii.ascii) : Ascii.ascii :=
  let n := Ascii.nat_of_ascii c in
  if ((65 <=? n) && (n <=? 90))%nat then Ascii.ascii_of_nat (n + 32) else c.

Fixpoint ToLower (s : string) : string :=
  match s with
  | EmptyString => EmptyString
  | String c s => String (lower_ascii c) (ToLower s)
  end.

#[export] Instance stub_strings : strings_pkg :=
  {| strings_ToLower := ToLower;
     strings_EqualFold := fun a b => String.eqb (ToLower a) (ToLower b) |}.

(** Cloudflare: the API lists the records of the zone with the given name
    and type, and rewrites the record with the given ID. *)
Definition cf_list (params : cf.ListDNSRecordsParams) (w : World) : list cf.DNSRecord * option error :=
  if cf_down w then ([], Some (lib_error "cloudflare: request failed"))
  else (filter (fun r => cf.Name r = cf.lp_Name params ∧ cf.Type_ r = cf.lp_Type params) (cf_zone w),
        None).

Definition cf_rewrite (params : cf.UpdateDNSRecordParams) (r : cf.DNSRecord) : cf.DNSRecord :=
  if String.eqb (cf.ID r) (cf.up_ID params)
  then {| cf.ID := cf.ID r; cf.Name := cf.up_Name params; cf.Type_ := cf.up_Type params;
          cf.Content := cf.up_Content params |}
  else r.

Definition cf_update (params : cf.UpdateDNSRecordParams) (w : World) : option error * World :=
  if cf_down w then (Some (lib_error "cloudflare: request failed"), elapse w)
  else if existsb (fun r => String.eqb (cf.ID r) (cf.up_ID params)) (cf_zone w)
  then (None, elapse (set_cf_zone (cf_rewrite params <$> cf_zone w) w))
  else (Some (lib_error "cloudflare: record does not exist"), elapse w).

#[export] Instance stub_cloudflare : cloudflare_go World :=
  {| cf_API := string;
     cf_NewWithAPIToken := fun token =>
       if String.eqb token "" then inr (lib_error "invalid credentials") else inl token;
     cf_ListDNSRecords := fun _ _ params w => (cf_list params w, elapse w);
     cf_UpdateDNSRecord := fun _ _ params w => cf_update params w |}.

(** Route53: names are stored with their final dot; UPSERT replaces the
    record set of that name and type, or creates it. *)
Definition same_set (n t : string) (s : r53types.ResourceRecordSet) : bool :=
  String.eqb (ToLower (r53types.Name s)) (ToLower (n ++ ".")) && String.eqb (r53types.Type_ s) t.

Definition r53_list (input : r53types.ListResourceRecordSetsInput) (w : World)
  : list r53types.ResourceRecordSet * option error :=
  if r53_down w then ([], Some (lib_error "route53: request failed"))
  else (take (Z.to_nat (r53types.li_MaxItems input))
          (List.filter (same_set (r53types.li_StartRecordName input)
                                 (r53types.li_StartRecordType input)) (r53_zone w)),
        None).

Definition r53_apply (z : list r53types.ResourceRecordSet) (c : r53types.Change)
  : list r53types.ResourceRecordSet :=
  let s := r53types.ResourceRecordSet_ c in
  let stored := {| r53types.Name := r53types.Name s ++ "."; r53types.Type_ := r53types.Type_ s;
                   r53types.TTL := r53types.TTL s;
                   r53types.ResourceRecords := r53types.ResourceRecords s |} in
  let others := List.filter (fun x => negb (same_set (r53types.Name s) (r53types.Type_ s) x)) z in
  match r53types.Action c with
  | r53types.ChangeActionUpsert => others ++ [stored]
  | r53types.ChangeActionCreate => z ++ [stored]
  | r53types.ChangeActionDelete => others
  end.

Definition r53_change (input : r53types.ChangeResourceRecordSetsInput) (w : World) : option error * World :=
  if r53_down w then (Some (lib_error "route53: request failed"), elapse w)
  else (None, elapse (set_r53_zone (foldl r53_apply (r53_zone w) (r53types.ci_Changes input)) w)).

#[export] Instance stub_aws : aws_sdk World :=
  {| aws_Config := string;
     route53_Client := string;
     awsconfig_LoadDefaultConfig := fun region _ _ w => (inl region, w);
     route53_NewFromConfig := fun c => c;
     route53_ListResourceRecordSets := fun _ input w => (r53_list input w, elapse w);
     route53_ChangeResourceRecordSets := fun _ input w => r53_change input w |}.

#[export] Instance stub_os : os_pkg World :=
  {| os_File := string;
     os_OpenFile := fun name w =>
       if existsb (String.eqb name) (locked_files w)
       then (inr (lib_error "open: permission denied"), w)
       else (inl name, w) |}.

(** yaml: a document is represented by the value it denotes.  A missing
    key or a null leaves the field as it is.  A field of type bool takes a
    boolean, or a string that is one of the words of YAML 1.1 (y, yes, on,
    n, no, off and their capitalisations); any other scalar is an error.
    A field of type string takes any scalar, as its text. *)
#[export] Instance stub_yaml : yaml_Marshaler yaml :=
  {| yaml_data := yaml; yaml_Marshal := fun v => (v, None) |}.

Fixpoint assoc (k : string) (m : list (string * scalar)) : option scalar :=
  match m with
  | [] => None
  | (k', v) :: m => if String.eqb k k' then Some v else assoc k m
  end.

Definition bool_word (s : string) : option bool :=
  if existsb (String.eqb s) ["y"; "Y"; "yes"; "Yes"; "YES"; "on"; "On"; "ON"] then Some true
  else if existsb (String.eqb s) ["n"; "N"; "no"; "No"; "NO"; "off"; "Off"; "OFF"] then Some false
  else None.

Definition field_bool (m : list (string * scalar)) (k : string) (old : bool) : option bool :=
  match assoc k m with
  | None | Some YNull => Some old
  | Some (YBool b) => Some b
  | Some (YStr s) => bool_word s
  | Some (YInt _) => None
  end.

Definition field_string (m : list (string * scalar)) (k : string) (old : string) : option string :=
  match assoc k m with
  | None | Some YNull => Some old
  | Some (YStr s) => Some s
  | Some (YBool b) => Some (if b then "true" else "false")
  | Some (YInt n) => Some (NilZero.string_of_int (Z.to_int n))
  end.

Definition unmarshal_error : error := lib_error "yaml: unmarshal errors".

Definition unmarshal_cloudflare (doc : yaml) (out : cloudflare.CloudflareConfig)
  : cloudflare.CloudflareConfig * option error :=
  match doc with
  | YScalar YNull => (out, None)
  | YMap m =>
      match field_bool m "enabled" (cloudflare.Enabled out),
            field_string m "api_token" (cloudflare.APIToken out),
            field_string m "zone_id" (cloudflare.ZoneID out),
            field_string m "record_name" (cloudflare.RecordName out),
            field_string m "record_type" (cloudflare.RecordType out),
            field_bool m "proxied" (cloudflare.Proxied out) with
      | Some e, Some t, Some z, Some n, Some ty, Some p =>
          (cloudflare.mkCloudflareConfig e t z n ty p, None)
      | _, _, _, _, _, _ => (out, Some unmarshal_error)
      end
  | _ => (out, Some unmarshal_error)
  end.

Definition unmarshal_route53 (doc : yaml) (out : route53.Route53Config)
  : route53.Route53Config * option error :=
  match doc with
  | YScalar YNull => (out, None)
  | YMap m =>
      match field_bool m "enabled" (route53.Enabled out),
            field_string m "access_key_id" (route53.AccessKeyID out),
            field_string m "secret_access_key" (route53.SecretAccessKey out),
            field_string m "hosted_zone_id" (route53.HostedZoneID out),
            field_string m "record_name" (route53.RecordName out),
            field_string m "record_type" (route53.RecordType out),
            field_string m "region" (route53.Region out) with
      | Some e, Some a, Some s, Some h, Some n, Some ty, Some r =>
          (route53.mkRoute53Config e a s h n ty r, None)
      | _, _, _, _, _, _, _ => (out, Some unmarshal_error)
      end
  | _ => (out, Some unmarshal_error)
  end.

#[export] Instance stub_unmarshal_cloudflare : yaml_Unmarshaler cloudflare.CloudflareConfig :=
  {| yaml_Unmarshal := unmarshal_cloudflare |}.
#[export] Instance stub_unmarshal_route53 : yaml_Unmarshaler route53.Route53Config :=
  {| yaml_Unmarshal := unmarshal_route53 |}.

(** The configuration of internal/config's test: Cloudflare enabled,
    Route53 disabled. *)
Definition cloudflare_yaml (enabled : bool) : yaml :=
  YMap [("enabled", YBool enabled); ("api_token", YStr "cf-token"); ("zone_id", YStr "cf-zone");
        ("record_name", YStr "home.example.com"); ("record_type", YStr "A");
        ("proxied", YBool true)].

Definition route53_yaml (enabled : bool) : yaml :=
  YMap [("enabled", YBool enabled); ("access_key_id", YStr "aws-key");
        ("secret_access_key", YStr "aws-secret"); ("hosted_zone_id", YStr "aws-zone");
        ("record_name", YStr "home.example.com"); ("record_type", YStr "A");
        ("region", YStr "us-east-1")].

Definition minutes (n : Z) : Z := (n * 60 * 1000000000)%Z.

Definition sample_config (cf_enabled r53_enabled : bool) : config.Config yaml :=
  {| config.Interval := minutes 5;
     config.IPSource := "https://api.ipify.org";
     config.LogLevel := "info";
     config.Providers := <["cloudflare" := cloudflare_yaml cf_enabled]>
                           (<["route53" := route53_yaml r53_enabled]> ∅) |}.

(** A world: the IP source answers 1.2.3.4, both zones hold an A record
    for home.example.com that says 9.9.9.9. *)
Definition world0 : World :=
  {| cancelled := false;
     signal_in := None;
     ip_source := inl {| StatusCode := 200; Body := ("1.2.3.4", None) |};
     cf_zone := [ {| cf.ID := "rec1"; cf.Name := "home.example.com"; cf.Type_ := "A";
                     cf.Content := "9.9.9.9" |} ];
     cf_down := false;
     r53_zone := [ {| r53types.Name := "home.example.com."; r53types.Type_ := "A";
                      r53types.TTL := 300; r53types.ResourceRecords := ["9.9.9.9"] |} ];
     r53_down := false;
     locked_files := ["/proc/dynago.log"] |}.

Definition with_signal (n : nat) (w : World) : World :=
  {| cancelled := cancelled w; signal_in := Some n; ip_source := ip_source w;
     cf_zone := cf_zone w; cf_down := cf_down w;
     r53_zone := r53_zone w; r53_down := r53_down w; locked_files := locked_files w |}.

Definition with_ip_source (r : Response + error) (w : World) : World :=
  {| cancelled := cancelled w; signal_in := signal_in w; ip_source := r;
     cf_zone := cf_zone w; cf_down := cf_down w;
     r53_zone := r53_zone w; r53_down := r53_down w; locked_files := locked_files w |}.

Definition with_cf_down (w : World) : World :=
  {| cancelled := cancelled w; signal_in := signal_in w; ip_source := ip_source w;
     cf_zone := cf_zone w; cf_down := true;
     r53_zone := r53_zone w; r53_down := r53_down w; locked_files := locked_files w |}.

(** The entry of a provider says [enabled: true]. *)
Definition marks_enabled (raw : yaml) : bool :=
  match raw with
  | YMap m =>
      match assoc "enabled" m with
      | Some (YBool true) => true
      | _ => false
      end
  | YScalar _ => false
  end.

(** A Cloudflare entry that says [enabled: true] and does not decode:
    [proxied: 5] is a number. *)
Definition broken_cloudflare_yaml : yaml :=
  YMap [("enabled", YBool true); ("api_token", YStr "cf-token"); ("zone_id", YStr "cf-zone");
        ("record_name", YStr "home.example.com"); ("record_type", YStr "A");
        ("proxied", YInt 5)].

Definition broken_config : config.Config yaml :=
  {| config.Interval := minutes 5;
     config.IPSource := "https://api.ipify.org";
     config.LogLevel := "info";
     config.Providers := <["cloudflare" := broken_cloudflare_yaml]> ∅ |}.

(** The same broken entry next to a sound, enabled entry for Route53. *)
Definition half_broken_config : config.Config yaml :=
  {| config.Interval := minutes 5;
     config.IPSource := "https://api.ipify.org";
     config.LogLevel := "info";
     config.Providers := <["cloudflare" := broken_cloudflare_yaml]>
                           (<["route53" := route53_yaml true]> ∅) |}.

(** The two adapters, as [New] makes them from the sample entries. *)
Definition cf_provider : cloudflare.CloudflareProvider World :=
  {| cloudflare.Cfg := cloudflare.mkCloudflareConfig true "cf-token" "cf-zone" "home.example.com" "A" true;
     cloudflare.Client := None |}.

Definition r53_provider : route53.Route53Provider World :=
  {| route53.Cfg := route53.mkRoute53Config true "aws-key" "aws-secret" "aws-zone"
                      "home.example.com" "A" "us-east-1";
     route53.Client := None |}.

(** The variables of the logger before [InitLogger]. *)
Definition globals0 : logger.Globals World :=
  {| logger.appWriter := logger.io_Discard;
     logger.logLevel := logger.DebugLevel;
     logger.zerolog_GlobalLevel := logger.DebugLevel;
     logger.logger := [] |}.

(** A run of [Start] in which the signal arrives during the first call to
    Cloudflare. *)
Definition interrupted_run : service.Outcome * World * Trace World Event :=
  service.Start 5 (service.NewDNSUpdateService (Some (sample_config true true)))
    (with_signal 2 world0).

(** The sample configuration with an interval of zero. *)
Definition zero_interval_config : config.Config yaml :=
  {| config.Interval := 0;
     config.IPSource := "https://api.ipify.org";
     config.LogLevel := "info";
     config.Providers := <["cloudflare" := cloudflare_yaml true]>
                           (<["route53" := route53_yaml false]> ∅) |}.

(** The Route53 adapter once it has its client. *)
Definition r53_provider_ready : route53.Route53Provider World :=
  {| route53.Cfg := route53.Cfg r53_provider; route53.Client := Some "us-east-1" |}.

(** The variables of the logger after [InitLogger("", "warn")]. *)
Definition globals_warn : logger.Globals World :=
  {| logger.appWriter := logger.io_Discard;
     logger.logLevel := logger.WarnLevel;
     logger.zerolog_GlobalLevel := logger.WarnLevel;
     logger.logger := [logger.io_Discard; logger.ConsoleWriter] |}.

(** The configuration files: the sample of internal/config's test, the
    same with [interval: 0s], and a file that is not YAML.  A file is
    represented by the struct its text decodes to. *)
Definition sample_raw (interval : string) : config_file.raw yaml :=
  {| config_file.Interval := interval;
     config_file.IPSource := "https://api.ipify.org";
     config_file.LogLevel := "info";
     config_file.Providers := <["cloudflare" := cloudflare_yaml true]>
                                (<["route53" := route53_yaml false]> ∅) |}.

Definition read_file (name : string) : option (option (config_file.raw yaml)) :=
  if String.eqb name "configs/dynago.yml" then Some (Some (sample_raw "5m"))
  else if String.eqb name "configs/zero.yml" then Some (Some (sample_raw "0s"))
  else if String.eqb name "configs/broken.yml" then Some None
  else None.

Definition ParseDuration (s : string) : Z * option error :=
  if String.eqb s "5m" then (minutes 5, None)
  else if String.eqb s "0s" then (0%Z, None)
  else (0%Z, Some (lib_error "time: invalid duration")).

#[export] Instance stub_config_libs : config_file.libs World yaml :=
  {| config_file.file_bytes := option (config_file.raw yaml);
     config_file.os_ReadFile := fun name w =>
       (match read_file name with
        | Some data => inl data
        | None => inr (lib_error "open: no such file or directory")
        end, w);
     config_file.yaml_Unmarshal_file := fun data out =>
       match data with
       | Some r => (r, None)
       | None => (out, Some unmarshal_error)
       end;
     config_file.time_ParseDuration := ParseDuration |}.

(** The variables of cmd/dynago as built without flags of the linker. *)
Definition vars (configPath logFile : string) : main.Vars :=
  {| main.Version := "dev"; main.BuildTime := "unknown"; main.GitCommit := "none";
     main.ConfigPath := configPath; main.LogFile := logFile |}.
End stub.

(** ** Reading configurations and logs *)
Section observations.
Context {World any : Type}.
Context `{!cloudflare_go World} `{!aws_sdk World} `{!runtime World}.
Context `{!strings_pkg} `{!yaml_Marshaler any}.
Context `{!yaml_Unmarshaler (any := any) cloudflare.CloudflareConfig}.
Context `{!yaml_Unmarshaler (any := any) route53.Route53Config}.

(** The configuration has an entry for Cloudflare, the entry decodes, and
    the decoded struct says [enabled: true]. *)
Definition cloudflare_enabled (cfg : config.Config any) : bool :=
  match config.Providers cfg !! "cloudflare" with
  | Some raw =>
      match cloudflare.New (World := World) raw with
      | inl cf => cloudflare.Enabled (cloudflare.Cfg cf)
      | inr _ => false
      end
  | None => false
  end.

Definition route53_enabled (cfg : config.Config any) : bool :=
  match config.Providers cfg !! "route53" with
  | Some raw =>
      match route53.New (World := World) raw with
      | inl r53 => route53.Enabled (route53.Cfg r53)
      | inr _ => false
      end
  | None => false
  end.

(** The error of [NewDNSProviderRegistry]. *)
Definition no_providers_error : error := errors_New "no DNS providers enabled in config".

(** A configuration with the entry of one provider replaced or removed. *)
Definition with_entry (key : string) (raw : option any) (cfg : config.Config any) : config.Config any :=
  {| config.Interval := config.Interval cfg;
     config.IPSource := config.IPSource cfg;
     config.LogLevel := config.LogLevel cfg;
     config.Providers := match raw with
                         | Some raw => <[key := raw]> (config.Providers cfg)
                         | None => delete key (config.Providers cfg)
                         end |}.

(** The entry of a provider that does not decode, and one that decodes to
    a provider that is not enabled. *)
Definition decode_fails (key : string) (raw : any) : Prop :=
  (key = "cloudflare" /\ exists e : error, cloudflare.New (World := World) raw = inr e) \/
  (key = "route53" /\ exists e : error, route53.New (World := World) raw = inr e).

Definition decodes_disabled (key : string) (raw : any) : Prop :=
  (key = "cloudflare" /\
   exists cf, cloudflare.New (World := World) raw = inl cf /\
              cloudflare.Enabled (cloudflare.Cfg cf) = false) \/
  (key = "route53" /\
   exists r53, route53.New (World := World) raw = inl r53 /\
               route53.Enabled (route53.Cfg r53) = false).

(** The names of the providers of a registry, in order. *)
Definition names (ps : list (providers.DNSProvider World)) : list string :=
  providers.name <$> ps.

(** The name of the provider does not depend on the state of its object. *)
Definition fixed_name (p : providers.DNSProvider World) : Prop :=
  forall o : providers.dynamic_type p,
    providers.name (providers.with_receiver p o) = providers.name p.

(** The registry holds the two known providers whose entry is marked
    enabled, where [marked] reads the mark off the entry as it stands in
    the configuration. *)
Definition registry_lists_marked (marked : any -> bool) (cfg : config.Config any) : Prop :=
  forall reg : providers.DNSProviderRegistry World,
    providers.NewDNSProviderRegistry (Some cfg) (service.providersList cfg) = inl reg ->
    forall key : string,
      key ∈ ["cloudflare"; "route53"] ->
      (key ∈ names (providers.Providers reg) <->
       exists raw : any, config.Providers cfg !! key = Some raw /\ marked raw = true).


(** The calls of the methods of the provider of that name. *)
Definition calls_provider (n : string) (e : Event) : bool :=
  match e with
  | EvGetRecordIP n' _ | EvUpdateRecordIP n' _ _ => String.eqb n' n
  | _ => false
  end.

Definition calls_of (n : string) (t : list Event) : list Event :=
  List.filter (calls_provider n) t.

(** The addresses [UpdateRecordIP] was called with, call by call, for the
    provider of that name. *)
Fixpoint updateRecordIP_args (n : string) (t : list Event) : list string :=
  match t with
  | [] => []
  | EvUpdateRecordIP n' ip _ :: t =>
      if String.eqb n' n then ip :: updateRecordIP_args n t else updateRecordIP_args n t
  | _ :: t => updateRecordIP_args n t
  end.

(** The providers whose [GetRecordIP] was called, in the order of the calls. *)
Fixpoint read_providers (t : list Event) : list string :=
  match t with
  | [] => []
  | EvGetRecordIP n _ :: t => n :: read_providers t
  | _ :: t => read_providers t
  end.

(** The service's own part of a log: the library calls made inside a
    provider or inside the IP source client are left out. *)
Definition is_lib (e : Event) : bool :=
  match e with
  | EvLib _ => true
  | _ => false
  end.

Definition service_events (t : Trace World Event) : list Event :=
  List.filter (fun e => negb (is_lib e)) (events t).

(** A call of a method of a provider. *)
Definition is_provider_call (e : Event) : bool :=
  match e with
  | EvGetRecordIP _ _ | EvUpdateRecordIP _ _ _ => true
  | _ => false
  end.

(** No provider is called in a world in which the context is cancelled. *)
Definition no_provider_call_after_cancel (t : Trace World Event) : Prop :=
  forall (w : World) (e : Event),
    (w, e) ∈ t -> ctx_cancelled w = true -> is_provider_call e = false.
End observations.

(** ** Counting in logs *)
Section counting.
Context {World : Type}.

(** The calls of the methods of providers in a log. *)
Definition provider_calls (t : list Event) : list Event :=
  List.filter is_provider_call t.

(** The number of fetches of the public IP, and of ticks taken by the
    select, in a log. *)
Definition is_fetch (e : Event) : bool :=
  match e with
  | EvGetCurrentIP _ _ => true
  | _ => false
  end.

Definition is_tick (e : Event) : bool :=
  match e with
  | EvSelect TickerC => true
  | _ => false
  end.

Definition fetches (t : list Event) : nat := length (List.filter is_fetch t).
Definition ticks (t : list Event) : nat := length (List.filter is_tick t).

(** The entries a pass can log for the service: log lines, the fetch and
    the calls of providers. *)
Definition is_pass_event (e : Event) : bool :=
  match e with
  | logger_Info _ _ | logger_Error _ _ | logger_Debug _ _
  | EvGetCurrentIP _ _ | EvGetRecordIP _ _ | EvUpdateRecordIP _ _ _ => true
  | _ => false
  end.

(** Library calls, by kind. *)
Definition is_load (c : LibCall) : bool :=
  match c with
  | EvLoadDefaultConfig _ _ _ _ => true
  | _ => false
  end.

Definition is_cf_list (c : LibCall) : bool :=
  match c with
  | EvListDNSRecords _ _ _ => true
  | _ => false
  end.

Definition is_cf_write (c : LibCall) : bool :=
  match c with
  | EvUpdateDNSRecord _ _ _ => true
  | _ => false
  end.

Definition is_r53_write (c : LibCall) : bool :=
  match c with
  | EvChangeResourceRecordSets _ _ => true
  | _ => false
  end.

(** A load of the AWS configuration that succeeded. *)
Definition is_loaded (c : LibCall) : bool :=
  match c with
  | EvLoadDefaultConfig _ _ _ None => true
  | _ => false
  end.

(** The number of such loads in a log of the service. *)
Definition is_loaded_event (e : Event) : bool :=
  match e with
  | EvLib c => is_loaded c
  | _ => false
  end.

Definition loads (t : list Event) : nat := length (List.filter is_loaded_event t).
End counting.

(** ** Sequences of calls on one provider

    The service calls the methods of a provider pass after pass on the
    same object; [calls p cs] makes the calls [cs] in order, each on the
    receiver as the one before left it. *)
Section sequences.
Context {World P : Type} (M : providers.DNSProviderMethods World P).

Inductive MethodCall : Type :=
| CallGetRecordIP
| CallUpdateRecordIP (ip : string).

Definition call (p : P) (c : MethodCall) : IO World LibCall P :=
  match c with
  | CallGetRecordIP => r <- providers.GetRecordIP p ;; ret r.2
  | CallUpdateRecordIP ip => r <- providers.UpdateRecordIP p ip ;; ret r.2
  end.

Fixpoint calls (p : P) (cs : list MethodCall) : IO World LibCall P :=
  match cs with
  | [] => ret p
  | c :: cs => p' <- call p c ;; calls p' cs
  end.
End sequences.

(** ** Clients still to be made

    The providers [Start] lists are the two adapters.  [pending p n]: [n]
    is 1 when [p] is a Route53 adapter that has no client yet, and 0
    otherwise. *)
Section clients.
Context {World : Type} `{!cloudflare_go World} `{!aws_sdk World} `{!strings_pkg}.

Inductive pending : providers.DNSProvider World -> nat -> Prop :=
| pending_cloudflare (c : cloudflare.CloudflareProvider World) :
    pending (providers.mkDNSProvider _ cloudflare.CloudflareProvider_DNSProvider c) 0
| pending_route53 (r : route53.Route53Provider World) :
    pending (providers.mkDNSProvider _ route53.Route53Provider_DNSProvider r)
      (match route53.Client r with Some _ => 0 | None => 1 end).

Inductive pendings : list (providers.DNSProvider World) -> nat -> Prop :=
| pendings_nil : pendings [] 0
| pendings_cons p ps n m : pending p n -> pendings ps m -> pendings (p :: ps) (n + m).
End clients.

(** ** Stages of [run] *)
Section stages.
Context {World any : Type} `{!os_pkg World} `{!strings_pkg} `{!config_file.libs World any}.

(** What [LoadConfig] returns to [run]. *)
Definition loaded (v : main.Vars) (w : World) : config.Config any + Error :=
  result (config_file.LoadConfig (main.ConfigPath v)) w.

(** What [InitLogger] returns to [run], and the world it leaves, when the
    configuration is [cfg]. *)
Definition logger_error (v : main.Vars) (g : logger.Globals World) (w : World)
    (cfg : config.Config any) : option error :=
  (result (logger.InitLogger (main.LogFile v) (config.LogLevel cfg) g)
     (world_after (config_file.LoadConfig (main.ConfigPath v)) w)).1.

Definition world_at_start (v : main.Vars) (g : logger.Globals World) (w : World)
    (cfg : config.Config any) : World :=
  world_after (logger.InitLogger (main.LogFile v) (config.LogLevel cfg) g)
    (world_after (config_file.LoadConfig (main.ConfigPath v)) w).

Definition is_read (e : MainEvent) : bool :=
  match e with
  | EvReadFile _ _ => true
  | EvService _ => false
  end.

Definition is_open (e : MainEvent) : bool :=
  match e with
  | EvService (EvLib (EvOpenFile _ _)) => true
  | _ => false
  end.
End stages.

(** * Properties *)

(** A string is not among a few others. *)
Ltac not_listed :=
  let Hin := fresh "Hin" in
  intros Hin;
  repeat (apply elem_of_cons in Hin as [Hin|Hin]; [discriminate|]);
  apply elem_of_nil in Hin; exact Hin.

(** ** The IP source client *)
Section utils_facts.
Context {World : Type} `{!net_http World}.

Lemma GetCurrentIP_unfold (ipSource : string) (w : World) :
  result (utils.GetCurrentIP ipSource) w =
    match (http_Get ipSource w).1 with
    | inr err => ("", Some err)
    | inl resp =>
        if (StatusCode resp =? 200)%Z
        then match Body resp with
             | (_, Some err) => ("", Some err)
             | (body, None) => (body, None)
             end
        else ("", Some (errors_New "failed to fetch IP: non-200 response"))
    end.
Proof.
  unfold result, utils.GetCurrentIP, bind, extern, traced, http_StatusOK.
  destruct (http_Get ipSource w) as [[resp|err] w']; simpl; [|reflexivity].
  destruct (StatusCode resp =? 200)%Z; simpl; [|reflexivity].
  destruct (Body resp) as [body [err|]]; reflexivity.
Qed.

(** C5: when the GET succeeds with a response of status 200 whose body
    reads as B, [GetCurrentIP] returns (B, nil); when the status of the
    response is not 200 it returns the empty string and an error. *)
Theorem GetCurrentIP_status (ipSource : string) (w w' : World) (resp : Response) :
  http_Get ipSource w = (inl resp, w') ->
  (forall B : string,
      StatusCode resp = 200%Z -> Body resp = (B, None) ->
      result (utils.GetCurrentIP ipSource) w = (B, None)) /\
  (StatusCode resp <> 200%Z ->
   result (utils.GetCurrentIP ipSource) w =
     ("", Some (errors_New "failed to fetch IP: non-200 response"))).
Proof.
  intros Hget. rewrite GetCurrentIP_unfold, Hget. simpl. split.
  - intros B -> ->. reflexivity.
  - intros Hne. apply Z.eqb_neq in Hne. rewrite Hne. reflexivity.
Qed.
End utils_facts.

(** ** The logger *)
Section logger_facts.
Context {World : Type} `{!os_pkg World} `{!strings_pkg}.


End logger_facts.

(** ** The registry and the start of the service *)
Section start_facts.
Context {World any : Type}.
Context `{!net_http World} `{!runtime World} `{!cloudflare_go World} `{!aws_sdk World}.
Context `{!strings_pkg} `{!yaml_Marshaler any}.
Context `{!yaml_Unmarshaler (any := any) cloudflare.CloudflareConfig}.
Context `{!yaml_Unmarshaler (any := any) route53.Route53Config}.

Implicit Types (cfg : config.Config any) (w : World) (fuel : nat).

Lemma names_providersList cfg :
  names (service.providersList cfg) =
    (if cloudflare_enabled (World := World) cfg then ["cloudflare"] else []) ++
    (if route53_enabled (World := World) cfg then ["route53"] else []).
Proof.
  unfold names, service.providersList, cloudflare_enabled, route53_enabled.
  destruct (config.Providers cfg !! "cloudflare") as [raw1|];
    [destruct (cloudflare.New raw1) as [cf|?];
     [destruct (cloudflare.Enabled (cloudflare.Cfg cf))|]|];
  (destruct (config.Providers cfg !! "route53") as [raw2|];
    [destruct (route53.New raw2) as [r53|?];
     [destruct (route53.Enabled (route53.Cfg r53))|]|]);
  reflexivity.
Qed.

(** The registry [Start] builds has distinct names, and they are fixed. *)
Lemma providersList_NoDup cfg : NoDup (names (service.providersList cfg)).
Proof.
  rewrite names_providersList.
  destruct (cloudflare_enabled cfg), (route53_enabled cfg); simpl;
    repeat (apply NoDup_cons; split; [not_listed|]); apply NoDup_nil_2.
Qed.

Lemma providersList_fixed_name cfg : Forall fixed_name (service.providersList cfg).
Proof.
  unfold service.providersList.
  destruct (config.Providers cfg !! "cloudflare") as [raw1|];
    [destruct (cloudflare.New raw1) as [cf|?];
     [destruct (cloudflare.Enabled (cloudflare.Cfg cf))|]|];
  (destruct (config.Providers cfg !! "route53") as [raw2|];
    [destruct (route53.New raw2) as [r53|?];
     [destruct (route53.Enabled (route53.Cfg r53))|]|]);
  repeat (apply Forall_cons; split; [intros o; reflexivity|]); apply Forall_nil_2.
Qed.

Lemma providersList_nil cfg :
  service.providersList cfg = [] <->
  cloudflare_enabled (World := World) cfg = false /\ route53_enabled (World := World) cfg = false.
Proof.
  split.
  - intros Hnil. pose proof (names_providersList cfg) as Hn.
    rewrite Hnil in Hn. simpl in Hn.
    destruct (cloudflare_enabled cfg), (route53_enabled cfg); try discriminate. auto.
  - intros [Hc Hr]. pose proof (names_providersList cfg) as Hn.
    rewrite Hc, Hr in Hn. unfold names in Hn.
    destruct (service.providersList cfg); [reflexivity|discriminate].
Qed.

Lemma NewDNSProviderRegistry_unfold {C : Type} (c : option C) (ps : list (providers.DNSProvider World)) :
  providers.NewDNSProviderRegistry c ps =
    match ps with
    | [] => inr no_providers_error
    | _ :: _ => inl {| providers.Providers := ps |}
    end.
Proof. destruct ps; reflexivity. Qed.

(** What [Start] does once the registry is empty. *)
Lemma Start_no_providers cfg fuel w :
  service.providersList cfg = [] ->
  service.Start fuel (service.NewDNSUpdateService (Some cfg)) w =
    (service.Returned
       (Some (fmt_Errorf_w "failed to create DNS provider registry: %w" no_providers_error)),
     w,
     [(w, logger_Info "DNSUpdateService starting... " []);
      (w, logger_Error "No DNS providers enabled: %v" [AErr no_providers_error])]).
Proof.
  intros Hnil. unfold service.Start. simpl. rewrite Hnil. reflexivity.
Qed.

(** [Start] reads the configuration through the list of providers, the
    interval and the IP source only. *)
Lemma Start_ext cfg1 cfg2 fuel w :
  service.providersList cfg1 = service.providersList cfg2 ->
  config.Interval cfg1 = config.Interval cfg2 ->
  config.IPSource cfg1 = config.IPSource cfg2 ->
  service.Start fuel (service.NewDNSUpdateService (Some cfg1)) w =
  service.Start fuel (service.NewDNSUpdateService (Some cfg2)) w.
Proof.
  intros Hl Hi Hs. unfold service.Start. simpl.
  rewrite !NewDNSProviderRegistry_unfold, Hl, Hi, Hs. reflexivity.
Qed.

(** C8: on a service whose configuration is nil, [Start] returns nil at
    once: the world is left as it is and nothing is logged or called. *)
Theorem Start_nil_config fuel w :
  service.Start fuel (service.NewDNSUpdateService None) w = (service.Returned None, w, []).
Proof. reflexivity. Qed.

(** C3: the constructor of the registry fails exactly on the empty list.
    For a configuration in which no provider is enabled it returns its one
    error, and [Start] logs it and returns it, wrapped, without a ticker, a
    select or a call of a provider.  For a configuration in which a
    provider decodes and is enabled the constructor returns the registry
    of the providers listed. *)
Theorem registry_fails_iff_empty cfg :
  (forall (C : Type) (c : option C) (ps : list (providers.DNSProvider World)),
      (exists e : error, providers.NewDNSProviderRegistry c ps = inr e) <-> ps = []) /\
  (cloudflare_enabled (World := World) cfg = false ->
   route53_enabled (World := World) cfg = false ->
   providers.NewDNSProviderRegistry (Some cfg) (service.providersList cfg) = inr no_providers_error /\
   forall fuel w,
     service.Start fuel (service.NewDNSUpdateService (Some cfg)) w =
       (service.Returned
          (Some (fmt_Errorf_w "failed to create DNS provider registry: %w" no_providers_error)),
        w,
        [(w, logger_Info "DNSUpdateService starting... " []);
         (w, logger_Error "No DNS providers enabled: %v" [AErr no_providers_error])])) /\
  (cloudflare_enabled (World := World) cfg = true \/ route53_enabled (World := World) cfg = true ->
   providers.NewDNSProviderRegistry (Some cfg) (service.providersList cfg) =
     inl {| providers.Providers := service.providersList cfg |}).
Proof.
  split; [|split].
  - intros C c ps. rewrite NewDNSProviderRegistry_unfold. destruct ps; split.
    + reflexivity.
    + intros _. eexists. reflexivity.
    + intros [e He]. discriminate.
    + discriminate.
  - intros Hc Hr.
    assert (Hnil : service.providersList cfg = []) by (apply providersList_nil; auto).
    split.
    + rewrite NewDNSProviderRegistry_unfold, Hnil. reflexivity.
    + intros fuel w. apply Start_no_providers, Hnil.
  - intros Hen. rewrite NewDNSProviderRegistry_unfold.
    destruct (service.providersList cfg) eqn:Hl; [|reflexivity].
    apply providersList_nil in Hl. destruct Hl as [Hc Hr], Hen; congruence.
Qed.

(** C4, as the code has it: the providers listed are, by name and in this
    order, Cloudflare if its entry decodes and the decoded configuration is
    enabled, then Route53 likewise; the registry holds that list unchanged,
    and it is the list the update loop of [Start] runs on. *)
Theorem registry_contents cfg :
  names (service.providersList cfg) =
    (if cloudflare_enabled (World := World) cfg then ["cloudflare"] else []) ++
    (if route53_enabled (World := World) cfg then ["route53"] else []) /\
  (forall reg : providers.DNSProviderRegistry World,
      providers.NewDNSProviderRegistry (Some cfg) (service.providersList cfg) = inl reg ->
      providers.Providers reg = service.providersList cfg /\
      forall fuel w,
        (0 < config.Interval cfg)%Z ->
        service.Start fuel (service.NewDNSUpdateService (Some cfg)) w =
          (_ <- logger.Info "DNSUpdateService starting... " [] ;;
           _ <- emit (EvNewTicker (config.Interval cfg)) ;;
           r <- service.loop fuel (config.IPSource cfg) (providers.Providers reg) ∅ ;;
           match r with
           | Some err => _ <- emit EvTickerStop ;; ret (service.Returned err)
           | None => ret service.Running
           end) w).
Proof.
  split; [apply names_providersList|].
  intros reg Hreg. rewrite NewDNSProviderRegistry_unfold in Hreg.
  destruct (service.providersList cfg) as [|p ps] eqn:Hl; [discriminate|].
  injection Hreg as <-. split; [reflexivity|].
  intros fuel w Hpos. unfold service.Start. simpl.
  rewrite NewDNSProviderRegistry_unfold, Hl.
  apply Z.leb_gt in Hpos. rewrite Hpos. reflexivity.
Qed.

Lemma lookup_with_entry_ne key key' raw cfg :
  key <> key' ->
  config.Providers (with_entry key raw cfg) !! key' = config.Providers cfg !! key'.
Proof.
  intros Hne. destruct raw; simpl; [apply lookup_insert_ne|apply lookup_delete_ne]; assumption.
Qed.

Lemma lookup_with_entry_eq key raw cfg :
  config.Providers (with_entry key raw cfg) !! key = raw.
Proof.
  destruct raw; simpl; [apply lookup_insert_eq|apply lookup_delete_eq].
Qed.

(** The list depends on the Cloudflare entry only through what [New]
    makes of it, as far as a disabled or failed construction goes. *)
Lemma providersList_cloudflare_out cfg (raw : option any) :
  cloudflare_enabled (World := World) cfg = false ->
  match raw with
  | Some raw' => match cloudflare.New (World := World) raw' with
                 | inl cf => cloudflare.Enabled (cloudflare.Cfg cf) = false
                 | inr _ => True
                 end
  | None => True
  end ->
  service.providersList (with_entry "cloudflare" raw cfg) = service.providersList cfg.
Proof.
  intros Hoff Hraw. unfold service.providersList, cloudflare_enabled in *.
  rewrite lookup_with_entry_eq, lookup_with_entry_ne by discriminate.
  assert (Hl :
    match raw with
    | Some raw0 =>
        match cloudflare.New (World := World) raw0 with
        | inl cf =>
            if cloudflare.Enabled (cloudflare.Cfg cf)
            then [providers.mkDNSProvider _ cloudflare.CloudflareProvider_DNSProvider cf]
            else []
        | inr _ => []
        end
    | None => []
    end = []).
  { destruct raw as [raw'|]; [|reflexivity].
    destruct (cloudflare.New raw') as [cf|?]; [|reflexivity]. rewrite Hraw. reflexivity. }
  rewrite Hl. clear Hl.
  destruct (config.Providers cfg !! "cloudflare") as [raw1|]; [|reflexivity].
  destruct (cloudflare.New raw1) as [cf|?]; [|reflexivity].
  rewrite Hoff. reflexivity.
Qed.

Lemma providersList_route53_out cfg (raw : option any) :
  route53_enabled (World := World) cfg = false ->
  match raw with
  | Some raw' => match route53.New (World := World) raw' with
                 | inl r53 => route53.Enabled (route53.Cfg r53) = false
                 | inr _ => True
                 end
  | None => True
  end ->
  service.providersList (with_entry "route53" raw cfg) = service.providersList cfg.
Proof.
  intros Hoff Hraw. unfold service.providersList, route53_enabled in *.
  rewrite lookup_with_entry_eq, lookup_with_entry_ne by discriminate.
  destruct (config.Providers cfg !! "route53") as [raw1|].
  - destruct (route53.New raw1) as [r53|?]; [rewrite Hoff|];
      (destruct raw as [raw'|]; [|reflexivity]);
      (destruct (route53.New raw') as [r53'|?]; [rewrite Hraw|]); reflexivity.
  - destruct raw as [raw'|]; [|reflexivity].
    destruct (route53.New raw') as [r53'|?]; [rewrite Hraw|]; reflexivity.
Qed.

Lemma decode_error_not_enabled_cloudflare cfg raw e :
  config.Providers cfg !! "cloudflare" = Some raw ->
  cloudflare.New (World := World) raw = inr e ->
  cloudflare_enabled (World := World) cfg = false.
Proof. intros Hk Hnew. unfold cloudflare_enabled. rewrite Hk, Hnew. reflexivity. Qed.

Lemma decode_error_not_enabled_route53 cfg raw e :
  config.Providers cfg !! "route53" = Some raw ->
  route53.New (World := World) raw = inr e ->
  route53_enabled (World := World) cfg = false.
Proof. intros Hk Hnew. unfold route53_enabled. rewrite Hk, Hnew. reflexivity. Qed.

(** C9: when the entry of a provider (Cloudflare or Route53) fails to
    decode, the provider is not listed, and [Start] behaves, in outcome,
    world and log, exactly as on the configuration without the entry and as
    on any configuration in which the entry decodes to a disabled provider:
    the failure is neither returned nor logged.  When no provider is listed
    without the entry, [Start] returns the error of the empty registry. *)
Theorem construction_errors_swallowed cfg (key : string) (raw : any) :
  config.Providers cfg !! key = Some raw ->
  decode_fails (World := World) key raw ->
  (key ∉ names (service.providersList cfg)) /\
  (forall fuel w,
      service.Start fuel (service.NewDNSUpdateService (Some cfg)) w =
      service.Start fuel (service.NewDNSUpdateService (Some (with_entry key None cfg))) w) /\
  (forall raw' : any,
      decodes_disabled (World := World) key raw' ->
      forall fuel w,
        service.Start fuel (service.NewDNSUpdateService (Some cfg)) w =
        service.Start fuel (service.NewDNSUpdateService (Some (with_entry key (Some raw') cfg))) w) /\
  (service.providersList (with_entry key None cfg) = [] ->
   forall fuel w,
     service.Start fuel (service.NewDNSUpdateService (Some cfg)) w =
       (service.Returned
          (Some (fmt_Errorf_w "failed to create DNS provider registry: %w" no_providers_error)),
        w,
        [(w, logger_Info "DNSUpdateService starting... " []);
         (w, logger_Error "No DNS providers enabled: %v" [AErr no_providers_error])])).
Proof.
  intros Hk Hfail.
  assert (Hout : forall raw'' : option any,
             match raw'' with
             | Some r => decodes_disabled (World := World) key r
             | None => True
             end ->
             service.providersList (with_entry key raw'' cfg) = service.providersList cfg).
  { intros raw'' Hd. destruct Hfail as [[-> [e He]]|[-> [e He]]].
    - apply providersList_cloudflare_out.
      + eapply decode_error_not_enabled_cloudflare; eassumption.
      + destruct raw'' as [r|]; [|exact I].
        destruct Hd as [[_ [cf [Hcf Hoff]]]|[Habs _]]; [|discriminate].
        rewrite Hcf. exact Hoff.
    - apply providersList_route53_out.
      + eapply decode_error_not_enabled_route53; eassumption.
      + destruct raw'' as [r|]; [|exact I].
        destruct Hd as [[Habs _]|[_ [r53 [Hr Hoff]]]]; [discriminate|].
        rewrite Hr. exact Hoff. }
  repeat split.
  - pose proof (names_providersList cfg) as Hn.
    destruct Hfail as [[-> [e He]]|[-> [e He]]].
    + rewrite (decode_error_not_enabled_cloudflare _ _ _ Hk He) in Hn. rewrite Hn.
      destruct (route53_enabled cfg); simpl; not_listed.
    + rewrite (decode_error_not_enabled_route53 _ _ _ Hk He) in Hn. rewrite Hn.
      destruct (cloudflare_enabled cfg); simpl; not_listed.
  - intros fuel w. apply Start_ext; [symmetry; apply (Hout None I)|reflexivity|reflexivity].
  - intros raw' Hd fuel w.
    apply Start_ext; [symmetry; apply (Hout (Some raw') Hd)|reflexivity|reflexivity].
  - intros Hnil fuel w. apply Start_no_providers. rewrite <- (Hout None I). exact Hnil.
Qed.
End start_facts.

(** ** The update pass *)
Section pass_facts.
Context {World : Type} `{!net_http World} `{!runtime World}.

Implicit Types (w : World) (p : providers.DNSProvider World) (ps : list (providers.DNSProvider World)).
Implicit Types (lk : gmap string string) (t : Trace World Event) (n X Y : string).

Lemma events_app t1 t2 : events (t1 ++ t2) = events t1 ++ events t2.
Proof. apply fmap_app. Qed.

Lemma service_events_app t1 t2 :
  service_events (t1 ++ t2) = service_events t1 ++ service_events t2.
Proof. unfold service_events, events. rewrite fmap_app. apply List.filter_app. Qed.

Lemma service_events_lib (t : Trace World LibCall) :
  service_events (prod_map id EvLib <$> t) = [].
Proof.
  unfold service_events, events. induction t as [|[w c] t IH]; [reflexivity|exact IH].
Qed.

Lemma service_events_cons w (e : Event) t :
  service_events ((w, e) :: t) = if is_lib e then service_events t else e :: service_events t.
Proof. unfold service_events. simpl. destruct (is_lib e); reflexivity. Qed.

Lemma call_GetRecordIP_events n p w :
  service_events (trace_of (service.call_GetRecordIP n p) w) =
    [EvGetRecordIP n (result (service.call_GetRecordIP n p) w).1].
Proof.
  unfold trace_of, result, service.call_GetRecordIP, traced, lib.
  destruct (providers.DNSProvider_GetRecordIP p w) as [[r w1] t1]. simpl.
  rewrite service_events_cons, service_events_lib. reflexivity.
Qed.

Lemma call_UpdateRecordIP_events n p X w :
  service_events (trace_of (service.call_UpdateRecordIP n p X) w) =
    [EvUpdateRecordIP n X (result (service.call_UpdateRecordIP n p X) w).1].
Proof.
  unfold trace_of, result, service.call_UpdateRecordIP, traced, lib.
  destruct (providers.DNSProvider_UpdateRecordIP p X w) as [[r w1] t1]. simpl.
  rewrite service_events_cons, service_events_lib. reflexivity.
Qed.

(** The body of the range loop, case by case: what the service logs and
    what becomes of [lastKnown]. *)
Lemma visit_cases X p lk w :
  let n := providers.name p in
  let o := service.visit X p lk w in
  (exists ip e,
      service_events o.2 =
        [EvGetRecordIP n (ip, Some e);
         logger_Error "%s: failed to get DNS record IP: %v" [AStr n; AErr e]] /\
      o.1.1.2 = lk) \/
  (service_events o.2 =
     [EvGetRecordIP n (X, None); logger_Debug "%s: IP unchanged (%s)" [AStr n; AStr X]] /\
   o.1.1.2 = lk) \/
  (exists Y e,
      Y <> X /\
      service_events o.2 =
        [EvGetRecordIP n (Y, None);
         logger_Info "%s: IP mismatch (current: %s, DNS: %s), updating..." [AStr n; AStr X; AStr Y];
         EvUpdateRecordIP n X (Some e);
         logger_Error "%s: failed to update DNS record: %v" [AStr n; AErr e]] /\
      o.1.1.2 = lk) \/
  (exists Y,
      Y <> X /\
      service_events o.2 =
        [EvGetRecordIP n (Y, None);
         logger_Info "%s: IP mismatch (current: %s, DNS: %s), updating..." [AStr n; AStr X; AStr Y];
         EvUpdateRecordIP n X None;
         logger_Info "%s: DNS record updated to %s" [AStr n; AStr X]] /\
      o.1.1.2 = <[n := X]> lk).
Proof.
  intros n o. subst o. unfold service.visit, bind. fold n.
  pose proof (call_GetRecordIP_events n p w) as Hg.
  unfold trace_of, result in Hg.
  destruct (service.call_GetRecordIP n p w) as [[[[dnsIP err] p1] w1] t1]. simpl in Hg.
  destruct err as [e|].
  - left. exists dnsIP, e. unfold logger.Error, emit, bind, ret. simpl.
    rewrite !service_events_app, Hg. split; reflexivity.
  - destruct (String.eqb_spec dnsIP X) as [->|Hne]; simpl.
    + right. left. unfold logger.Debug, emit, bind, ret. simpl.
      rewrite !service_events_app, Hg. split; reflexivity.
    + right. right.
      pose proof (call_UpdateRecordIP_events n p1 X w1) as Hu.
      unfold trace_of, result in Hu.
      destruct (service.call_UpdateRecordIP n p1 X w1) as [[[err p2] w2] t2]. simpl in Hu.
      destruct err as [e|]; [left; exists dnsIP, e|right; exists dnsIP];
        unfold logger.Info, logger.Error, emit, bind, ret; simpl;
        rewrite !service_events_app, Hg, service_events_cons, !service_events_app, Hu;
        repeat split; assumption.
Qed.
Lemma calls_of_app n (l1 l2 : list Event) :
  calls_of n (l1 ++ l2) = calls_of n l1 ++ calls_of n l2.
Proof. apply List.filter_app. Qed.

Lemma calls_of_service n t : calls_of n (events t) = calls_of n (service_events t).
Proof.
  unfold service_events. induction (events t) as [|e l IH]; [reflexivity|].
  destruct e; simpl; rewrite ?IH; reflexivity.
Qed.

Lemma read_providers_app (l1 l2 : list Event) :
  read_providers (l1 ++ l2) = read_providers l1 ++ read_providers l2.
Proof.
  induction l1 as [|e l1 IH]; [reflexivity|]. destruct e; simpl; rewrite ?IH; reflexivity.
Qed.

Lemma read_providers_service t : read_providers (events t) = read_providers (service_events t).
Proof.
  unfold service_events. induction (events t) as [|e l IH]; [reflexivity|].
  destruct e; simpl; rewrite ?IH; reflexivity.
Qed.

Lemma updateRecordIP_args_calls_of n (l : list Event) :
  updateRecordIP_args n l = updateRecordIP_args n (calls_of n l).
Proof.
  induction l as [|e l IH]; [reflexivity|].
  destruct e; simpl; try exact IH;
    destruct (String.eqb _ n) eqn:Hn; simpl; rewrite ?Hn, ?IH; reflexivity.
Qed.

Lemma elem_of_calls_of n (e : Event) (l : list Event) :
  e ∈ calls_of n l <-> e ∈ l /\ calls_provider n e = true.
Proof.
  unfold calls_of. rewrite !list_elem_of_In. apply List.filter_In.
Qed.

(** One iteration says nothing about a provider of another name. *)
Lemma visit_other X p lk w n :
  n <> providers.name p ->
  calls_of n (events (service.visit X p lk w).2) = [] /\
  (service.visit X p lk w).1.1.2 !! n = lk !! n.
Proof.
  intros Hne. rewrite calls_of_service.
  assert (Hb : String.eqb (providers.name p) n = false) by (apply String.eqb_neq; congruence).
  destruct (visit_cases X p lk w) as [(ip & e & -> & ->)|[(-> & ->)|[(Y & e & _ & -> & ->)|(Y & _ & -> & ->)]]];
    simpl; rewrite ?Hb; split; try reflexivity.
  apply lookup_insert_ne. congruence.
Qed.

(** One iteration, for the provider it visits. *)
Lemma visit_same X p lk w :
  let n := providers.name p in
  let o := service.visit X p lk w in
  read_providers (events o.2) = [n] /\
  ((exists ip e, calls_of n (events o.2) = [EvGetRecordIP n (ip, Some e)] /\ o.1.1.2 !! n = lk !! n) \/
   (calls_of n (events o.2) = [EvGetRecordIP n (X, None)] /\ o.1.1.2 !! n = lk !! n) \/
   (exists Y e, Y <> X /\
                calls_of n (events o.2) = [EvGetRecordIP n (Y, None); EvUpdateRecordIP n X (Some e)] /\
                o.1.1.2 !! n = lk !! n) \/
   (exists Y, Y <> X /\
              calls_of n (events o.2) = [EvGetRecordIP n (Y, None); EvUpdateRecordIP n X None] /\
              o.1.1.2 !! n = Some X)).
Proof.
  intros n o. subst o. rewrite calls_of_service, read_providers_service.
  pose proof (String.eqb_refl n) as Hb.
  destruct (visit_cases X p lk w) as [(ip & e & -> & ->)|[(-> & ->)|[(Y & e & HY & -> & ->)|(Y & HY & -> & ->)]]];
    fold n; simpl; rewrite ?Hb; (split; [reflexivity|]).
  - left. eauto.
  - right. left. eauto.
  - right. right. left. eauto.
  - right. right. right. exists Y. rewrite lookup_insert_eq. eauto.
Qed.
(** The providers keep their names through a pass when the names are
    fixed: the registry of the next pass has the names of this one. *)
Lemma with_receiver_fixed_name p (o : providers.dynamic_type p) :
  fixed_name p ->
  providers.name (providers.with_receiver p o) = providers.name p /\
  fixed_name (providers.with_receiver p o).
Proof.
  intros Hfix. split; [apply Hfix|].
  intros o'. destruct p as [P M o0]. simpl in *. unfold fixed_name in Hfix. simpl in Hfix.
  rewrite (Hfix o). apply (Hfix o').
Qed.

Lemma call_GetRecordIP_receiver n p w :
  exists o, (result (service.call_GetRecordIP n p) w).2 = providers.with_receiver p o.
Proof.
  unfold result, service.call_GetRecordIP, providers.DNSProvider_GetRecordIP, traced, lib, bind, ret.
  destruct (providers.GetRecordIP (providers.receiver p) w) as [[[r o] w1] t1].
  exists o. reflexivity.
Qed.

Lemma call_UpdateRecordIP_receiver n p X w :
  exists o, (result (service.call_UpdateRecordIP n p X) w).2 = providers.with_receiver p o.
Proof.
  unfold result, service.call_UpdateRecordIP, providers.DNSProvider_UpdateRecordIP,
    traced, lib, bind, ret.
  destruct (providers.UpdateRecordIP (providers.receiver p) X w) as [[[r o] w1] t1].
  exists o. reflexivity.
Qed.

Lemma visit_names X p lk w :
  fixed_name p ->
  providers.name (service.visit X p lk w).1.1.1 = providers.name p /\
  fixed_name (service.visit X p lk w).1.1.1.
Proof.
  intros Hfix. unfold service.visit, bind, logger.Info, logger.Error, logger.Debug, emit, ret.
  destruct (call_GetRecordIP_receiver (providers.name p) p w) as [o1 Hg]. unfold result in Hg.
  destruct (service.call_GetRecordIP (providers.name p) p w) as [[[[dnsIP err] p1] w1] t1].
  simpl in Hg. subst p1.
  destruct (with_receiver_fixed_name p o1 Hfix) as [Hn1 Hf1].
  destruct err as [e|]; [split; assumption|].
  destruct (negb (dnsIP =? X)%string); [|split; assumption].
  destruct (call_UpdateRecordIP_receiver (providers.name p) (providers.with_receiver p o1) X w1)
    as [o2 Hu]. unfold result in Hu.
  destruct (service.call_UpdateRecordIP (providers.name p) (providers.with_receiver p o1) X w1)
    as [[[err p2] w2] t2].
  simpl in Hu. subst p2.
  destruct (with_receiver_fixed_name (providers.with_receiver p o1) o2 Hf1) as [Hn2 Hf2].
  destruct err as [e|]; (split; [simpl in *; congruence|assumption]).
Qed.

Lemma rangeProviders_names X ps lk w :
  Forall fixed_name ps ->
  names (service.rangeProviders X ps lk w).1.1.1 = names ps /\
  Forall fixed_name (service.rangeProviders X ps lk w).1.1.1.
Proof.
  revert lk w. induction ps as [|p ps IH]; intros lk w Hfix; [split; [reflexivity|constructor]|].
  apply Forall_cons in Hfix as [Hp Hps]. simpl. unfold bind, ret.
  destruct (visit_names X p lk w Hp) as [Hn Hf].
  destruct (service.visit X p lk w) as [[[p1 lk1] w1] t1]. simpl in *.
  destruct (IH lk1 w1 Hps) as [Hns Hfs].
  destruct (service.rangeProviders X ps lk1 w1) as [[[ps2 lk2] w2] t2]. simpl in *.
  split; [rewrite Hn; f_equal; exact Hns|constructor; assumption].
Qed.

Lemma rangeProviders_cons X p ps lk w :
  let v := service.visit X p lk w in
  let r := service.rangeProviders X ps v.1.1.2 v.1.2 in
  (service.rangeProviders X (p :: ps) lk w).2 = v.2 ++ r.2 /\
  (service.rangeProviders X (p :: ps) lk w).1.1.2 = r.1.1.2.
Proof.
  simpl. unfold bind, ret.
  destruct (service.visit X p lk w) as [[[p1 lk1] w1] t1]. simpl.
  destruct (service.rangeProviders X ps lk1 w1) as [[[ps2 lk2] w2] t2]. simpl.
  rewrite app_nil_r. split; reflexivity.
Qed.

(** The range loop reads every provider of the list, once, in order. *)
Lemma rangeProviders_reads X ps lk w :
  read_providers (events (service.rangeProviders X ps lk w).2) = names ps.
Proof.
  revert lk w. induction ps as [|p ps IH]; intros lk w; [reflexivity|].
  destruct (rangeProviders_cons X p ps lk w) as [-> _].
  rewrite events_app, read_providers_app, IH.
  destruct (visit_same X p lk w) as [-> _]. reflexivity.
Qed.

Lemma rangeProviders_other X ps lk w n :
  n ∉ names ps ->
  calls_of n (events (service.rangeProviders X ps lk w).2) = [] /\
  (service.rangeProviders X ps lk w).1.1.2 !! n = lk !! n.
Proof.
  revert lk w. induction ps as [|p ps IH]; intros lk w Hn; [split; reflexivity|].
  apply not_elem_of_cons in Hn as [Hne Hn].
  destruct (rangeProviders_cons X p ps lk w) as [-> ->].
  destruct (visit_other X p lk w n Hne) as [Hc Hl].
  destruct (IH (service.visit X p lk w).1.1.2 (service.visit X p lk w).1.2 Hn) as [Hc' Hl'].
  rewrite events_app, calls_of_app, Hc, Hc', Hl', Hl. split; reflexivity.
Qed.

(** The calls a pass over the list makes to one provider, and the entry of
    that provider in [lastKnown], when the names of the list are distinct. *)
Lemma rangeProviders_same X ps lk w n :
  NoDup (names ps) -> n ∈ names ps ->
  let o := service.rangeProviders X ps lk w in
  (exists ip e, calls_of n (events o.2) = [EvGetRecordIP n (ip, Some e)] /\ o.1.1.2 !! n = lk !! n) \/
  (calls_of n (events o.2) = [EvGetRecordIP n (X, None)] /\ o.1.1.2 !! n = lk !! n) \/
  (exists Y e, Y <> X /\
               calls_of n (events o.2) = [EvGetRecordIP n (Y, None); EvUpdateRecordIP n X (Some e)] /\
               o.1.1.2 !! n = lk !! n) \/
  (exists Y, Y <> X /\
             calls_of n (events o.2) = [EvGetRecordIP n (Y, None); EvUpdateRecordIP n X None] /\
             o.1.1.2 !! n = Some X).
Proof.
  revert lk w. induction ps as [|p ps IH]; intros lk w Hnd Hin; [inversion Hin|].
  simpl in Hnd. apply NoDup_cons in Hnd as [Hfresh Hnd].
  cbv zeta. destruct (rangeProviders_cons X p ps lk w) as [-> ->].
  rewrite events_app, calls_of_app.
  destruct (decide (n = providers.name p)) as [->|Hne].
  - destruct (rangeProviders_other X ps (service.visit X p lk w).1.1.2
                (service.visit X p lk w).1.2 _ Hfresh) as [-> ->].
    rewrite app_nil_r. apply (visit_same X p lk w).
  - destruct (visit_other X p lk w n Hne) as [-> <-]. simpl.
    apply elem_of_cons in Hin as [Hin|Hin]; [contradiction|].
    apply IH; assumption.
Qed.

Lemma pass_unfold src ps lk w :
  service.pass src ps lk w =
    let '((currentIP, err), w1, t1) := utils.GetCurrentIP src w in
    let head := (w, EvGetCurrentIP src (currentIP, err)) :: (prod_map id EvLib <$> t1) in
    match err with
    | Some e => ((ps, lk), w1, head ++ [(w1, logger_Error "Failed to get current IP: %v" [AErr e])])
    | None =>
        let '(o, w2, t2) := service.rangeProviders currentIP ps lk w1 in
        (o, w2, head ++ t2)
    end.
Proof.
  unfold service.pass, bind, traced, lib.
  destruct (utils.GetCurrentIP src w) as [[[currentIP [e|]] w1] t1]; simpl; [reflexivity|].
  destruct (service.rangeProviders currentIP ps lk w1) as [[o w2] t2]. reflexivity.
Qed.

Lemma pass_names src ps lk w :
  Forall fixed_name ps ->
  names (service.pass src ps lk w).1.1.1 = names ps /\
  Forall fixed_name (service.pass src ps lk w).1.1.1.
Proof.
  intros Hfix. rewrite pass_unfold.
  destruct (utils.GetCurrentIP src w) as [[[currentIP [e|]] w1] t1]; simpl; [split; auto|].
  pose proof (rangeProviders_names currentIP ps lk w1 Hfix) as Hr.
  destruct (service.rangeProviders currentIP ps lk w1) as [[o w2] t2]. exact Hr.
Qed.

(** A pass whose fetch succeeded is the range loop, after the fetch. *)
Lemma pass_fetched src ps lk w X :
  result (utils.GetCurrentIP src) w = (X, None) ->
  let r := service.rangeProviders X ps lk (world_after (utils.GetCurrentIP src) w) in
  service_events (service.pass src ps lk w).2 = EvGetCurrentIP src (X, None) :: service_events r.2 /\
  (service.pass src ps lk w).1.1 = r.1.1.
Proof.
  unfold result, world_after. intros Hf. rewrite pass_unfold.
  destruct (utils.GetCurrentIP src w) as [[[currentIP err] w1] t1]. simpl in Hf.
  injection Hf as -> ->. simpl.
  destruct (service.rangeProviders X ps lk w1) as [[o w2] t2]. simpl.
  rewrite service_events_cons, service_events_app, service_events_lib. split; reflexivity.
Qed.

(** A pass whose fetch failed logs the failure and calls no provider. *)
Lemma pass_not_fetched src ps lk w ip e :
  result (utils.GetCurrentIP src) w = (ip, Some e) ->
  (service.pass src ps lk w).1.1 = (ps, lk) /\
  service_events (service.pass src ps lk w).2 =
    [EvGetCurrentIP src (ip, Some e); logger_Error "Failed to get current IP: %v" [AErr e]].
Proof.
  unfold result. intros Hf. rewrite pass_unfold.
  destruct (utils.GetCurrentIP src w) as [[[currentIP err] w1] t1]. simpl in Hf.
  injection Hf as -> ->. simpl.
  rewrite service_events_cons, service_events_app, service_events_lib. split; reflexivity.
Qed.
Lemma pass_fetched_calls src ps lk w X n :
  result (utils.GetCurrentIP src) w = (X, None) ->
  let r := service.rangeProviders X ps lk (world_after (utils.GetCurrentIP src) w) in
  calls_of n (events (service.pass src ps lk w).2) = calls_of n (events r.2) /\
  read_providers (events (service.pass src ps lk w).2) = names ps /\
  (service.pass src ps lk w).1.1.2 = r.1.1.2.
Proof.
  intros Hf. destruct (pass_fetched src ps lk w X Hf) as [He Hr]. cbv zeta.
  rewrite !calls_of_service, read_providers_service, He, Hr. simpl.
  rewrite <- read_providers_service, rangeProviders_reads. repeat split; reflexivity.
Qed.

Lemma read_providers_elem n r (l : list Event) :
  EvGetRecordIP n r ∈ l -> n ∈ read_providers l.
Proof.
  induction l as [|e l IH]; intros Hin; [inversion Hin|].
  apply elem_of_cons in Hin as [<-|Hin]; [left|].
  destruct e; simpl; try right; auto.
Qed.

(** The calls a pass makes to one provider of a registry with distinct
    names, once the fetch has succeeded with [X]. *)
Lemma pass_calls src ps lk w X n :
  NoDup (names ps) ->
  result (utils.GetCurrentIP src) w = (X, None) ->
  n ∈ names ps ->
  let o := service.pass src ps lk w in
  (exists ip e, calls_of n (events o.2) = [EvGetRecordIP n (ip, Some e)] /\ o.1.1.2 !! n = lk !! n) \/
  (calls_of n (events o.2) = [EvGetRecordIP n (X, None)] /\ o.1.1.2 !! n = lk !! n) \/
  (exists Y e, Y <> X /\
               calls_of n (events o.2) = [EvGetRecordIP n (Y, None); EvUpdateRecordIP n X (Some e)] /\
               o.1.1.2 !! n = lk !! n) \/
  (exists Y, Y <> X /\
             calls_of n (events o.2) = [EvGetRecordIP n (Y, None); EvUpdateRecordIP n X None] /\
             o.1.1.2 !! n = Some X).
Proof.
  intros Hnd Hf Hin. cbv zeta.
  destruct (pass_fetched_calls src ps lk w X n Hf) as (-> & _ & ->).
  apply rangeProviders_same; assumption.
Qed.

(** An entry of the log that is a call of provider [n] is among the calls
    of [n]. *)
Ltac in_calls_of H :=
  match type of H with
  | ?e ∈ events ?t =>
      let n := match e with
               | EvGetRecordIP ?n _ => n
               | EvUpdateRecordIP ?n _ _ => n
               end in
      assert (e ∈ calls_of n (events t))
        by (apply elem_of_calls_of; split; [exact H|simpl; apply String.eqb_refl])
  end.

(** Membership in a short explicit list. *)
Ltac in_short_list H :=
  repeat (apply elem_of_cons in H as [H|H]; [try discriminate|]);
  try (apply elem_of_nil in H; contradiction).

(** C1: in a pass whose fetch succeeded with X, over a registry whose
    providers have distinct names, for a provider whose [GetRecordIP]
    returned Y without error: when Y is X the pass never calls its
    [UpdateRecordIP]; when Y is not X the pass calls it exactly once, with
    X. *)
Theorem update_iff_record_differs src ps lk w X Y n :
  NoDup (names ps) ->
  result (utils.GetCurrentIP src) w = (X, None) ->
  EvGetRecordIP n (Y, None) ∈ events (service.pass src ps lk w).2 ->
  (Y = X -> updateRecordIP_args n (events (service.pass src ps lk w).2) = []) /\
  (Y <> X -> updateRecordIP_args n (events (service.pass src ps lk w).2) = [X]).
Proof.
  intros Hnd Hf Hget.
  assert (Hin : n ∈ names ps).
  { destruct (pass_fetched_calls src ps lk w X n Hf) as (_ & <- & _).
    eapply read_providers_elem, Hget. }
  in_calls_of Hget. rewrite (updateRecordIP_args_calls_of n (events _)).
  destruct (pass_calls src ps lk w X n Hnd Hf Hin)
    as [(ip & e & Hc & _)|[(Hc & _)|[(Y' & e & HY & Hc & _)|(Y' & HY & Hc & _)]]];
    rewrite Hc in *; simpl; rewrite ?String.eqb_refl.
  - in_short_list H.
  - in_short_list H. injection H as ->. split; [reflexivity|congruence].
  - in_short_list H. injection H as ->. split; [congruence|reflexivity].
  - in_short_list H. injection H as ->. split; [congruence|reflexivity].
Qed.
(** One turn of the loop on a tick: the pass, then the loop again. *)
Lemma loop_tick fuel src ps lk w0 w :
  rt_select w0 = (TickerC, w) ->
  service.loop (S fuel) src ps lk w0 =
    let '(r, w1, t1) := service.pass src ps lk w in
    let '(b, w2, t2) := service.loop fuel src r.1 r.2 w1 in
    (b, w2, (w0, EvSelect TickerC) :: t1 ++ t2).
Proof.
  intros Hs. simpl. unfold bind at 1. unfold extern, traced. rewrite Hs. simpl.
  unfold bind.
  destruct (service.pass src ps lk w) as [[r w1] t1].
  destruct (service.loop fuel src r.1 r.2 w1) as [[b w2] t2]. reflexivity.
Qed.

(** One turn of the loop on the Done case: it returns nil. *)
Lemma loop_done fuel src ps lk w0 w :
  rt_select w0 = (CtxDone, w) ->
  service.loop (S fuel) src ps lk w0 =
    (Some None, w, [(w0, EvSelect CtxDone); (w, logger_Info "DNSUpdateService stopped" [])]).
Proof.
  intros Hs. simpl. unfold bind at 1. unfold extern, traced. rewrite Hs. reflexivity.
Qed.

Lemma pass_calls_not_fetched src ps lk w ip e n :
  result (utils.GetCurrentIP src) w = (ip, Some e) ->
  calls_of n (events (service.pass src ps lk w).2) = [] /\
  read_providers (events (service.pass src ps lk w).2) = [].
Proof.
  intros Hf. destruct (pass_not_fetched src ps lk w ip e Hf) as [_ He].
  rewrite calls_of_service, read_providers_service, He. split; reflexivity.
Qed.

(** C2: a failure stays with the call that failed.  In a pass, a failed
    fetch of the IP ends the pass with a log line, no call of a provider
    and the registry and [lastKnown] as they were; after a successful fetch
    every provider of the registry is read exactly once, in order, whatever
    fails; over a registry with distinct names, a provider whose
    [GetRecordIP] failed gets no [UpdateRecordIP] and no write to its entry
    of [lastKnown], and one whose [UpdateRecordIP] failed gets no second
    attempt and no write either; and after the pass, whatever failed in
    it, the loop is back at its select. *)
Theorem failure_isolation src ps lk w :
  (forall ip e,
      result (utils.GetCurrentIP src) w = (ip, Some e) ->
      (service.pass src ps lk w).1.1 = (ps, lk) /\
      service_events (service.pass src ps lk w).2 =
        [EvGetCurrentIP src (ip, Some e); logger_Error "Failed to get current IP: %v" [AErr e]]) /\
  (forall X,
      result (utils.GetCurrentIP src) w = (X, None) ->
      read_providers (events (service.pass src ps lk w).2) = names ps) /\
  (NoDup (names ps) ->
   forall n ip e,
     EvGetRecordIP n (ip, Some e) ∈ events (service.pass src ps lk w).2 ->
     updateRecordIP_args n (events (service.pass src ps lk w).2) = [] /\
     (service.pass src ps lk w).1.1.2 !! n = lk !! n) /\
  (NoDup (names ps) ->
   forall n ip e,
     EvUpdateRecordIP n ip (Some e) ∈ events (service.pass src ps lk w).2 ->
     updateRecordIP_args n (events (service.pass src ps lk w).2) = [ip] /\
     (service.pass src ps lk w).1.1.2 !! n = lk !! n) /\
  (forall fuel w0,
      rt_select w0 = (TickerC, w) ->
      service.loop (S fuel) src ps lk w0 =
        let '(r, w1, t1) := service.pass src ps lk w in
        let '(b, w2, t2) := service.loop fuel src r.1 r.2 w1 in
        (b, w2, (w0, EvSelect TickerC) :: t1 ++ t2)).
Proof.
  split; [|split; [|split; [|split]]].
  - intros ip e Hf. apply pass_not_fetched, Hf.
  - intros X Hf. apply (pass_fetched_calls src ps lk w X ""), Hf.
  - intros Hnd n ip e Hget. in_calls_of Hget.
    destruct (result (utils.GetCurrentIP src) w) as [X [e'|]] eqn:Hf.
    + destruct (pass_calls_not_fetched src ps lk w X e' n Hf) as [Hc _].
      rewrite Hc in H. inversion H.
    + assert (Hin : n ∈ names ps).
      { destruct (pass_fetched_calls src ps lk w X n Hf) as (_ & <- & _).
        eapply read_providers_elem, Hget. }
      rewrite (updateRecordIP_args_calls_of n (events _)).
      destruct (pass_calls src ps lk w X n Hnd Hf Hin)
        as [(ip' & e1 & Hc & Hl)|[(Hc & Hl)|[(Y' & e1 & HY & Hc & Hl)|(Y' & HY & Hc & Hl)]]];
        rewrite Hc in *; in_short_list H.
      split; [reflexivity|exact Hl].
  - intros Hnd n ip e Hupd. in_calls_of Hupd.
    destruct (result (utils.GetCurrentIP src) w) as [X [e'|]] eqn:Hf.
    + destruct (pass_calls_not_fetched src ps lk w X e' n Hf) as [Hc _].
      rewrite Hc in H. inversion H.
    + assert (Hin : n ∈ names ps).
      { destruct (decide (n ∈ names ps)) as [Hin|Hout]; [exact Hin|].
        destruct (pass_fetched_calls src ps lk w X n Hf) as (Hc & _ & _).
        rewrite Hc in H.
        destruct (rangeProviders_other X ps lk (world_after (utils.GetCurrentIP src) w) n Hout)
          as [Hnil _].
        rewrite Hnil in H. inversion H. }
      rewrite (updateRecordIP_args_calls_of n (events _)).
      destruct (pass_calls src ps lk w X n Hnd Hf Hin)
        as [(ip' & e1 & Hc & Hl)|[(Hc & Hl)|[(Y' & e1 & HY & Hc & Hl)|(Y' & HY & Hc & Hl)]]];
        rewrite Hc in *; in_short_list H.
      injection H as -> _. simpl. rewrite String.eqb_refl. split; [reflexivity|exact Hl].
  - intros fuel w0. apply loop_tick.
Qed.
(** C7, as the code has it: the loop returns only through the Done case
    of its select, which the runtime takes only once the context is
    cancelled; it then returns nil, and the select and the line that says
    the service stopped are the last entries of its log, so that no call
    follows; when the select takes the Done case the loop returns at that
    turn; and a loop whose select never takes the Done case does not
    return. *)
Theorem loop_returns_only_on_done :
  (forall w, (rt_select w).1 = CtxDone -> ctx_cancelled (rt_select w).2 = true) ->
  (forall fuel src ps lk w r w' t,
      service.loop fuel src ps lk w = (Some r, w', t) ->
      r = None /\ ctx_cancelled w' = true /\
      exists t0 wd,
        rt_select wd = (CtxDone, w') /\
        t = t0 ++ [(wd, EvSelect CtxDone); (w', logger_Info "DNSUpdateService stopped" [])]) /\
  (forall fuel src ps lk w w',
      rt_select w = (CtxDone, w') ->
      service.loop (S fuel) src ps lk w =
        (Some None, w', [(w, EvSelect CtxDone); (w', logger_Info "DNSUpdateService stopped" [])])) /\
  (forall src ps lk w,
      (forall w', (rt_select w').1 = TickerC) ->
      forall fuel, (service.loop fuel src ps lk w).1.1 = None).
Proof.
  intros Hsound. split; [|split].
  - induction fuel as [|fuel IH]; intros src ps lk w r w' t Hrun; [discriminate|].
    destruct (rt_select w) as [[|] w1] eqn:Hs.
    + rewrite (loop_done _ _ _ _ _ _ Hs) in Hrun. injection Hrun as <- <- <-.
      split; [reflexivity|]. split.
      * specialize (Hsound w). rewrite Hs in Hsound. apply Hsound. reflexivity.
      * exists [], w. split; [exact Hs|reflexivity].
    + rewrite (loop_tick _ _ _ _ _ _ Hs) in Hrun.
      destruct (service.pass src ps lk w1) as [[o w2] t1].
      destruct (service.loop fuel src o.1 o.2 w2) as [[b w3] t2] eqn:Hrest.
      injection Hrun as -> -> <-.
      destruct (IH _ _ _ _ _ _ _ Hrest) as (Hr & Hc & t0 & wd & Hd & ->).
      split; [exact Hr|]. split; [exact Hc|].
      exists ((w, EvSelect TickerC) :: t1 ++ t0), wd. split; [exact Hd|].
      simpl. rewrite <- app_assoc. reflexivity.
  - intros fuel src ps lk w w' Hs. apply loop_done, Hs.
  - intros src ps lk w Hnever fuel. revert ps lk w.
    induction fuel as [|fuel IH]; intros ps lk w; [reflexivity|].
    destruct (rt_select w) as [c w1] eqn:Hs.
    pose proof (Hnever w) as Hc. rewrite Hs in Hc. simpl in Hc. subst c.
    rewrite (loop_tick _ _ _ _ _ _ Hs).
    destruct (service.pass src ps lk w1) as [[o w2] t1].
    specialize (IH o.1 o.2 w2).
    destruct (service.loop fuel src o.1 o.2 w2) as [[b w3] t2]. exact IH.
Qed.
End pass_facts.

(** ** The provider adapters *)
Section provider_facts.
Context {World : Type} `{!cloudflare_go World} `{!aws_sdk World} `{!strings_pkg}.

Lemma cloudflare_getClient_Cfg (c : cloudflare.CloudflareProvider World) :
  cloudflare.Cfg (cloudflare.getClient c).2 = cloudflare.Cfg c.
Proof.
  unfold cloudflare.getClient. destruct (cloudflare.Client c); [reflexivity|].
  destruct (cf_NewWithAPIToken _); reflexivity.
Qed.




End provider_facts.

(** Membership in a short explicit list of events. *)
Ltac in_events H :=
  repeat (apply elem_of_cons in H as [H|H]; [try discriminate H|]);
  try (apply elem_of_nil in H; contradiction).

(** ** More on the update loop *)
Section loop_facts.
Context {World : Type} `{!net_http World} `{!runtime World}.

Implicit Types (w : World) (p : providers.DNSProvider World) (ps : list (providers.DNSProvider World)).
Implicit Types (lk : gmap string string) (t : Trace World Event) (n X Y : string).

Lemma elem_of_service_events t (e : Event) :
  e ∈ service_events t <-> e ∈ events t /\ is_lib e = false.
Proof.
  unfold service_events. rewrite !list_elem_of_In, List.filter_In.
  destruct (is_lib e); simpl; intuition congruence.
Qed.

(** Nothing the body of the range loop does depends on [lastKnown]. *)
Lemma visit_lastKnown_unread X p lk1 lk2 w :
  (service.visit X p lk1 w).1.1.1 = (service.visit X p lk2 w).1.1.1 /\
  (service.visit X p lk1 w).1.2 = (service.visit X p lk2 w).1.2 /\
  (service.visit X p lk1 w).2 = (service.visit X p lk2 w).2.
Proof.
  unfold service.visit, bind, logger.Info, logger.Error, logger.Debug, emit, ret.
  destruct (service.call_GetRecordIP (providers.name p) p w) as [[[[dnsIP err] p1] w1] t1].
  destruct err as [e|]; [repeat split|].
  destruct (negb (dnsIP =? X)%string); [|repeat split].
  destruct (service.call_UpdateRecordIP (providers.name p) p1 X w1) as [[[err p2] w2] t2].
  destruct err as [e|]; repeat split.
Qed.

Lemma rangeProviders_lastKnown_unread X ps lk1 lk2 w :
  (service.rangeProviders X ps lk1 w).1.1.1 = (service.rangeProviders X ps lk2 w).1.1.1 /\
  (service.rangeProviders X ps lk1 w).1.2 = (service.rangeProviders X ps lk2 w).1.2 /\
  (service.rangeProviders X ps lk1 w).2 = (service.rangeProviders X ps lk2 w).2.
Proof.
  revert lk1 lk2 w. induction ps as [|p ps IH]; intros lk1 lk2 w; [repeat split|].
  simpl. unfold bind, ret.
  destruct (visit_lastKnown_unread X p lk1 lk2 w) as (Hp & Hw & Ht).
  destruct (service.visit X p lk1 w) as [[[p1 lk1'] w1] t1].
  destruct (service.visit X p lk2 w) as [[[p2 lk2'] w2] t2].
  simpl in Hp, Hw, Ht. subst p2 w2 t2. simpl.
  destruct (IH lk1' lk2' w1) as (Hps & Hws & Hts).
  destruct (service.rangeProviders X ps lk1' w1) as [[[ps1 lk1''] w1'] t1'].
  destruct (service.rangeProviders X ps lk2' w1) as [[[ps2 lk2''] w2'] t2'].
  simpl in *. subst. repeat split.
Qed.

Lemma pass_lastKnown_unread src ps lk1 lk2 w :
  (service.pass src ps lk1 w).1.1.1 = (service.pass src ps lk2 w).1.1.1 /\
  (service.pass src ps lk1 w).1.2 = (service.pass src ps lk2 w).1.2 /\
  (service.pass src ps lk1 w).2 = (service.pass src ps lk2 w).2.
Proof.
  rewrite !pass_unfold.
  destruct (utils.GetCurrentIP src w) as [[[currentIP [e|]] w1] t1]; [repeat split|].
  destruct (rangeProviders_lastKnown_unread currentIP ps lk1 lk2 w1) as (Hps & Hws & Hts).
  destruct (service.rangeProviders currentIP ps lk1 w1) as [[o1 w1'] t1'].
  destruct (service.rangeProviders currentIP ps lk2 w1) as [[o2 w2'] t2'].
  simpl in *. subst. rewrite Hps. repeat split.
Qed.

(** X1: the map [lastKnown] is written and never read: the loop returns
    the same result, leaves the same world and makes the same calls, in the
    same order and with the same results, whatever the map holds. *)
Theorem lastKnown_never_read fuel src ps lk1 lk2 w :
  service.loop fuel src ps lk1 w = service.loop fuel src ps lk2 w.
Proof.
  revert ps lk1 lk2 w. induction fuel as [|fuel IH]; intros ps lk1 lk2 w; [reflexivity|].
  destruct (rt_select w) as [[|] w1] eqn:Hs.
  - rewrite !(loop_done _ _ _ _ _ _ Hs). reflexivity.
  - rewrite !(loop_tick _ _ _ _ _ _ Hs).
    destruct (pass_lastKnown_unread src ps lk1 lk2 w1) as (Hps & Hws & Hts).
    destruct (service.pass src ps lk1 w1) as [[o1 w1'] t1].
    destruct (service.pass src ps lk2 w1) as [[o2 w2'] t2].
    simpl in *. subst. rewrite Hps, (IH o2.1 o1.2 o2.2 w2'). reflexivity.
Qed.

Lemma provider_calls_service t :
  provider_calls (events t) = provider_calls (service_events t).
Proof.
  unfold provider_calls, service_events. induction (events t) as [|e l IH]; [reflexivity|].
  destruct e; simpl; rewrite ?IH; reflexivity.
Qed.

Lemma provider_calls_app (l1 l2 : list Event) :
  provider_calls (l1 ++ l2) = provider_calls l1 ++ provider_calls l2.
Proof. apply List.filter_app. Qed.

(** One iteration: an update carries the fetched IP, is made to the
    provider visited, and follows a read that returned another address. *)
Lemma visit_update_event X p lk w n ip r :
  EvUpdateRecordIP n ip r ∈ events (service.visit X p lk w).2 ->
  ip = X /\ n = providers.name p /\
  exists Y, Y <> X /\ EvGetRecordIP n (Y, None) ∈ events (service.visit X p lk w).2.
Proof.
  intros Hin.
  assert (Hs : EvUpdateRecordIP n ip r ∈ service_events (service.visit X p lk w).2)
    by (apply elem_of_service_events; split; [exact Hin|reflexivity]).
  assert (Hback : forall Y, EvGetRecordIP (providers.name p) (Y, None)
                              ∈ service_events (service.visit X p lk w).2 ->
                            EvGetRecordIP (providers.name p) (Y, None)
                              ∈ events (service.visit X p lk w).2)
    by (intros Y HY; apply elem_of_service_events in HY; tauto).
  destruct (visit_cases X p lk w)
    as [(ip' & e & Hc & _)|[(Hc & _)|[(Y & e & HY & Hc & _)|(Y & HY & Hc & _)]]];
    rewrite Hc in Hs, Hback; in_events Hs; injection Hs as -> -> _;
    (split; [reflexivity|]); (split; [reflexivity|]); exists Y; (split; [exact HY|]);
    apply Hback; left.
Qed.

Lemma visit_lastKnown X p lk w n :
  (service.visit X p lk w).1.1.2 !! n = lk !! n \/
  (n = providers.name p /\ (service.visit X p lk w).1.1.2 !! n = Some X /\
   EvUpdateRecordIP n X None ∈ events (service.visit X p lk w).2).
Proof.
  destruct (decide (n = providers.name p)) as [->|Hne];
    [|left; apply (visit_other X p lk w n Hne)].
  destruct (visit_cases X p lk w)
    as [(ip' & e & Hc & Hl)|[(Hc & Hl)|[(Y & e & HY & Hc & Hl)|(Y & HY & Hc & Hl)]]];
    try (left; rewrite Hl; reflexivity).
  right. split; [reflexivity|]. split; [rewrite Hl; apply lookup_insert_eq|].
  assert (Hs : EvUpdateRecordIP (providers.name p) X None
                 ∈ service_events (service.visit X p lk w).2)
    by (rewrite Hc; do 2 right; left).
  apply elem_of_service_events in Hs. tauto.
Qed.

Lemma visit_call_bound X p lk w :
  length (provider_calls (events (service.visit X p lk w).2)) <= 2.
Proof.
  rewrite provider_calls_service.
  destruct (visit_cases X p lk w)
    as [(ip' & e & -> & _)|[(-> & _)|[(Y & e & HY & -> & _)|(Y & HY & -> & _)]]];
    simpl; lia.
Qed.

Lemma rangeProviders_facts X ps lk w :
  let o := service.rangeProviders X ps lk w in
  (forall n ip r,
      EvUpdateRecordIP n ip r ∈ events o.2 ->
      ip = X /\ n ∈ names ps /\ exists Y, Y <> X /\ EvGetRecordIP n (Y, None) ∈ events o.2) /\
  (forall n,
      o.1.1.2 !! n = lk !! n \/
      (n ∈ names ps /\ o.1.1.2 !! n = Some X /\ EvUpdateRecordIP n X None ∈ events o.2)) /\
  length (provider_calls (events o.2)) <= 2 * length ps.
Proof.
  revert lk w. induction ps as [|p ps IH]; intros lk w; cbv zeta.
  - split; [|split]; [intros n ip r Hin; inversion Hin|intros n; left; reflexivity|simpl; lia].
  - destruct (rangeProviders_cons X p ps lk w) as [-> ->].
    destruct (IH (service.visit X p lk w).1.1.2 (service.visit X p lk w).1.2)
      as (IHu & IHl & IHc).
    rewrite events_app, provider_calls_app, length_app.
    split; [|split].
    + intros n ip r Hin. apply elem_of_app in Hin as [Hin|Hin].
      * destruct (visit_update_event X p lk w n ip r Hin) as (-> & -> & Y & HY & Hg).
        split; [reflexivity|]. split; [left|].
        exists Y. split; [exact HY|]. apply elem_of_app. left. exact Hg.
      * destruct (IHu n ip r Hin) as (-> & Hn & Y & HY & Hg).
        split; [reflexivity|]. split; [right; exact Hn|].
        exists Y. split; [exact HY|]. apply elem_of_app. right. exact Hg.
    + intros n. destruct (IHl n) as [Hsame|(Hn & Hset & Hev)].
      * destruct (visit_lastKnown X p lk w n) as [Hv|(-> & Hv & Hev)].
        -- left. rewrite Hsame. exact Hv.
        -- right. split; [left|]. split; [rewrite Hsame; exact Hv|].
           apply elem_of_app. left. exact Hev.
      * right. split; [right; exact Hn|]. split; [exact Hset|].
        apply elem_of_app. right. exact Hev.
    + pose proof (visit_call_bound X p lk w). simpl. lia.
Qed.

(** X2: a pass writes to [lastKnown] only the address it fetched, and only
    under the name of a provider of the registry whose [UpdateRecordIP] it
    called with that address and saw succeed; every other entry is left as
    it was. *)
Theorem lastKnown_records_updates src ps lk w n :
  (service.pass src ps lk w).1.1.2 !! n = lk !! n \/
  exists X,
    result (utils.GetCurrentIP src) w = (X, None) /\
    n ∈ names ps /\
    (service.pass src ps lk w).1.1.2 !! n = Some X /\
    EvUpdateRecordIP n X None ∈ events (service.pass src ps lk w).2.
Proof.
  unfold result. rewrite pass_unfold.
  destruct (utils.GetCurrentIP src w) as [[[X [e|]] w1] t1]; [left; reflexivity|].
  destruct (rangeProviders_facts X ps lk w1) as (_ & Hl & _).
  destruct (service.rangeProviders X ps lk w1) as [[o w2] t2]. simpl in *.
  destruct (Hl n) as [Hsame|(Hn & Hset & Hev)]; [left; exact Hsame|].
  right. exists X. repeat split; try assumption.
  apply elem_of_cons. right. rewrite events_app. apply elem_of_app. right. exact Hev.
Qed.

Lemma after_fetch_event src w r (t1 : Trace World LibCall) t2 (e : Event) :
  is_lib e = false -> is_fetch e = false ->
  e ∈ events ((w, EvGetCurrentIP src r) :: (prod_map id EvLib <$> t1) ++ t2) <->
  e ∈ events t2.
Proof.
  intros Hlib Hfetch.
  assert (Hs : forall t, e ∈ events t <-> e ∈ service_events t)
    by (intros t; rewrite elem_of_service_events; tauto).
  rewrite !Hs, service_events_cons, service_events_app, service_events_lib. simpl.
  rewrite elem_of_cons. split; [|tauto].
  intros [->|Hin]; [discriminate Hfetch|exact Hin].
Qed.

(** X3: in a pass, every call of [UpdateRecordIP] is made to a provider of
    the registry, with the address the pass fetched, after a
    [GetRecordIP] of that provider returned another address without error;
    and the pass makes at most two calls to providers per entry of the
    registry. *)
Theorem updates_carry_fetched_ip src ps lk w :
  (forall n ip r,
      EvUpdateRecordIP n ip r ∈ events (service.pass src ps lk w).2 ->
      result (utils.GetCurrentIP src) w = (ip, None) /\
      n ∈ names ps /\
      exists Y, Y <> ip /\ EvGetRecordIP n (Y, None) ∈ events (service.pass src ps lk w).2) /\
  length (provider_calls (events (service.pass src ps lk w).2)) <= 2 * length ps.
Proof.
  unfold result. rewrite pass_unfold.
  destruct (utils.GetCurrentIP src w) as [[[X [e|]] w1] t1]; cbv zeta.
  - split.
    + intros n ip r Hin. exfalso. cbn [snd] in Hin.
      apply after_fetch_event in Hin; [|reflexivity|reflexivity]. in_events Hin.
    + cbn [snd app].
      rewrite provider_calls_service, service_events_cons, service_events_app, service_events_lib.
      simpl. lia.
  - destruct (rangeProviders_facts X ps lk w1) as (Hu & _ & Hc).
    destruct (service.rangeProviders X ps lk w1) as [[o w2] t2]. cbn [fst snd] in *.
    split.
    + intros n ip r Hin.
      apply after_fetch_event in Hin; [|reflexivity|reflexivity].
      destruct (Hu n ip r Hin) as (-> & Hn & Y & HY & Hg).
      split; [reflexivity|]. split; [exact Hn|]. exists Y. split; [exact HY|].
      apply after_fetch_event; [reflexivity|reflexivity|exact Hg].
    + cbn [app].
      rewrite provider_calls_service, service_events_cons, service_events_app, service_events_lib.
      simpl. rewrite <- provider_calls_service. exact Hc.
Qed.
Lemma fetches_service t : fetches (events t) = fetches (service_events t).
Proof.
  unfold fetches, service_events. induction (events t) as [|e l IH]; [reflexivity|].
  destruct e; simpl; rewrite ?IH; reflexivity.
Qed.

Lemma ticks_service t : ticks (events t) = ticks (service_events t).
Proof.
  unfold ticks, service_events. induction (events t) as [|e l IH]; [reflexivity|].
  destruct e as [| | | | | | | |[|]|]; simpl; rewrite ?IH; reflexivity.
Qed.

Lemma fetches_app (l1 l2 : list Event) : fetches (l1 ++ l2) = fetches l1 + fetches l2.
Proof. unfold fetches. rewrite List.filter_app, length_app. reflexivity. Qed.

Lemma ticks_app (l1 l2 : list Event) : ticks (l1 ++ l2) = ticks l1 + ticks l2.
Proof. unfold ticks. rewrite List.filter_app, length_app. reflexivity. Qed.

(** The service's entries of the range loop are log lines and calls of
    providers. *)
Lemma visit_events X p lk w :
  Forall (fun e => is_pass_event e = true /\ is_fetch e = false)
    (service_events (service.visit X p lk w).2).
Proof.
  destruct (visit_cases X p lk w)
    as [(ip' & e & -> & _)|[(-> & _)|[(Y & e & HY & -> & _)|(Y & HY & -> & _)]]];
    repeat constructor.
Qed.

Lemma rangeProviders_events X ps lk w :
  Forall (fun e => is_pass_event e = true /\ is_fetch e = false)
    (service_events (service.rangeProviders X ps lk w).2).
Proof.
  revert lk w. induction ps as [|p ps IH]; intros lk w; [constructor|].
  destruct (rangeProviders_cons X p ps lk w) as [-> _].
  rewrite service_events_app. apply Forall_app. split; [apply visit_events|apply IH].
Qed.

Lemma pass_service_events src ps lk w :
  exists r l,
    service_events (service.pass src ps lk w).2 = EvGetCurrentIP src r :: l /\
    Forall (fun e => is_pass_event e = true /\ is_fetch e = false) l.
Proof.
  destruct (result (utils.GetCurrentIP src) w) as [X [e|]] eqn:Hf.
  - destruct (pass_not_fetched src ps lk w X e Hf) as [_ ->].
    eexists _, _. split; [reflexivity|repeat constructor].
  - destruct (pass_fetched src ps lk w X Hf) as [-> _].
    eexists _, _. split; [reflexivity|apply rangeProviders_events].
Qed.

Lemma pass_events_count (l : list Event) :
  Forall (fun e => is_pass_event e = true /\ is_fetch e = false) l ->
  fetches l = 0 /\ ticks l = 0.
Proof.
  induction 1 as [|e l [Hp Hf] _ [IHf IHt]]; [split; reflexivity|].
  unfold fetches, ticks in *. simpl. rewrite Hf.
  destruct e as [| | | | | | | |[|]|]; try discriminate Hp; simpl; auto.
Qed.

(** X4: the loop fetches the public IP exactly once for every tick its
    select takes, and never otherwise; the ticks it takes are at most the
    turns it is given. *)
Theorem one_fetch_per_tick fuel src ps lk w :
  fetches (events (service.loop fuel src ps lk w).2) =
    ticks (events (service.loop fuel src ps lk w).2) /\
  ticks (events (service.loop fuel src ps lk w).2) <= fuel.
Proof.
  revert ps lk w. induction fuel as [|fuel IH]; intros ps lk w;
    [split; [reflexivity|unfold ticks; simpl; lia]|].
  destruct (rt_select w) as [[|] w1] eqn:Hs.
  - rewrite (loop_done _ _ _ _ _ _ Hs). split; [reflexivity|unfold ticks; simpl; lia].
  - rewrite (loop_tick _ _ _ _ _ _ Hs).
    destruct (pass_service_events src ps lk w1) as (r & l & Hl & Hall).
    destruct (pass_events_count l Hall) as [Hf Ht].
    destruct (service.pass src ps lk w1) as [[o w2] t1]. cbn [snd] in Hl.
    specialize (IH o.1 o.2 w2).
    destruct (service.loop fuel src o.1 o.2 w2) as [[b w3] t2]. cbn [snd] in *.
    rewrite fetches_service, ticks_service in IH |- *.
    rewrite service_events_cons, service_events_app, Hl. cbn [is_lib].
    change (EvSelect TickerC :: (EvGetCurrentIP src r :: l) ++ service_events t2)
      with ([EvSelect TickerC; EvGetCurrentIP src r] ++ l ++ service_events t2).
    rewrite !fetches_app, !ticks_app, Hf, Ht.
    destruct IH as [IH1 IH2]. unfold fetches at 1, ticks at 1, ticks at 2. simpl. lia.
Qed.

Lemma loop_returns_nil fuel src ps lk w r :
  (service.loop fuel src ps lk w).1.1 = Some r -> r = None.
Proof.
  revert ps lk w. induction fuel as [|fuel IH]; intros ps lk w Hr; [discriminate Hr|].
  destruct (rt_select w) as [[|] w1] eqn:Hs.
  - rewrite (loop_done _ _ _ _ _ _ Hs) in Hr. injection Hr as <-. reflexivity.
  - rewrite (loop_tick _ _ _ _ _ _ Hs) in Hr.
    destruct (service.pass src ps lk w1) as [[o w2] t1].
    specialize (IH o.1 o.2 w2).
    destruct (service.loop fuel src o.1 o.2 w2) as [[b w3] t2]. apply IH, Hr.
Qed.

(** The entries of the loop for the service are those of its passes and
    its selects. *)
Lemma loop_service_events fuel src ps lk w :
  Forall (fun e => is_pass_event e = true \/ exists c, e = EvSelect c)
    (service_events (service.loop fuel src ps lk w).2).
Proof.
  revert ps lk w. induction fuel as [|fuel IH]; intros ps lk w; [constructor|].
  destruct (rt_select w) as [[|] w1] eqn:Hs.
  - rewrite (loop_done _ _ _ _ _ _ Hs). cbn.
    constructor; [right; eauto|]. constructor; [left; reflexivity|constructor].
  - rewrite (loop_tick _ _ _ _ _ _ Hs).
    destruct (pass_service_events src ps lk w1) as (r & l & Hl & Hall).
    destruct (service.pass src ps lk w1) as [[o w2] t1]. cbn [snd] in Hl.
    specialize (IH o.1 o.2 w2).
    destruct (service.loop fuel src o.1 o.2 w2) as [[b w3] t2]. cbn [snd] in *.
    rewrite service_events_cons, service_events_app, Hl. cbn [is_lib].
    constructor; [right; eauto|]. apply Forall_app. split; [|exact IH].
    constructor; [left; reflexivity|].
    eapply Forall_impl; [exact Hall|]. intros e [He _]. left. exact He.
Qed.
End loop_facts.

(** ** More on the start of the service *)
Section start_outcomes.
Context {World any : Type}.
Context `{!net_http World} `{!runtime World} `{!cloudflare_go World} `{!aws_sdk World}.
Context `{!strings_pkg} `{!yaml_Marshaler any}.
Context `{!yaml_Unmarshaler (any := any) cloudflare.CloudflareConfig}.
Context `{!yaml_Unmarshaler (any := any) route53.Route53Config}.

Implicit Types (cfg : config.Config any) (w : World) (fuel : nat).

(** [Start] on a configuration, by cases. *)
Lemma Start_unfold cfg fuel w :
  service.Start fuel (service.NewDNSUpdateService (Some cfg)) w =
    let starting := (w, logger_Info "DNSUpdateService starting... " []) in
    match service.providersList cfg with
    | [] =>
        (service.Returned
           (Some (fmt_Errorf_w "failed to create DNS provider registry: %w" no_providers_error)),
         w,
         [starting; (w, logger_Error "No DNS providers enabled: %v" [AErr no_providers_error])])
    | _ :: _ =>
        if (config.Interval cfg <=? 0)%Z
        then (service.Panicked "non-positive interval for NewTicker", w, [starting])
        else
          let '(r, w', t) :=
            service.loop fuel (config.IPSource cfg) (service.providersList cfg) ∅ w in
          match r with
          | Some err =>
              (service.Returned err, w',
               starting :: (w, EvNewTicker (config.Interval cfg)) :: t ++ [(w', EvTickerStop)])
          | None =>
              (service.Running, w', starting :: (w, EvNewTicker (config.Interval cfg)) :: t)
          end
    end.
Proof.
  unfold service.Start. cbn [service.cfg service.NewDNSUpdateService].
  rewrite NewDNSProviderRegistry_unfold.
  destruct (service.providersList cfg) as [|p ps]; [reflexivity|].
  cbn [providers.Providers].
  destruct (config.Interval cfg <=? 0)%Z; [reflexivity|].
  unfold bind, logger.Info, emit, ret. cbn.
  destruct (service.loop fuel (config.IPSource cfg) (p :: ps) ∅ w) as [[[err|] w'] t];
    cbn; rewrite ?app_nil_r; reflexivity.
Qed.

(** X5: the only error [Start] ever returns is the one for an empty
    registry: no failure of the IP source or of a provider, in any pass,
    makes [Start] return an error. *)
Theorem Start_error_is_empty_registry fuel (s : service.DNSUpdateService) w (e : error) :
  (service.Start fuel s w).1.1 = service.Returned (Some e) ->
  exists cfg,
    service.cfg s = Some cfg /\
    service.providersList cfg = [] /\
    e = fmt_Errorf_w "failed to create DNS provider registry: %w" no_providers_error.
Proof.
  destruct s as [[cfg|]]; [|discriminate].
  change {| service.cfg := Some cfg |} with (service.NewDNSUpdateService (Some cfg)).
  rewrite Start_unfold. cbv zeta.
  destruct (service.providersList cfg) as [|p ps] eqn:Hl.
  - intros [= <-]. exists cfg. repeat split. exact Hl.
  - destruct (config.Interval cfg <=? 0)%Z; [discriminate|].
    pose proof (loop_returns_nil fuel (config.IPSource cfg) (p :: ps) ∅ w) as Hnil.
    destruct (service.loop fuel (config.IPSource cfg) (p :: ps) ∅ w) as [[[err|] w'] t];
      [|discriminate].
    intros [= ->]. specialize (Hnil (Some e) eq_refl). discriminate Hnil.
Qed.

(** X6: [Start] panics exactly when a provider is listed and the interval
    is not positive; it has then logged its first line and nothing else:
    no ticker, no select, no fetch, no call of a provider. *)
Theorem Start_panics_on_nonpositive_interval cfg fuel w :
  ((exists v, (service.Start fuel (service.NewDNSUpdateService (Some cfg)) w).1.1 =
                service.Panicked v) <->
   service.providersList cfg <> [] /\ (config.Interval cfg <= 0)%Z) /\
  (service.providersList cfg <> [] ->
   (config.Interval cfg <= 0)%Z ->
   service.Start fuel (service.NewDNSUpdateService (Some cfg)) w =
     (service.Panicked "non-positive interval for NewTicker", w,
      [(w, logger_Info "DNSUpdateService starting... " [])])).
Proof.
  rewrite Start_unfold. cbv zeta.
  destruct (service.providersList cfg) as [|p ps] eqn:Hl.
  - split; [split|]; [intros [v Hv]; discriminate Hv|intros [Hne _]; contradiction|contradiction].
  - destruct (Z.leb_spec (config.Interval cfg) 0) as [Hle|Hgt].
    + split; [split|]; [intros _; split; [discriminate|exact Hle]|eauto|reflexivity].
    + split; [split|].
      * intros [v Hv].
        destruct (service.loop fuel (config.IPSource cfg) (p :: ps) ∅ w) as [[[err|] w'] t];
          discriminate Hv.
      * intros [_ Hle]. lia.
      * intros _ Hle. lia.
Qed.

(** X7: the ticker is stopped exactly when it was created and [Start]
    returned: [Start] never returns leaving its ticker running, and stops
    no ticker while its loop runs. *)
Theorem ticker_stopped_iff_returned fuel (s : service.DNSUpdateService) w :
  EvTickerStop ∈ events (service.Start fuel s w).2 <->
  (exists d, EvNewTicker d ∈ events (service.Start fuel s w).2) /\
  (exists err, (service.Start fuel s w).1.1 = service.Returned err).
Proof.
  destruct s as [[cfg|]].
  - change {| service.cfg := Some cfg |} with (service.NewDNSUpdateService (Some cfg)).
    rewrite Start_unfold. cbv zeta.
    destruct (service.providersList cfg) as [|p ps] eqn:Hl.
    + cbn. split; [intros Hin; in_events Hin|intros [[d Hin] _]; in_events Hin].
    + destruct (config.Interval cfg <=? 0)%Z.
      * cbn. split; [intros Hin; in_events Hin|intros [[d Hin] _]; in_events Hin].
      * pose proof (loop_service_events fuel (config.IPSource cfg) (p :: ps) ∅ w) as Hall.
        destruct (service.loop fuel (config.IPSource cfg) (p :: ps) ∅ w) as [[r w'] t].
        cbn [snd] in Hall.
        assert (Hno : EvTickerStop ∉ events t).
        { intros Hin.
          assert (Hs : EvTickerStop ∈ service_events t)
            by (apply elem_of_service_events; split; [exact Hin|reflexivity]).
          rewrite Forall_forall in Hall. destruct (Hall _ Hs) as [Hp|[c Hc]]; discriminate. }
        destruct r as [err|]; cbn [fst snd].
        -- split.
           ++ intros _. split; [exists (config.Interval cfg); cbn; right; left|eauto].
           ++ intros _. unfold events. rewrite !fmap_cons, fmap_app.
              do 2 right. apply elem_of_app. right. left.
        -- split.
           ++ intros Hin. exfalso. unfold events in Hin. rewrite !fmap_cons in Hin.
              in_events Hin. apply Hno. exact Hin.
           ++ intros [_ [err Herr]]. discriminate Herr.
  - cbn. split; [intros Hin; in_events Hin|intros [[d Hin] _]; in_events Hin].
Qed.
End start_outcomes.

(** ** More on the adapters and the IP source client *)
Section adapter_facts.
Context {World : Type} `{!net_http World} `{!cloudflare_go World} `{!aws_sdk World} `{!strings_pkg}.

(** X8: the IP source client makes exactly one GET, in the world it is
    called in, and leaves the world as the GET leaves it; an error of the
    transport is returned as it is; and whenever it returns an error the
    address it returns is empty. *)
Theorem GetCurrentIP_one_request (ipSource : string) (w : World) :
  trace_of (utils.GetCurrentIP ipSource) w = [(w, EvHttpGet ipSource (http_Get ipSource w).1)] /\
  world_after (utils.GetCurrentIP ipSource) w = (http_Get ipSource w).2 /\
  (forall e, (http_Get ipSource w).1 = inr e ->
             result (utils.GetCurrentIP ipSource) w = ("", Some e)) /\
  (forall ip e, result (utils.GetCurrentIP ipSource) w = (ip, Some e) -> ip = "").
Proof.
  unfold trace_of, world_after, result, utils.GetCurrentIP, bind, extern, traced, ret.
  destruct (http_Get ipSource w) as [[resp|err] w1]; cbn.
  - destruct (negb (StatusCode resp =? http_StatusOK)%Z); cbn.
    + repeat split; try discriminate. intros ip e [= <- _]. reflexivity.
    + destruct (Body resp) as [body [err|]]; cbn; repeat split; try discriminate.
      intros ip e [= <- _]. reflexivity.
  - repeat split.
    + intros e [= <-]. reflexivity.
    + intros ip e [= <- _]. reflexivity.
Qed.

(** X9: the Cloudflare adapter makes its client at most once.  A client
    that is made is kept, and from then on [getClient] returns it and
    changes nothing; a failure to make it leaves the adapter as it was, so
    that the next call tries again; the configuration is never changed,
    and both methods return the adapter as [getClient] leaves it. *)
Theorem cloudflare_client_cached (c : cloudflare.CloudflareProvider World) :
  cloudflare.Cfg (cloudflare.getClient c).2 = cloudflare.Cfg c /\
  (forall api, (cloudflare.getClient c).1 = inl api ->
               cloudflare.Client (cloudflare.getClient c).2 = Some api /\
               cloudflare.getClient (cloudflare.getClient c).2 = (inl api, (cloudflare.getClient c).2)) /\
  (forall e, (cloudflare.getClient c).1 = inr e -> (cloudflare.getClient c).2 = c) /\
  (forall w, (result (cloudflare.GetRecordIP c) w).2 = (cloudflare.getClient c).2) /\
  (forall ip w, (result (cloudflare.UpdateRecordIP c ip) w).2 = (cloudflare.getClient c).2).
Proof.
  split; [apply cloudflare_getClient_Cfg|]. split; [|split; [|split]].
  - unfold cloudflare.getClient. intros api.
    destruct (cloudflare.Client c) as [api0|] eqn:Hc; cbn.
    + intros [= <-]. rewrite Hc. split; reflexivity.
    + destruct (cf_NewWithAPIToken _) as [api1|e]; cbn; [|discriminate].
      intros [= <-]. split; reflexivity.
  - unfold cloudflare.getClient. intros e.
    destruct (cloudflare.Client c) as [api0|]; [discriminate|].
    destruct (cf_NewWithAPIToken _) as [api1|e1]; [discriminate|reflexivity].
  - intros w. unfold result, cloudflare.GetRecordIP.
    destruct (cloudflare.getClient c) as [[client|err] c']; cbn; [|reflexivity].
    unfold bind, extern, traced.
    destruct (cf_ListDNSRecords _ _ _ w) as [[records [err|]] w1]; cbn; [reflexivity|].
    destruct (List.find _ records); reflexivity.
  - intros ip w. unfold result, cloudflare.UpdateRecordIP.
    destruct (cloudflare.getClient c) as [[client|err] c']; cbn; [|reflexivity].
    unfold bind, extern, traced.
    destruct (cf_ListDNSRecords _ _ _ w) as [[records [err|]] w1]; cbn; [reflexivity|].
    destruct (List.find _ records) as [record|]; cbn; [|reflexivity].
    destruct (cf_UpdateDNSRecord _ _ _ w1) as [err w2]. reflexivity.
Qed.

Lemma cloudflare_matches_getClient (c : cloudflare.CloudflareProvider World) :
  cloudflare.matches (cloudflare.getClient c).2 = cloudflare.matches c /\
  cloudflare.listParams (cloudflare.getClient c).2 = cloudflare.listParams c /\
  cloudflare.ZoneID (cloudflare.Cfg (cloudflare.getClient c).2) = cloudflare.ZoneID (cloudflare.Cfg c).
Proof.
  unfold cloudflare.matches, cloudflare.listParams.
  rewrite cloudflare_getClient_Cfg. repeat split.
Qed.

(** X10: [GetRecordIP] of the Cloudflare adapter only reads: it makes at
    most one call, a listing, and no write.  When it succeeds, the address
    is the content of the first listed record whose name and type are the
    configured ones, whatever else the API lists; when it fails, the
    address is empty. *)
Theorem cloudflare_GetRecordIP_reads (c : cloudflare.CloudflareProvider World) (w : World) :
  length (cloudflare.GetRecordIP c w).2 <= 1 /\
  Forall (fun x => is_cf_list x.2 = true) (cloudflare.GetRecordIP c w).2 /\
  (forall ip,
      (result (cloudflare.GetRecordIP c) w).1 = (ip, None) ->
      exists client records record,
        (cloudflare.getClient c).1 = inl client /\
        (cf_ListDNSRecords client (cloudflare.ZoneID (cloudflare.Cfg c))
           (cloudflare.listParams c) w).1 = (records, None) /\
        List.find (cloudflare.matches c) records = Some record /\
        record ∈ records /\
        cf.Name record = cloudflare.RecordName (cloudflare.Cfg c) /\
        cf.Type_ record = cloudflare.RecordType (cloudflare.Cfg c) /\
        cf.Content record = ip) /\
  (forall ip e, (result (cloudflare.GetRecordIP c) w).1 = (ip, Some e) -> ip = "").
Proof.
  destruct (cloudflare_matches_getClient c) as (Hm & Hp & Hz).
  unfold result, cloudflare.GetRecordIP.
  destruct (cloudflare.getClient c) as [[client|err] c'] eqn:Hg; cbn in *.
  - unfold bind, extern, traced. rewrite Hm, Hp, Hz.
    destruct (cf_ListDNSRecords client (cloudflare.ZoneID (cloudflare.Cfg c))
                (cloudflare.listParams c) w) as [[records [err|]] w1] eqn:Hl; cbn.
    + repeat split; try lia; try discriminate; [repeat constructor|].
      intros ip e [= <- _]. reflexivity.
    + destruct (List.find (cloudflare.matches c) records) as [record|] eqn:Hf; cbn.
      * repeat split; try lia; try discriminate; [repeat constructor|].
        intros ip [= <-]. exists client, records, record.
        destruct (List.find_some _ _ Hf) as [Hin Hmatch].
        unfold cloudflare.matches in Hmatch. apply andb_true_iff in Hmatch as [Hn Ht].
        apply String.eqb_eq in Hn, Ht.
        split; [reflexivity|]. split; [rewrite Hl; reflexivity|].
        split; [exact Hf|]. split; [apply list_elem_of_In; exact Hin|].
        split; [exact Hn|]. split; [exact Ht|reflexivity].
      * repeat split; try lia; try discriminate; [repeat constructor|].
        intros ip e [= <- _]. reflexivity.
  - repeat split; try (cbn; lia); try discriminate; [constructor|].
    intros ip e [= <- _]. reflexivity.
Qed.

(** X11: [UpdateRecordIP] of the Cloudflare adapter makes at most two
    calls, of which at most one is a write.  A write follows a listing
    that succeeded, goes to the configured zone and to the first listed
    record whose name and type are the configured ones, carries the given
    address with the configured name, type and proxy flag, and what it
    returns is the result of the method. *)
Theorem cloudflare_UpdateRecordIP_writes (c : cloudflare.CloudflareProvider World)
    (ip : string) (w : World) :
  length (trace_of (cloudflare.UpdateRecordIP c ip) w) <= 2 /\
  length (List.filter is_cf_write (events (trace_of (cloudflare.UpdateRecordIP c ip) w))) <= 1 /\
  (forall w' zone params r,
      (w', EvUpdateDNSRecord zone params r) ∈ trace_of (cloudflare.UpdateRecordIP c ip) w ->
      zone = cloudflare.ZoneID (cloudflare.Cfg c) /\
      cf.up_Content params = ip /\
      cf.up_Name params = cloudflare.RecordName (cloudflare.Cfg c) /\
      cf.up_Type params = cloudflare.RecordType (cloudflare.Cfg c) /\
      cf.up_Proxied params = cloudflare.Proxied (cloudflare.Cfg c) /\
      r = (result (cloudflare.UpdateRecordIP c ip) w).1 /\
      exists client records record,
        (cloudflare.getClient c).1 = inl client /\
        cf_ListDNSRecords client (cloudflare.ZoneID (cloudflare.Cfg c))
          (cloudflare.listParams c) w = ((records, None), w') /\
        List.find (cloudflare.matches c) records = Some record /\
        cf.up_ID params = cf.ID record).
Proof.
  destruct (cloudflare_matches_getClient c) as (Hm & Hp & Hz).
  pose proof (cloudflare_getClient_Cfg c) as Hcfg.
  unfold trace_of, result, cloudflare.UpdateRecordIP.
  destruct (cloudflare.getClient c) as [[client|err] c'] eqn:Hg; cbn in *.
  - unfold bind, extern, traced. rewrite Hm, Hp, Hz.
    destruct (cf_ListDNSRecords client (cloudflare.ZoneID (cloudflare.Cfg c))
                (cloudflare.listParams c) w) as [[records [err|]] w1] eqn:Hl; cbn.
    + split; [lia|]. split; [lia|]. intros w' zone params r Hin.
      apply list_elem_of_singleton in Hin. discriminate.
    + destruct (List.find (cloudflare.matches c) records) as [record|] eqn:Hf; cbn.
      * destruct (cf_UpdateDNSRecord client (cloudflare.ZoneID (cloudflare.Cfg c))
                    (cloudflare.editParams c' record ip) w1) as [err w2] eqn:Hu; cbn.
        split; [lia|]. split; [lia|]. intros w' zone params r Hin.
        apply elem_of_cons in Hin as [Hin|Hin]; [discriminate|].
        apply list_elem_of_singleton in Hin. injection Hin as -> -> -> ->.
        unfold cloudflare.editParams; cbn. rewrite Hcfg.
        repeat (split; [reflexivity|]).
        exists client, records, record.
        split; [reflexivity|]. split; [exact Hl|]. split; [exact Hf|reflexivity].
      * split; [lia|]. split; [lia|]. intros w' zone params r Hin.
        apply list_elem_of_singleton in Hin. discriminate.
  - split; [lia|]. split; [lia|]. intros w' zone params r Hin.
    apply elem_of_nil in Hin. contradiction.
Qed.

(** What one call of a method of the Route53 adapter does about the
    client: with a client it loads nothing and leaves the adapter as it
    is; without one it begins with the one load of the call, and keeps the
    client that a successful load gives. *)
Lemma route53_getClient_loads (r : route53.Route53Provider World) (w : World) :
  route53.Cfg (result (route53.getClient r) w).2 = route53.Cfg r /\
  match route53.Client r with
  | Some client => route53.getClient r w = ((inl client, r), w, [])
  | None =>
      exists x,
        events (trace_of (route53.getClient r) w) =
          [EvLoadDefaultConfig (route53.Region (route53.Cfg r))
             (route53.AccessKeyID (route53.Cfg r))
             (route53.SecretAccessKey (route53.Cfg r)) x] /\
        match x with
        | None => exists client,
            (result (route53.getClient r) w).1 = inl client /\
            route53.Client (result (route53.getClient r) w).2 = Some client
        | Some e => result (route53.getClient r) w = (inr e, r)
        end
  end.
Proof.
  unfold result, trace_of, route53.getClient.
  destruct (route53.Client r) as [client|]; [split; reflexivity|].
  unfold bind, extern, traced.
  destruct (awsconfig_LoadDefaultConfig _ _ _ w) as [[awsCfg|err] w1]; cbn.
  - split; [reflexivity|]. exists None. split; [reflexivity|]. eexists. split; reflexivity.
  - split; [reflexivity|]. exists (Some err). split; reflexivity.
Qed.

Lemma route53_call_unfold (r : route53.Route53Provider World) (c : MethodCall) (w : World) :
  result (call route53.Route53Provider_DNSProvider r c) w = (result (route53.getClient r) w).2 /\
  exists rest,
    events (trace_of (call route53.Route53Provider_DNSProvider r c) w) =
      events (trace_of (route53.getClient r) w) ++ rest /\
    List.filter is_load rest = [] /\
    (forall e, (result (route53.getClient r) w).1 = inr e -> rest = []).
Proof.
  unfold result, trace_of, call; cbn.
  destruct c as [|ip].
  - unfold route53.GetRecordIP, bind.
    destruct (route53.getClient r w) as [[[[client|err] r'] w1] t1]; cbn.
    + unfold extern, traced.
      destruct (route53_ListResourceRecordSets _ _ w1) as [[sets [err|]] w2]; cbn.
      * rewrite !app_nil_r. split; [reflexivity|].
        rewrite fmap_app. eexists. split; [reflexivity|]. split; [reflexivity|discriminate].
      * destruct (List.find _ sets); cbn; rewrite !app_nil_r;
          (split; [reflexivity|]; rewrite fmap_app; eexists; split; [reflexivity|];
           split; [reflexivity|discriminate]).
    + rewrite !app_nil_r. split; [reflexivity|]. exists []. rewrite !app_nil_r. repeat split.
  - unfold route53.UpdateRecordIP, bind.
    destruct (route53.getClient r w) as [[[[client|err] r'] w1] t1]; cbn.
    + unfold extern, traced.
      destruct (route53_ChangeResourceRecordSets _ _ w1) as [err w2]; cbn.
      rewrite !app_nil_r. split; [reflexivity|].
      rewrite fmap_app. eexists. split; [reflexivity|]. split; [reflexivity|discriminate].
    + rewrite !app_nil_r. split; [reflexivity|]. exists []. rewrite !app_nil_r. repeat split.
Qed.

Lemma calls_cons {P : Type} (M : providers.DNSProviderMethods World P) (p : P)
    (c : MethodCall) (cs : list MethodCall) (w : World) :
  result (calls M p (c :: cs)) w =
    result (calls M (result (call M p c) w) cs) (world_after (call M p c) w) /\
  events (trace_of (calls M p (c :: cs)) w) =
    events (trace_of (call M p c) w) ++
    events (trace_of (calls M (result (call M p c) w) cs) (world_after (call M p c) w)).
Proof.
  unfold result, world_after, trace_of; cbn [calls]. unfold bind at 1 2.
  destruct (call M p c w) as [[p' w1] t1]; cbn.
  destruct (calls M p' cs w1) as [[p2 w2] t2]; cbn.
  split; [reflexivity|apply fmap_app].
Qed.

(** X12: over any sequence of calls of the methods of a Route53 adapter,
    the AWS configuration is loaded successfully at most once, and not at
    all when the adapter has its client; there is at most one load per
    call; as long as no load has succeeded every call tries again, so a
    failure is not remembered; and the configuration of the adapter is
    never changed. *)
Theorem route53_client_loaded_once (cs : list MethodCall) (r : route53.Route53Provider World)
    (w : World) :
  length (List.filter is_loaded
            (events (trace_of (calls route53.Route53Provider_DNSProvider r cs) w))) <= 1 /\
  length (List.filter is_load
            (events (trace_of (calls route53.Route53Provider_DNSProvider r cs) w))) <= length cs /\
  (is_Some (route53.Client r) ->
   List.filter is_load
     (events (trace_of (calls route53.Route53Provider_DNSProvider r cs) w)) = [] /\
   result (calls route53.Route53Provider_DNSProvider r cs) w = r) /\
  (route53.Client r = None ->
   List.filter is_loaded
     (events (trace_of (calls route53.Route53Provider_DNSProvider r cs) w)) = [] ->
   length (List.filter is_load
             (events (trace_of (calls route53.Route53Provider_DNSProvider r cs) w))) = length cs) /\
  route53.Cfg (result (calls route53.Route53Provider_DNSProvider r cs) w) = route53.Cfg r.
Proof.
  revert r w. induction cs as [|c cs IH]; intros r w.
  - cbn. repeat split; try lia. 
  - destruct (calls_cons route53.Route53Provider_DNSProvider r c cs w) as [Hr Ht].
    rewrite Hr, Ht. clear Hr Ht.
    destruct (route53_call_unfold r c w) as (Hres & rest & Hev & Hrest & Hfail).
    destruct (route53_getClient_loads r w) as [Hcfg Hload].
    rewrite Hres, Hev. 
    set (w1 := world_after (call route53.Route53Provider_DNSProvider r c) w).
    set (r1 := (result (route53.getClient r) w).2) in *.
    destruct (IH r1 w1) as (IH1 & IH2 & IH3 & IH4 & IH5).
    assert (Hrest' : List.filter is_loaded rest = []).
    { clear -Hrest. induction rest as [|x rest IHr]; [reflexivity|].
      cbn in Hrest. destruct x; cbn in *; try (apply IHr; assumption); discriminate. }
    rewrite !List.filter_app, Hrest, Hrest', !app_nil_r, !length_app.
    destruct (route53.Client r) as [client|] eqn:Hc.
    + assert (Hg : events (trace_of (route53.getClient r) w) = [] /\ r1 = r).
      { subst r1. unfold trace_of, result. rewrite Hload. split; reflexivity. }
      destruct Hg as [-> Hr1]. cbn [List.filter length app Nat.add].
      assert (Hs : is_Some (route53.Client r1)) by (rewrite Hr1, Hc; eauto).
      destruct (IH3 Hs) as [Hnone Hsame].
      rewrite Hnone. assert (Hnone' : List.filter is_loaded
          (events (trace_of (calls route53.Route53Provider_DNSProvider r1 cs) w1)) = []).
      { clear -Hnone. induction (events _) as [|x l IHl]; [reflexivity|].
        cbn in Hnone. destruct x; cbn in *; try (apply IHl; assumption); discriminate. }
      rewrite Hnone'. cbn. split; [lia|]. split; [lia|].
      split; [intros _; split; [reflexivity|rewrite Hsame; exact Hr1]|].
      split; [discriminate|]. rewrite IH5. exact Hcfg.
    + destruct Hload as (x & -> & Hx). destruct x as [e|].
      * (* the load failed *)
        assert (Hr1 : r1 = r) by (subst r1; rewrite Hx; reflexivity).
        cbn [List.filter is_load is_loaded length app Nat.add].
        split; [exact IH1|]. split; [lia|].
        split; [intros [? [=]]|].
        split; [|rewrite IH5; exact Hcfg].
        intros _ Hnone. rewrite IH4; [reflexivity| |exact Hnone].
        rewrite Hr1. exact Hc.
      * (* the load succeeded *)
        destruct Hx as (client & _ & Hcl).
        assert (Hs : is_Some (route53.Client r1)) by (subst r1; rewrite Hcl; eauto).
        destruct (IH3 Hs) as [Hnone Hsame].
        assert (Hnone' : List.filter is_loaded
          (events (trace_of (calls route53.Route53Provider_DNSProvider r1 cs) w1)) = []).
        { clear -Hnone. induction (events _) as [|x l IHl]; [reflexivity|].
          cbn in Hnone. destruct x; cbn in *; try (apply IHl; assumption); discriminate. }
        rewrite Hnone, Hnone'. cbn.
        split; [lia|]. split; [lia|]. split; [intros [? [=]]|].
        split; [discriminate|rewrite IH5; exact Hcfg].
Qed.

Lemma route53_getClient_trace (r : route53.Route53Provider World) (w : World) :
  length (trace_of (route53.getClient r) w) <= 1 /\
  Forall (fun x => is_r53_write x.2 = false) (trace_of (route53.getClient r) w).
Proof.
  unfold trace_of, route53.getClient.
  destruct (route53.Client r) as [client|]; [cbn; split; [lia|constructor]|].
  unfold bind, extern, traced.
  destruct (awsconfig_LoadDefaultConfig _ _ _ w) as [[awsCfg|err] w1]; cbn;
    (split; [lia|repeat constructor]).
Qed.

Lemma route53_matches_Cfg (r r' : route53.Route53Provider World) :
  route53.Cfg r' = route53.Cfg r ->
  route53.matches r' = route53.matches r /\ route53.listInput r' = route53.listInput r.
Proof.
  intros Hcfg. unfold route53.matches, route53.listInput. rewrite Hcfg. split; reflexivity.
Qed.

(** X13: [GetRecordIP] of the Route53 adapter only reads: it makes at most
    two calls, the load of the AWS configuration and one listing, and no
    change.  When it succeeds, the address is the first value of the first
    listed record set that has values and whose name is the configured
    one with a dot at its end, compared without regard to case, and whose
    type is the configured one; when it fails, the address is empty; and
    when no listed record set has a value, it fails with "record not
    found". *)
Theorem route53_GetRecordIP_reads (r : route53.Route53Provider World) (w : World) :
  length (trace_of (route53.GetRecordIP r) w) <= 2 /\
  Forall (fun x => is_r53_write x.2 = false) (trace_of (route53.GetRecordIP r) w) /\
  (forall ip,
      (result (route53.GetRecordIP r) w).1 = (ip, None) ->
      exists client sets set,
        (result (route53.getClient r) w).1 = inl client /\
        (route53_ListResourceRecordSets client (route53.listInput r)
           (world_after (route53.getClient r) w)).1 = (sets, None) /\
        List.find (route53.matches r) sets = Some set /\
        set ∈ sets /\
        strings_EqualFold (r53types.Name set) (route53.RecordName (route53.Cfg r) ++ ".") = true /\
        r53types.Type_ set = route53.RecordType (route53.Cfg r) /\
        exists rest, r53types.ResourceRecords set = ip :: rest) /\
  (forall ip e, (result (route53.GetRecordIP r) w).1 = (ip, Some e) -> ip = "") /\
  (forall client sets,
      (result (route53.getClient r) w).1 = inl client ->
      (route53_ListResourceRecordSets client (route53.listInput r)
         (world_after (route53.getClient r) w)).1 = (sets, None) ->
      Forall (fun set => r53types.ResourceRecords set = []) sets ->
      (result (route53.GetRecordIP r) w).1 = ("", Some (errors_New "record not found"))).
Proof.
  destruct (route53_getClient_loads r w) as [Hcfg _].
  destruct (route53_getClient_trace r w) as [Hlen Hnw].
  unfold result, world_after, trace_of in *. unfold route53.GetRecordIP, bind.
  destruct (route53.getClient r w) as [[[[client|err] r'] w1] t1]; cbn in *.
  - destruct (route53_matches_Cfg r r' Hcfg) as [-> ->].
    unfold extern, traced.
    destruct (route53_ListResourceRecordSets client (route53.listInput r) w1)
      as [[sets [err|]] w2] eqn:Hl; cbn.
    + rewrite ?app_nil_r, length_app; cbn.
      split; [lia|]. split; [apply Forall_app; split; [exact Hnw|repeat constructor]|].
      split; [discriminate|]. split; [intros ip e [= <- _]; reflexivity|].
      intros client' sets' [= <-] Hl'. rewrite Hl in Hl'. discriminate.
    + destruct (List.find (route53.matches r) sets) as [set|] eqn:Hf; cbn;
        rewrite ?app_nil_r, length_app; cbn;
        (split; [lia|]); (split; [apply Forall_app; split; [exact Hnw|repeat constructor]|]).
      * destruct (List.find_some _ _ Hf) as [Hin Hmatch].
        unfold route53.matches in Hmatch.
        apply andb_true_iff in Hmatch as [Hmatch Hrr].
        apply andb_true_iff in Hmatch as [Hn Ht].
        apply String.eqb_eq in Ht. apply Nat.ltb_lt in Hrr.
        split; [|split; [discriminate|]].
        -- intros ip [= <-]. exists client, sets, set.
           split; [reflexivity|]. split; [rewrite Hl; reflexivity|]. split; [exact Hf|].
           split; [apply list_elem_of_In; exact Hin|]. split; [exact Hn|]. split; [exact Ht|].
           destruct (r53types.ResourceRecords set) as [|v rest]; [cbn in Hrr; lia|].
           exists rest. reflexivity.
        -- intros client' sets' [= <-] Hl' Hall. rewrite Hl in Hl'. injection Hl' as <-.
           rewrite Forall_forall in Hall.
           rewrite (Hall set (proj2 (list_elem_of_In _ _) Hin)) in Hrr. cbn in Hrr. lia.
      * split; [discriminate|]. split; [intros ip e [= <- _]; reflexivity|]. reflexivity.
  - rewrite ?app_nil_r. split; [lia|]. split; [exact Hnw|].
    split; [discriminate|]. split; [intros ip e [= <- _]; reflexivity|]. discriminate.
Qed.
End adapter_facts.

(** ** The logging functions *)
Section logging_facts.
Context {World : Type} `{!os_pkg World} `{!strings_pkg}.

Lemma log_unfold (lvl : logger.Level) (g : logger.Globals World) (format : string)
    (args : list Arg) :
  logging.log lvl g format args =
    if (logging.level_code (logger.logLevel g) <=? logging.level_code lvl)%Z
    then Some (logger.logger g, logging.mkMsgf lvl format args)
    else None.
Proof. destruct lvl; reflexivity. Qed.

(** X14: after a call of [InitLogger] that succeeded, a logging function
    hands its message to zerolog exactly when its level is not below the
    one the level string selects, on a logger that writes to [appWriter]
    and to the console; the global level of zerolog is the level of the
    package; [appWriter] is [io.Discard] with the empty path and the
    opened file otherwise; and nothing of this depends on what the
    variables of the package held before the call. *)
Theorem InitLogger_sets_threshold (appLogFile level : string) (g g' : logger.Globals World)
    (w : World) :
  result (logger.InitLogger appLogFile level g) w = (None, g') ->
  (forall lvl format args,
      logging.log lvl g' format args =
        if (logging.level_code (logger.switchLevel level) <=? logging.level_code lvl)%Z
        then Some ([logger.appWriter g'; logger.ConsoleWriter], logging.mkMsgf lvl format args)
        else None) /\
  logger.zerolog_GlobalLevel g' = logger.logLevel g' /\
  (appLogFile = "" -> logger.appWriter g' = logger.io_Discard) /\
  (appLogFile <> "" ->
   exists f, (os_OpenFile appLogFile w).1 = inl f /\ logger.appWriter g' = logger.FileWriter f) /\
  (forall g0, result (logger.InitLogger appLogFile level g0) w = (None, g')).
Proof.
  unfold result, logger.InitLogger, bind, extern, traced, ret.
  destruct (String.eqb_spec appLogFile "") as [->|Hne]; cbn.
  - intros [= <-]. split; [intros lvl format args; apply log_unfold|].
    repeat split; congruence.
  - destruct (os_OpenFile appLogFile w) as [[f|err] w1]; cbn; [|discriminate].
    intros [= <-]. split; [intros lvl format args; apply log_unfold|].
    split; [reflexivity|]. split; [congruence|]. split; [|reflexivity].
    intros _. exists f. split; reflexivity.
Qed.

(** X15: a call of [InitLogger] that fails sets [appWriter] to
    [io.Discard] and nothing else: the level of the package, the global
    level of zerolog and the logger are as before, so every logging
    function does what it did before the call, on the writers the logger
    had. *)
Theorem InitLogger_failure_keeps_logger (appLogFile level : string) (g : logger.Globals World)
    (w : World) (e : error) :
  (result (logger.InitLogger appLogFile level g) w).1 = Some e ->
  (result (logger.InitLogger appLogFile level g) w).2 = logger.set_appWriter logger.io_Discard g /\
  logger.logger (result (logger.InitLogger appLogFile level g) w).2 = logger.logger g /\
  logger.zerolog_GlobalLevel (result (logger.InitLogger appLogFile level g) w).2 =
    logger.zerolog_GlobalLevel g /\
  (forall lvl format args,
      logging.log lvl (result (logger.InitLogger appLogFile level g) w).2 format args =
      logging.log lvl g format args).
Proof.
  unfold result, logger.InitLogger, bind, extern, traced, ret.
  destruct (String.eqb_spec appLogFile "") as [->|Hne]; cbn; [discriminate|].
  destruct (os_OpenFile appLogFile w) as [[f|err] w1]; cbn; [discriminate|].
  intros _. repeat split. intros lvl format args. rewrite !log_unfold. reflexivity.
Qed.

(** X16: the logging functions are ordered by severity: when the function
    of a level hands its message to zerolog, so does the function of every
    level above it.  [Error] always does, whatever the level of the
    package, and [Debug] does only at the debug level.  A message that is
    handed over goes to the logger of the package with the level of the
    function, the format and the arguments as given. *)
Theorem logging_by_severity (g : logger.Globals World) :
  (forall l1 l2 format args format' args',
      (logging.level_code l1 <= logging.level_code l2)%Z ->
      is_Some (logging.log l1 g format args) ->
      is_Some (logging.log l2 g format' args')) /\
  (forall format args,
      logging.Error g format args =
        Some (logger.logger g, logging.mkMsgf logger.ErrorLevel format args)) /\
  (forall format args,
      is_Some (logging.Debug g format args) <-> logger.logLevel g = logger.DebugLevel) /\
  (forall lvl format args ws m,
      logging.log lvl g format args = Some (ws, m) ->
      ws = logger.logger g /\ m = logging.mkMsgf lvl format args).
Proof.
  split; [|split; [|split]].
  - intros l1 l2 format args format' args' Hle. rewrite !log_unfold.
    destruct (Z.leb_spec (logging.level_code (logger.logLevel g)) (logging.level_code l1));
      [|intros [? [=]]].
    intros _. destruct (Z.leb_spec (logging.level_code (logger.logLevel g)) (logging.level_code l2));
      [eauto|lia].
  - intros format args. unfold logging.Error. destruct (logger.logLevel g); reflexivity.
  - intros format args. unfold logging.Debug.
    destruct (logger.logLevel g); cbn; split; eauto; try discriminate; intros [? [=]].
  - intros lvl format args ws m. rewrite log_unfold.
    destruct (_ <=? _)%Z; [|discriminate]. intros [= <- <-]. split; reflexivity.
Qed.
End logging_facts.

(** ** The configuration file and the entry of the program *)
Section entry_facts.
Context {World any : Type}.
Context `{!net_http World} `{!runtime World} `{!cloudflare_go World} `{!aws_sdk World}.
Context `{!strings_pkg} `{!yaml_Marshaler any} `{!os_pkg World}.
Context `{!yaml_Unmarshaler (any := any) cloudflare.CloudflareConfig}.
Context `{!yaml_Unmarshaler (any := any) route53.Route53Config}.
Context `{!config_file.libs World any}.

Implicit Types (w : World) (fuel : nat) (v : main.Vars) (g : logger.Globals World).

Lemma LoadConfig_unfold (path : string) w :
  config_file.LoadConfig path w =
    (match (config_file.os_ReadFile path w).1 with
     | inr err => inr (fmt_Errorf "failed to read config file %s: %w" [AStr path] (Err err))
     | inl data =>
         match config_file.yaml_Unmarshal_file data config_file.zero with
         | (_, Some err) =>
             inr (fmt_Errorf "failed to parse config file %s: %w" [AStr path] (Err err))
         | (raw, None) =>
             match config_file.time_ParseDuration (config_file.Interval raw) with
             | (_, Some err) =>
                 inr (fmt_Errorf "invalid interval %q in config file %s: %w"
                        [AStr (config_file.Interval raw); AStr path] (Err err))
             | (interval, None) =>
                 inl {| config.Interval := interval;
                        config.IPSource := config_file.IPSource raw;
                        config.LogLevel := config_file.LogLevel raw;
                        config.Providers := config_file.Providers raw |}
             end
         end
     end,
     (config_file.os_ReadFile path w).2,
     [(w, EvReadFile path (match (config_file.os_ReadFile path w).1 with
                           | inl _ => None
                           | inr err => Some err
                           end))]).
Proof.
  unfold config_file.LoadConfig, bind, extern, traced, ret.
  destruct (config_file.os_ReadFile path w) as [[data|err] w1]; cbn; [|reflexivity].
  destruct (config_file.yaml_Unmarshal_file data config_file.zero) as [raw [err|]]; [reflexivity|].
  destruct (config_file.time_ParseDuration (config_file.Interval raw)) as [interval [err|]];
    reflexivity.
Qed.

(** X17: [LoadConfig] reads the one file it is given, and nothing else.
    It returns a configuration exactly when the file is read, the
    document is decoded and the interval is parsed; the interval is the
    parsed duration as it is, of any sign, and the other fields are those
    of the document.  An error wraps the error of the step that failed and
    names the file. *)
Theorem LoadConfig_stages (path : string) w :
  trace_of (config_file.LoadConfig path) w =
    [(w, EvReadFile path (match (config_file.os_ReadFile path w).1 with
                          | inl _ => None
                          | inr err => Some err
                          end))] /\
  world_after (config_file.LoadConfig path) w = (config_file.os_ReadFile path w).2 /\
  (forall cfg,
      result (config_file.LoadConfig path) w = inl cfg <->
      exists data raw,
        (config_file.os_ReadFile path w).1 = inl data /\
        config_file.yaml_Unmarshal_file data config_file.zero = (raw, None) /\
        config_file.time_ParseDuration (config_file.Interval raw) = (config.Interval cfg, None) /\
        config.IPSource cfg = config_file.IPSource raw /\
        config.LogLevel cfg = config_file.LogLevel raw /\
        config.Providers cfg = config_file.Providers raw) /\
  (forall e,
      result (config_file.LoadConfig path) w = inr e ->
      exists format args cause,
        e = fmt_Errorf format args (Err cause) /\
        AStr path ∈ args /\
        ((config_file.os_ReadFile path w).1 = inr cause /\
         format = "failed to read config file %s: %w" \/
         (exists data raw,
             (config_file.os_ReadFile path w).1 = inl data /\
             config_file.yaml_Unmarshal_file data config_file.zero = (raw, Some cause)) /\
         format = "failed to parse config file %s: %w" \/
         (exists data raw d,
             (config_file.os_ReadFile path w).1 = inl data /\
             config_file.yaml_Unmarshal_file data config_file.zero = (raw, None) /\
             config_file.time_ParseDuration (config_file.Interval raw) = (d, Some cause)) /\
         format = "invalid interval %q in config file %s: %w")).
Proof.
  unfold trace_of, world_after, result. rewrite LoadConfig_unfold. cbn [fst snd].
  split; [reflexivity|]. split; [reflexivity|].
  destruct (config_file.os_ReadFile path w) as [[data|err] w1]; cbn [fst snd].
  - destruct (config_file.yaml_Unmarshal_file data config_file.zero) as [raw [err|]] eqn:Hy.
    + split.
      * intros cfg. split; [discriminate|].
        intros (data' & raw' & [= <-] & Hy' & _). rewrite Hy in Hy'. discriminate.
      * intros e [= <-]. eexists _, _, err. split; [reflexivity|].
        split; [left|]. right. left. split; [eauto|reflexivity].
    + destruct (config_file.time_ParseDuration (config_file.Interval raw))
        as [interval [err|]] eqn:Hd.
      * split.
        -- intros cfg. split; [discriminate|].
           intros (data' & raw' & [= <-] & Hy' & Hd' & _).
           rewrite Hy in Hy'. injection Hy' as <-. rewrite Hd in Hd'. discriminate.
        -- intros e [= <-]. eexists _, _, err. split; [reflexivity|].
           split; [right; left|]. right. right. split; [eauto 6|reflexivity].
      * split; [|discriminate].
        intros cfg. split.
        -- intros [= <-]. exists data, raw.
           split; [reflexivity|]. split; [exact Hy|]. split; [exact Hd|]. repeat split.
        -- intros (data' & raw' & [= <-] & Hy' & Hd' & Hi & Hl & Hp).
           rewrite Hy in Hy'. injection Hy' as <-.
           rewrite Hd in Hd'. injection Hd' as Hd'.
           destruct cfg as [i s l ps]; cbn in *. subst. reflexivity.
  - split.
    + intros cfg. split; [discriminate|]. intros (data & raw & [=] & _).
    + intros e [= <-]. eexists _, _, err. split; [reflexivity|].
      split; [left|]. left. split; reflexivity.
Qed.

(** [run], stage by stage. *)
Lemma run_unfold v fuel g w :
  main.run v fuel g w =
    let '(r, w1, t1) := config_file.LoadConfig (main.ConfigPath v) w in
    match r with
    | inr err =>
        ((main.Returned (Some (fmt_Errorf "failed to load configuration: %w" [] err)), g), w1, t1)
    | inl cfg =>
        let '((err, g1), w2, t2) :=
          logger.InitLogger (main.LogFile v) (config.LogLevel cfg) g w1 in
        let opened := prod_map id EvService <$> (prod_map id EvLib <$> t2) in
        match err with
        | Some err =>
            ((main.Returned (Some (fmt_Errorf "failed to initialize logger: %w" [] (Err err))), g1),
             w2, t1 ++ opened)
        | None =>
            let '(o, w3, t3) :=
              service.Start fuel (service.NewDNSUpdateService (Some cfg)) w2 in
            ((match o with
              | service.Returned (Some err) =>
                  main.Returned (Some (fmt_Errorf "failed to start DNS update service: %w" []
                                         (Err err)))
              | service.Returned None => main.Returned None
              | service.Panicked p => main.Panicked p
              | service.Running => main.Running
              end, g1),
             w3,
             t1 ++ opened ++
             [(w2, EvService (logger_Debug "Starting dynago version %s (built at %s, commit %s)"
                                [AStr (main.Version v); AStr (main.BuildTime v);
                                 AStr (main.GitCommit v)]));
              (w2, EvService (logger_Debug "Configuration loaded from %s"
                                [AStr (main.ConfigPath v)]))] ++
             (prod_map id EvService <$> t3))
        end
    end.
Proof.
  unfold main.run, bind.
  destruct (config_file.LoadConfig (main.ConfigPath v) w) as [[[cfg|err] w1] t1];
    cbn -[service.Start logger.InitLogger]; [|rewrite app_nil_r; reflexivity].
  unfold svc, lib.
  destruct (logger.InitLogger (main.LogFile v) (config.LogLevel cfg) g w1)
    as [[[[err|] g1] w2] t2]; cbn -[service.Start]; [rewrite app_nil_r; reflexivity|].
  destruct (service.Start fuel (service.NewDNSUpdateService (Some cfg)) w2) as [[o w3] t3].
  destruct o as [[err|]|p|]; cbn; rewrite ?app_nil_r; reflexivity.
Qed.

Lemma InitLogger_trace_opens (appLogFile level : string) g w :
  Forall (fun x => is_open (EvService (EvLib x.2)) = true)
    (trace_of (logger.InitLogger appLogFile level g) w).
Proof.
  unfold trace_of, logger.InitLogger, bind, extern, traced, ret.
  destruct (negb _); [|constructor].
  destruct (os_OpenFile appLogFile w) as [[f|err] w1]; cbn; repeat constructor.
Qed.

Lemma opened_events (t : Trace World LibCall) :
  Forall (fun x => is_open (EvService (EvLib x.2)) = true) t ->
  Forall (fun e => is_open e = true /\ is_read e = false)
    (events (prod_map id EvService <$> (prod_map id EvLib <$> t))).
Proof.
  induction 1 as [|[w' c] t Hc _ IH]; [constructor|].
  cbn. constructor; [split; [exact Hc|reflexivity]|exact IH].
Qed.

Lemma service_not_read (t : Trace World Event) :
  Forall (fun e => is_read e = false) (events (prod_map id EvService <$> t)).
Proof. induction t as [|[w' e] t IH]; cbn; constructor; [reflexivity|exact IH]. Qed.

(** X18: [run] begins by reading the configuration file, the one file it
    reads.  The logger and the service are reached only when the
    configuration is loaded, and everything after the opening of the log
    file (a log line, a fetch, a call of a provider, the ticker, the
    select) only when, beyond that, [InitLogger] has succeeded: a failure
    of either stage ends [run] before the service is started. *)
Theorem run_stages v fuel g w :
  (exists r rest,
      events (trace_of (main.run v fuel g) w) = EvReadFile (main.ConfigPath v) r :: rest /\
      Forall (fun e => is_read e = false) rest) /\
  (forall e,
      EvService e ∈ events (trace_of (main.run v fuel g) w) ->
      exists cfg, loaded v w = inl cfg) /\
  (forall e,
      EvService e ∈ events (trace_of (main.run v fuel g) w) ->
      is_open (EvService e) = false ->
      exists cfg, loaded v w = inl cfg /\ logger_error v g w cfg = None).
Proof.
  unfold loaded, logger_error, trace_of, result, world_after.
  rewrite run_unfold.
  pose proof (f_equal snd (LoadConfig_unfold (main.ConfigPath v) w)) as Ht1. cbn [snd] in Ht1.
  destruct (config_file.LoadConfig (main.ConfigPath v) w) as [[[cfg|err] w1] t1]; cbn [fst snd] in *.
  - pose proof (opened_events _ (InitLogger_trace_opens (main.LogFile v) (config.LogLevel cfg) g w1))
      as Hopen.
    unfold trace_of in Hopen.
    destruct (logger.InitLogger (main.LogFile v) (config.LogLevel cfg) g w1)
      as [[[[err|] g1] w2] t2] eqn:HI; cbn [fst snd] in *.
    + subst t1. unfold events in *. rewrite fmap_app. cbn [fmap list_fmap app snd].
      split; [|split].
      * eexists _, _. split; [reflexivity|].
        eapply Forall_impl; [exact Hopen|]. intros e [_ He]. exact He.
      * intros e _. eauto.
      * intros e Hin Hno. exfalso. apply elem_of_cons in Hin as [Hin|Hin]; [discriminate|].
        rewrite Forall_forall in Hopen. destruct (Hopen _ Hin) as [Ho _]. congruence.
    + destruct (service.Start fuel (service.NewDNSUpdateService (Some cfg)) w2) as [[o w3] t3].
      cbn [fst snd]. subst t1. unfold events in *. rewrite !fmap_app.
      cbn [fmap list_fmap app snd].
      split; [|split].
      * eexists _, _. split; [reflexivity|].
        apply Forall_app. split; [eapply Forall_impl; [exact Hopen|]; intros e [_ He]; exact He|].
        constructor; [reflexivity|]. constructor; [reflexivity|]. apply service_not_read.
      * intros e _. eauto.
      * intros e _ _. exists cfg. split; [reflexivity|]. rewrite HI. reflexivity.
  - subst t1. cbn. split; [|split].
    + eexists _, _. split; [reflexivity|constructor].
    + intros e Hin. apply list_elem_of_singleton in Hin. discriminate.
    + intros e Hin. apply list_elem_of_singleton in Hin. discriminate.
Qed.

(** X19: how [run] ends.  It returns nil exactly when the configuration
    is loaded, the logger is initialised and [Start] returns nil.  An error
    it returns is the error of [LoadConfig], that of [InitLogger] or the
    error of [Start] for an empty registry, each under its own prefix: no
    failure of the IP source or of a provider ends [run].  It panics
    exactly when the two stages succeed, a provider is listed and the
    interval of the configuration is not positive. *)
Theorem run_outcomes v fuel g w :
  ((main.run v fuel g w).1.1.1 = main.Returned None <->
   exists cfg,
     loaded v w = inl cfg /\ logger_error v g w cfg = None /\
     (service.Start fuel (service.NewDNSUpdateService (Some cfg)) (world_at_start v g w cfg)).1.1 =
       service.Returned None) /\
  (forall e,
      (main.run v fuel g w).1.1.1 = main.Returned (Some e) ->
      (exists cause,
          loaded v w = inr cause /\
          e = fmt_Errorf "failed to load configuration: %w" [] cause) \/
      (exists cfg cause,
          loaded v w = inl cfg /\ logger_error v g w cfg = Some cause /\
          e = fmt_Errorf "failed to initialize logger: %w" [] (Err cause)) \/
      (exists cfg,
          loaded v w = inl cfg /\ logger_error v g w cfg = None /\
          service.providersList (World := World) cfg = [] /\
          e = fmt_Errorf "failed to start DNS update service: %w" []
                (Err (fmt_Errorf_w "failed to create DNS provider registry: %w"
                        no_providers_error)))) /\
  ((exists p, (main.run v fuel g w).1.1.1 = main.Panicked p) <->
   exists cfg,
     loaded v w = inl cfg /\ logger_error v g w cfg = None /\
     service.providersList (World := World) cfg <> [] /\ (config.Interval cfg <= 0)%Z).
Proof.
  unfold loaded, logger_error, world_at_start, result, world_after.
  rewrite run_unfold.
  destruct (config_file.LoadConfig (main.ConfigPath v) w) as [[[cfg|err] w1] t1]; cbn [fst snd].
  - destruct (logger.InitLogger (main.LogFile v) (config.LogLevel cfg) g w1)
      as [[[[err|] g1] w2] t2] eqn:HI; cbn [fst snd].
    + split; [|split].
      * split; [discriminate|]. intros (cfg' & [= <-] & Habs & _).
        rewrite HI in Habs. discriminate.
      * intros e [= <-]. right. left. exists cfg, err. rewrite HI. repeat split.
      * split; [intros [p Hp]; discriminate|]. intros (cfg' & [= <-] & Habs & _).
        rewrite HI in Habs. discriminate.
    + rewrite Start_unfold. cbv zeta.
      destruct (service.providersList cfg) as [|p ps] eqn:Hl; cbn [fst snd].
      * split; [|split].
        -- split; [discriminate|]. intros (cfg' & [= <-] & _ & Habs).
           rewrite HI in Habs. cbn [fst snd] in Habs.
           rewrite Start_unfold in Habs. cbv zeta in Habs. rewrite Hl in Habs. discriminate.
        -- intros e [= <-]. right. right. exists cfg. rewrite HI. repeat split. exact Hl.
        -- split; [intros [p Hp]; discriminate|].
           intros (cfg' & [= <-] & _ & Habs & _). rewrite Hl in Habs. contradiction.
      * destruct (Z.leb_spec (config.Interval cfg) 0) as [Hle|Hgt]; cbn [fst snd].
        -- split; [|split].
           ++ split; [discriminate|]. intros (cfg' & [= <-] & _ & Habs).
              rewrite HI in Habs. cbn [fst snd] in Habs.
              rewrite Start_unfold in Habs. cbv zeta in Habs. rewrite Hl in Habs.
              destruct (Z.leb_spec (config.Interval cfg) 0); [discriminate|lia].
           ++ discriminate.
           ++ split; [|eauto]. intros _. exists cfg. rewrite HI, Hl.
              split; [reflexivity|]. split; [reflexivity|]. split; [discriminate|exact Hle].
        -- pose proof (loop_returns_nil fuel (config.IPSource cfg) (p :: ps) ∅ w2) as Hnil.
           destruct (service.loop fuel (config.IPSource cfg) (p :: ps) ∅ w2) as [[[r|] w'] t] eqn:Hloop;
             cbn [fst snd] in *.
           ++ specialize (Hnil r eq_refl). subst r.
              split; [|split].
              ** split; [|reflexivity]. intros _. exists cfg. rewrite HI. cbn [fst snd].
                 rewrite Start_unfold. cbv zeta. rewrite Hl.
                 destruct (Z.leb_spec (config.Interval cfg) 0); [lia|]. rewrite Hloop.
                 repeat split.
              ** discriminate.
              ** split; [intros [q Hq]; discriminate|].
                 intros (cfg' & [= <-] & _ & _ & Habs). lia.
           ++ split; [|split].
              ** split; [discriminate|]. intros (cfg' & [= <-] & _ & Habs).
                 rewrite HI in Habs. cbn [fst snd] in Habs.
                 rewrite Start_unfold in Habs. cbv zeta in Habs. rewrite Hl in Habs.
                 destruct (Z.leb_spec (config.Interval cfg) 0); [lia|]. rewrite Hloop in Habs.
                 discriminate.
              ** discriminate.
              ** split; [intros [q Hq]; discriminate|].
                 intros (cfg' & [= <-] & _ & _ & Habs). lia.
  - split; [|split].
    + split; [discriminate|]. intros (cfg & [=] & _).
    + intros e [= <-]. left. eauto.
    + split; [intros [p Hp]; discriminate|]. intros (cfg & [=] & _).
Qed.
End entry_facts.

(** ** The clients of the adapters over a run of the service *)
Section client_facts.
Context {World any : Type}.
Context `{!net_http World} `{!runtime World} `{!cloudflare_go World} `{!aws_sdk World}.
Context `{!strings_pkg} `{!yaml_Marshaler any}.
Context `{!yaml_Unmarshaler (any := any) cloudflare.CloudflareConfig}.
Context `{!yaml_Unmarshaler (any := any) route53.Route53Config}.

Implicit Types (w : World) (p : providers.DNSProvider World) (ps : list (providers.DNSProvider World)).
Implicit Types (lk : gmap string string) (X : string).

Lemma loads_app (l1 l2 : list Event) : loads (l1 ++ l2) = loads l1 + loads l2.
Proof. unfold loads. rewrite List.filter_app, length_app. reflexivity. Qed.

Lemma loads_lib (t : Trace World LibCall) :
  loads (events (prod_map id EvLib <$> t)) = length (List.filter is_loaded (events t)).
Proof.
  unfold loads, events. induction t as [|[w' c] t IH]; [reflexivity|].
  simpl. destruct (is_loaded c); simpl; [f_equal|]; exact IH.
Qed.

Lemma loads_trace_app (t1 t2 : Trace World Event) :
  loads (events (t1 ++ t2)) = loads (events t1) + loads (events t2).
Proof. unfold events. rewrite fmap_app. apply loads_app. Qed.

Lemma loads_trace_cons w (e : Event) (t : Trace World Event) :
  loads (events ((w, e) :: t)) = (if is_loaded_event e then 1 else 0) + loads (events t).
Proof. unfold loads, events. simpl. destruct (is_loaded_event e); reflexivity. Qed.

Lemma loaded_app (t1 t2 : Trace World LibCall) :
  length (List.filter is_loaded (events (t1 ++ t2))) =
    length (List.filter is_loaded (events t1)) + length (List.filter is_loaded (events t2)).
Proof. unfold events. rewrite fmap_app, List.filter_app, length_app. reflexivity. Qed.

Ltac count_loads :=
  rewrite ?app_nil_r;
  repeat first [rewrite loads_trace_app | rewrite loads_trace_cons | rewrite loads_lib
               | rewrite loaded_app];
  cbn [is_loaded_event events fmap list_fmap List.filter length loads];
  try lia.

(** What the range loop does with one provider is a sequence of one or
    two calls of its methods. *)
Lemma visit_calls X p lk w :
  exists cs,
    (service.visit X p lk w).1.1.1 =
      providers.with_receiver p
        (result (calls (providers.methods p) (providers.receiver p) cs) w) /\
    loads (events (service.visit X p lk w).2) =
      length (List.filter is_loaded
                (events (trace_of (calls (providers.methods p) (providers.receiver p) cs) w))).
Proof.
  destruct p as [T M o].
  unfold service.visit, service.call_GetRecordIP, service.call_UpdateRecordIP,
    providers.DNSProvider_GetRecordIP, providers.DNSProvider_UpdateRecordIP,
    providers.name, traced, lib, bind, ret, logger.Error, logger.Info, logger.Debug, emit.
  cbn [providers.receiver providers.methods providers.dynamic_type].
  destruct (@providers.GetRecordIP _ _ M o w) as [[[[dnsIP err] o1] w1] t1] eqn:HG.
  cbn [fst snd providers.with_receiver providers.receiver providers.methods
       providers.dynamic_type].
  destruct err as [e|].
  - exists [CallGetRecordIP]. unfold result, trace_of. cbn [calls call]. unfold bind, ret.
    rewrite HG. cbn [fst snd]. split; [reflexivity|]. count_loads.
  - destruct (String.eqb_spec dnsIP X) as [->|Hne]; cbn [negb].
    + exists [CallGetRecordIP]. unfold result, trace_of. cbn [calls call]. unfold bind, ret.
      rewrite HG. cbn [fst snd]. split; [reflexivity|]. count_loads.
    + exists [CallGetRecordIP; CallUpdateRecordIP X]. unfold result, trace_of. cbn [calls call].
      unfold bind, ret. rewrite HG. cbn [fst snd].
      destruct (@providers.UpdateRecordIP _ _ M o1 X w1) as [[[err o2] w2] t2] eqn:HU.
      cbn [fst snd providers.with_receiver providers.receiver providers.methods
           providers.dynamic_type].
      destruct err as [e|]; cbn [fst snd]; (split; [reflexivity|]); count_loads.
Qed.

Lemma cloudflare_call_no_load (c : cloudflare.CloudflareProvider World) (m : MethodCall) w :
  List.filter is_loaded
    (events (trace_of (call cloudflare.CloudflareProvider_DNSProvider c m) w)) = [].
Proof.
  unfold trace_of, call; cbn. destruct m as [|ip].
  - unfold cloudflare.GetRecordIP, bind.
    destruct (cloudflare.getClient c) as [[client|err] c']; cbn; [|reflexivity].
    unfold extern, traced.
    destruct (cf_ListDNSRecords _ _ _ w) as [[records [err|]] w1]; cbn; [reflexivity|].
    destruct (List.find _ records); reflexivity.
  - unfold cloudflare.UpdateRecordIP, bind.
    destruct (cloudflare.getClient c) as [[client|err] c']; cbn; [|reflexivity].
    unfold extern, traced.
    destruct (cf_ListDNSRecords _ _ _ w) as [[records [err|]] w1]; cbn; [reflexivity|].
    destruct (List.find _ records) as [record|]; cbn; [|reflexivity].
    destruct (cf_UpdateDNSRecord _ _ _ w1) as [err w2]. reflexivity.
Qed.

Lemma cloudflare_calls_no_load (cs : list MethodCall) (c : cloudflare.CloudflareProvider World) w :
  length (List.filter is_loaded
            (events (trace_of (calls cloudflare.CloudflareProvider_DNSProvider c cs) w))) = 0.
Proof.
  revert c w. induction cs as [|m cs IH]; intros c w; [reflexivity|].
  rewrite (proj2 (calls_cons cloudflare.CloudflareProvider_DNSProvider c m cs w)).
  rewrite List.filter_app, length_app, cloudflare_call_no_load, IH. reflexivity.
Qed.

(** A successful load gives the Route53 adapter its client, and an
    adapter that has its client does not load. *)
Lemma route53_calls_pending (cs : list MethodCall) (r : route53.Route53Provider World) w :
  length (List.filter is_loaded
            (events (trace_of (calls route53.Route53Provider_DNSProvider r cs) w))) +
  match route53.Client (result (calls route53.Route53Provider_DNSProvider r cs) w) with
  | Some _ => 0
  | None => 1
  end <=
  match route53.Client r with Some _ => 0 | None => 1 end.
Proof.
  revert r w. induction cs as [|m cs IH]; intros r w; [cbn; lia|].
  destruct (calls_cons route53.Route53Provider_DNSProvider r m cs w) as [-> ->].
  destruct (route53_call_unfold r m w) as (Hres & rest & Hev & Hrest & _).
  destruct (route53_getClient_loads r w) as [_ Hload].
  rewrite Hres, Hev.
  set (w1 := world_after (call route53.Route53Provider_DNSProvider r m) w).
  set (r1 := (result (route53.getClient r) w).2) in *.
  specialize (IH r1 w1).
  assert (Hrest' : List.filter is_loaded rest = []).
  { clear -Hrest. induction rest as [|x rest IHr]; [reflexivity|].
    cbn in Hrest. destruct x; cbn in *; try (apply IHr; assumption); discriminate. }
  rewrite !List.filter_app, Hrest', !app_nil_r, !length_app.
  destruct (route53.Client r) as [client|] eqn:Hc.
  - assert (Hg : events (trace_of (route53.getClient r) w) = [] /\ r1 = r).
    { subst r1. unfold trace_of, result. rewrite Hload. split; reflexivity. }
    destruct Hg as [-> Hr1]. rewrite Hr1, Hc in IH. cbn. rewrite Hr1. lia.
  - destruct Hload as (x & -> & Hx). destruct x as [e|].
    + assert (Hr1 : r1 = r) by (subst r1; rewrite Hx; reflexivity).
      rewrite Hr1, Hc in IH. rewrite Hr1. cbn. lia.
    + destruct Hx as (client & _ & Hcl). fold r1 in Hcl. rewrite Hcl in IH. cbn. lia.
Qed.

Lemma visit_pending X p lk w n :
  pending p n ->
  exists n',
    pending (service.visit X p lk w).1.1.1 n' /\
    loads (events (service.visit X p lk w).2) + n' <= n.
Proof.
  intros Hp. destruct (visit_calls X p lk w) as (cs & -> & ->).
  destruct Hp as [c|r]; cbn [providers.with_receiver providers.receiver providers.methods
                              providers.dynamic_type].
  - exists 0. split; [constructor|]. rewrite cloudflare_calls_no_load. lia.
  - eexists. split; [constructor|]. apply route53_calls_pending.
Qed.

Lemma rangeProviders_pending X ps lk w n :
  pendings ps n ->
  exists n',
    pendings (service.rangeProviders X ps lk w).1.1.1 n' /\
    loads (events (service.rangeProviders X ps lk w).2) + n' <= n.
Proof.
  intros Hps. revert lk w. induction Hps as [|p ps n m Hp Hps IH]; intros lk w.
  - exists 0. split; [constructor|]. cbn. lia.
  - destruct (visit_pending X p lk w n Hp) as (n' & Hp' & Hn).
    cbn [service.rangeProviders]. unfold bind, ret.
    destruct (service.visit X p lk w) as [[[p1 lk1] w1] t1]. cbn [fst snd] in *.
    destruct (IH lk1 w1) as (m' & Hps' & Hm).
    destruct (service.rangeProviders X ps lk1 w1) as [[[ps2 lk2] w2] t2]. cbn [fst snd] in *.
    exists (n' + m'). split; [constructor; assumption|]. count_loads.
Qed.

Lemma pass_pending src ps lk w n :
  pendings ps n ->
  exists n',
    pendings (service.pass src ps lk w).1.1.1 n' /\
    loads (events (service.pass src ps lk w).2) + n' <= n.
Proof.
  intros Hps. rewrite pass_unfold.
  assert (Hget : length (List.filter is_loaded (events (trace_of (utils.GetCurrentIP src) w))) = 0).
  { unfold trace_of, utils.GetCurrentIP, bind, extern, traced, ret.
    destruct (http_Get src w) as [[resp|err] w1]; cbn; [|reflexivity].
    destruct (negb _); [reflexivity|]. destruct (Body resp) as [body [err|]]; reflexivity. }
  unfold trace_of in Hget.
  destruct (utils.GetCurrentIP src w) as [[[currentIP [e|]] w1] t1]; cbn [fst snd] in *.
  - exists n. split; [exact Hps|]. count_loads.
  - destruct (rangeProviders_pending currentIP ps lk w1 n Hps) as (n' & Hps' & Hn).
    destruct (service.rangeProviders currentIP ps lk w1) as [[o w2] t2]. cbn [fst snd] in *.
    exists n'. split; [exact Hps'|]. count_loads.
Qed.

Lemma loop_pending fuel src ps lk w n :
  pendings ps n -> loads (events (service.loop fuel src ps lk w).2) <= n.
Proof.
  revert ps lk w n. induction fuel as [|fuel IH]; intros ps lk w n Hps; [cbn; lia|].
  destruct (rt_select w) as [[|] w1] eqn:Hs.
  - rewrite (loop_done _ _ _ _ _ _ Hs). cbn. lia.
  - rewrite (loop_tick _ _ _ _ _ _ Hs).
    destruct (pass_pending src ps lk w1 n Hps) as (n' & Hps' & Hn).
    destruct (service.pass src ps lk w1) as [[o w2] t1]. cbn [fst snd] in *.
    specialize (IH o.1 o.2 w2 n' Hps').
    destruct (service.loop fuel src o.1 o.2 w2) as [[b w3] t2]. cbn [fst snd] in *.
    count_loads.
Qed.

Lemma providersList_pendings (cfg : config.Config any) :
  exists n,
    pendings (service.providersList (World := World) cfg) n /\ n <= 1 /\
    (route53_enabled (World := World) cfg = false -> n = 0).
Proof.
  unfold service.providersList, route53_enabled.
  assert (Hcf : forall l : list (providers.DNSProvider World),
             l = match config.Providers cfg !! "cloudflare" with
                 | Some raw =>
                     match cloudflare.New (World := World) raw with
                     | inl cf =>
                         if cloudflare.Enabled (cloudflare.Cfg cf)
                         then [providers.mkDNSProvider _ cloudflare.CloudflareProvider_DNSProvider cf]
                         else []
                     | inr _ => []
                     end
                 | None => []
                 end ->
             pendings l 0).
  { intros l ->. destruct (config.Providers cfg !! "cloudflare") as [raw|]; [|constructor].
    destruct (cloudflare.New raw) as [cf|err]; [|constructor].
    destruct (cloudflare.Enabled (cloudflare.Cfg cf)); [|constructor].
    apply (pendings_cons _ [] 0 0); constructor. }
  specialize (Hcf _ eq_refl). cbv zeta.
  set (l1 := match config.Providers cfg !! "cloudflare" with Some _ => _ | None => _ end) in *.
  clearbody l1.
  destruct (config.Providers cfg !! "route53") as [raw|]; [|exists 0; repeat split; [exact Hcf|lia]].
  destruct (route53.New raw) as [r53|err]; [|exists 0; repeat split; [exact Hcf|lia]].
  destruct (route53.Enabled (route53.Cfg r53)); [|exists 0; repeat split; [exact Hcf|lia]].
  exists (match route53.Client r53 with Some _ => 0 | None => 1 end).
  split; [|split; [destruct (route53.Client r53); lia|discriminate]].
  clear -Hcf. remember 0 as z eqn:Hz in Hcf.
  induction Hcf as [|p ps n m Hp Hps IH].
  - replace (match route53.Client r53 with Some _ => 0 | None => 1 end)
      with (match route53.Client r53 with Some _ => 0 | None => 1 end + 0) by lia.
    constructor; constructor.
  - assert (n = 0 /\ m = 0) as [-> ->] by lia.
    specialize (IH eq_refl). cbn [app].
    change (match route53.Client r53 with Some _ => 0 | None => 1 end)
      with (0 + match route53.Client r53 with Some _ => 0 | None => 1 end).
    constructor; assumption.
Qed.

(** X20: over a whole run of [Start], whatever the number of passes, the
    AWS configuration is loaded successfully at most once: the client the
    Route53 adapter makes in one pass is the client of the passes that
    follow.  It is not loaded at all when Route53 is not enabled. *)
Theorem Start_loads_config_once fuel (s : service.DNSUpdateService) w :
  loads (events (service.Start fuel s w).2) <= 1 /\
  (forall cfg, service.cfg s = Some cfg -> route53_enabled (World := World) cfg = false ->
               loads (events (service.Start fuel s w).2) = 0).
Proof.
  destruct s as [[cfg|]]; [|cbn; split; [lia|discriminate]].
  change {| service.cfg := Some cfg |} with (service.NewDNSUpdateService (Some cfg)).
  destruct (providersList_pendings cfg) as (n & Hps & Hn & Hoff).
  assert (Hloads : loads (events (service.Start fuel (service.NewDNSUpdateService (Some cfg)) w).2) <= n).
  { rewrite Start_unfold. cbv zeta.
    destruct (service.providersList cfg) as [|p ps] eqn:Hl; [cbn; lia|].
    destruct (config.Interval cfg <=? 0)%Z; [cbn; lia|].
    pose proof (loop_pending fuel (config.IPSource cfg) (p :: ps) ∅ w n Hps) as Hloop.
    destruct (service.loop fuel (config.IPSource cfg) (p :: ps) ∅ w) as [[[err|] w'] t];
      cbn [fst snd] in *; count_loads. }
  split; [lia|]. intros cfg' [= <-] Hr. specialize (Hoff Hr). lia.
Qed.
End client_facts.

(** ** Runs on the concrete environment *)
Import stub.



Lemma GetCurrentIP_status_witness :
  result (utils.GetCurrentIP "http://127.0.0.1/") world0 = ("1.2.3.4", None) /\
  result (utils.GetCurrentIP "http://127.0.0.1/")
    (with_ip_source (inl {| StatusCode := 500; Body := ("", None) |}) world0) =
    ("", Some (errors_New "failed to fetch IP: non-200 response")).
Proof.
  split.
  - eapply (GetCurrentIP_status (World := World)); reflexivity.
  - eapply (GetCurrentIP_status (World := World)); [reflexivity|discriminate].
Defined.


Lemma registry_fails_iff_empty_witness :
  (service.Start 3 (service.NewDNSUpdateService (Some (sample_config false false))) world0).1.1 =
    service.Returned
      (Some (fmt_Errorf_w "failed to create DNS provider registry: %w" no_providers_error)) /\
  providers.NewDNSProviderRegistry (Some (sample_config true false))
    (service.providersList (sample_config true false)) =
    inl {| providers.Providers := service.providersList (sample_config true false) |}.
Proof.
  split.
  - destruct (proj1 (proj2 (registry_fails_iff_empty (World := World) (sample_config false false))))
      as [_ Hstart]; [vm_compute; reflexivity|vm_compute; reflexivity|].
    rewrite Hstart. reflexivity.
  - apply (proj2 (proj2 (registry_fails_iff_empty (World := World) (sample_config true false)))).
    left. vm_compute. reflexivity.
Defined.

(** C4, as stated, fails: in [half_broken_config] the entry of Cloudflare
    says [enabled: true] and does not decode; the registry is built, holds
    Route53 alone, and the loop runs without Cloudflare. *)
Lemma enabled_entry_not_listed :
  ~ registry_lists_marked (World := World) marks_enabled half_broken_config.
Proof.
  intros Hclaim. unfold registry_lists_marked in Hclaim.
  assert (Hnames : names (service.providersList (World := World) half_broken_config) = ["route53"])
    by (vm_compute; reflexivity).
  destruct (service.providersList (World := World) half_broken_config) as [|p ps];
    [discriminate Hnames|].
  destruct (Hclaim {| providers.Providers := p :: ps |} eq_refl "cloudflare" ltac:(left))
    as [_ Hlisted].
  assert (Hin : "cloudflare" ∈ names (p :: ps)).
  { apply Hlisted. exists broken_cloudflare_yaml. split; vm_compute; reflexivity. }
  rewrite Hnames in Hin. revert Hin. not_listed.
Qed.

Lemma registry_contents_witness :
  names (service.providersList (sample_config true true)) = ["cloudflare"; "route53"] /\
  names (service.providersList (sample_config false true)) = ["route53"] /\
  names (service.providersList (sample_config true false)) = ["cloudflare"].
Proof.
  split; [|split].
  - rewrite (proj1 (registry_contents (World := World) (sample_config true true))).
    vm_compute. reflexivity.
  - rewrite (proj1 (registry_contents (World := World) (sample_config false true))).
    vm_compute. reflexivity.
  - rewrite (proj1 (registry_contents (World := World) (sample_config true false))).
    vm_compute. reflexivity.
Defined.

Lemma construction_errors_swallowed_witness :
  service.Start 3 (service.NewDNSUpdateService (Some broken_config)) world0 =
    (service.Returned
       (Some (fmt_Errorf_w "failed to create DNS provider registry: %w" no_providers_error)),
     world0,
     [(world0, logger_Info "DNSUpdateService starting... " []);
      (world0, logger_Error "No DNS providers enabled: %v" [AErr no_providers_error])]).
Proof.
  assert (Hentry : config.Providers broken_config !! "cloudflare" = Some broken_cloudflare_yaml)
    by (vm_compute; reflexivity).
  assert (Hfail : decode_fails (World := World) "cloudflare" broken_cloudflare_yaml).
  { left. split; [reflexivity|]. exists unmarshal_error. vm_compute. reflexivity. }
  apply (proj2 (proj2 (proj2
           (construction_errors_swallowed (World := World) broken_config "cloudflare"
              broken_cloudflare_yaml Hentry Hfail)))).
  vm_compute. reflexivity.
Defined.

Lemma update_iff_record_differs_witness :
  updateRecordIP_args "cloudflare"
    (events (service.pass "https://api.ipify.org"
               (service.providersList (sample_config true true)) ∅ world0).2) = ["1.2.3.4"].
Proof.
  eapply (update_iff_record_differs (World := World) _ _ _ _ "1.2.3.4" "9.9.9.9").
  - vm_compute. repeat constructor; not_listed.
  - vm_compute. reflexivity.
  - apply list_elem_of_lookup. exists 2%nat. vm_compute. reflexivity.
  - discriminate.
Defined.

Lemma failure_isolation_witness :
  read_providers
    (events (service.pass "https://api.ipify.org"
               (service.providersList (sample_config true true)) ∅ (with_cf_down world0)).2) =
    ["cloudflare"; "route53"] /\
  updateRecordIP_args "cloudflare"
    (events (service.pass "https://api.ipify.org"
               (service.providersList (sample_config true true)) ∅ (with_cf_down world0)).2) = [] /\
  (service.pass "https://api.ipify.org"
     (service.providersList (sample_config true true)) ∅ (with_cf_down world0)).1.1.2
    !! "cloudflare" = None.
Proof.
  pose proof (failure_isolation (World := World) "https://api.ipify.org"
                (service.providersList (sample_config true true)) ∅ (with_cf_down world0))
    as (_ & Hreads & Hget & _ & _).
  split.
  - rewrite (Hreads "1.2.3.4"); vm_compute; reflexivity.
  - destruct (Hget ltac:(vm_compute; repeat constructor; not_listed) "cloudflare" ""
                (lib_error "cloudflare: request failed")) as [Hargs Hlk].
    + apply list_elem_of_lookup. exists 2%nat. vm_compute. reflexivity.
    + split; [exact Hargs|]. rewrite Hlk. reflexivity.
Defined.

Lemma stub_select_sound (w : World) :
  (rt_select w).1 = CtxDone -> ctx_cancelled (rt_select w).2 = true.
Proof.
  simpl. unfold select. destruct (cancelled (elapse w)) eqn:Hc; [intros _; exact Hc|discriminate].
Defined.

Lemma loop_returns_only_on_done_witness :
  service.loop 1 "https://api.ipify.org" (service.providersList (sample_config true true)) ∅
    (with_signal 0 world0) =
    (Some None, elapse (with_signal 0 world0),
     [(with_signal 0 world0, EvSelect CtxDone);
      (elapse (with_signal 0 world0), logger_Info "DNSUpdateService stopped" [])]).
Proof.
  apply (proj1 (proj2 (loop_returns_only_on_done (World := World) stub_select_sound))).
  vm_compute. reflexivity.
Defined.

(** C7, as stated, fails: in the run in which the signal arrives during
    the first call to Cloudflare, the pass goes on, and [GetRecordIP] of
    Route53 is called in a world in which the context is cancelled. *)
Lemma provider_called_after_cancel :
  ~ no_provider_call_after_cancel interrupted_run.2.
Proof.
  intros Hclaim.
  destruct (interrupted_run.2 !! 12%nat) as [[w e]|] eqn:Hentry;
    [|vm_compute in Hentry; discriminate Hentry].
  assert (Hin : (w, e) ∈ interrupted_run.2) by (apply list_elem_of_lookup; eauto).
  vm_compute in Hentry. injection Hentry as <- <-.
  specialize (Hclaim _ _ Hin ltac:(reflexivity)). discriminate Hclaim.
Qed.

(** ** Runs for the further properties *)

Lemma updates_carry_fetched_ip_witness :
  result (utils.GetCurrentIP "https://api.ipify.org") world0 = ("1.2.3.4", None) /\
  "cloudflare" ∈ names (service.providersList (sample_config true false)).
Proof.
  destruct (proj1 (updates_carry_fetched_ip (World := World) "https://api.ipify.org"
                     (service.providersList (sample_config true false)) ∅ world0)
              "cloudflare" "1.2.3.4" None) as (Hfetch & Hname & _).
  - apply list_elem_of_lookup. exists 5%nat. vm_compute. reflexivity.
  - split; assumption.
Defined.

Lemma Start_error_is_empty_registry_witness :
  exists cfg,
    service.cfg (service.NewDNSUpdateService (Some (sample_config false false))) = Some cfg /\
    service.providersList (World := World) cfg = [] /\
    fmt_Errorf_w "failed to create DNS provider registry: %w"
      (errors_New "no DNS providers enabled in config") =
    fmt_Errorf_w "failed to create DNS provider registry: %w" no_providers_error.
Proof.
  apply (Start_error_is_empty_registry 3 _ world0). vm_compute. reflexivity.
Defined.

Lemma Start_panics_on_nonpositive_interval_witness :
  service.Start 3 (service.NewDNSUpdateService (Some zero_interval_config)) world0 =
    (service.Panicked "non-positive interval for NewTicker", world0,
     [(world0, logger_Info "DNSUpdateService starting... " [])]).
Proof.
  apply (proj2 (Start_panics_on_nonpositive_interval zero_interval_config 3 world0)).
  - intros Hnil. apply (f_equal names) in Hnil. vm_compute in Hnil. discriminate Hnil.
  - vm_compute. discriminate.
Defined.

Lemma ticker_stopped_iff_returned_witness :
  EvTickerStop ∈
    events (service.Start 3 (service.NewDNSUpdateService (Some (sample_config true false)))
              (with_signal 2 world0)).2.
Proof.
  apply (proj2 (ticker_stopped_iff_returned 3
                  (service.NewDNSUpdateService (Some (sample_config true false)))
                  (with_signal 2 world0))).
  split.
  - exists 300000000000%Z. apply list_elem_of_lookup. exists 1%nat. vm_compute. reflexivity.
  - exists None. vm_compute. reflexivity.
Defined.

Lemma GetCurrentIP_one_request_witness :
  result (utils.GetCurrentIP "https://api.ipify.org")
    (with_ip_source (inr (lib_error "dial tcp: i/o timeout")) world0) =
    ("", Some (lib_error "dial tcp: i/o timeout")).
Proof.
  destruct (GetCurrentIP_one_request "https://api.ipify.org"
              (with_ip_source (inr (lib_error "dial tcp: i/o timeout")) world0))
    as (_ & _ & Herr & _).
  apply Herr. reflexivity.
Defined.

Lemma cloudflare_client_cached_witness :
  cloudflare.Client (cloudflare.getClient cf_provider).2 = Some "cf-token" /\
  cloudflare.getClient (cloudflare.getClient cf_provider).2 =
    (inl "cf-token", (cloudflare.getClient cf_provider).2).
Proof.
  apply (proj1 (proj2 (cloudflare_client_cached cf_provider))). reflexivity.
Defined.

Lemma cloudflare_GetRecordIP_reads_witness :
  exists client records record,
    (cloudflare.getClient cf_provider).1 = inl client /\
    (cf_ListDNSRecords client (cloudflare.ZoneID (cloudflare.Cfg cf_provider))
       (cloudflare.listParams cf_provider) world0).1 = (records, None) /\
    List.find (cloudflare.matches cf_provider) records = Some record /\
    record ∈ records /\
    cf.Name record = cloudflare.RecordName (cloudflare.Cfg cf_provider) /\
    cf.Type_ record = cloudflare.RecordType (cloudflare.Cfg cf_provider) /\
    cf.Content record = "9.9.9.9".
Proof.
  destruct (cloudflare_GetRecordIP_reads cf_provider world0) as (_ & _ & Hok & _).
  apply Hok. vm_compute. reflexivity.
Defined.

Lemma cloudflare_UpdateRecordIP_writes_witness :
  exists client records record,
    (cloudflare.getClient cf_provider).1 = inl client /\
    cf_ListDNSRecords client (cloudflare.ZoneID (cloudflare.Cfg cf_provider))
      (cloudflare.listParams cf_provider) world0 = ((records, None), elapse world0) /\
    List.find (cloudflare.matches cf_provider) records = Some record /\
    "rec1" = cf.ID record.
Proof.
  destruct (proj2 (proj2 (cloudflare_UpdateRecordIP_writes cf_provider "1.2.3.4" world0))
              (elapse world0) "cf-zone"
              {| cf.up_ID := "rec1"; cf.up_Type := "A"; cf.up_Name := "home.example.com";
                 cf.up_Content := "1.2.3.4"; cf.up_Proxied := true |} None)
    as (_ & _ & _ & _ & _ & _ & Hrecord).
  - apply list_elem_of_lookup. exists 1%nat. vm_compute. reflexivity.
  - exact Hrecord.
Defined.

Lemma route53_client_loaded_once_witness :
  List.filter is_load
    (events (trace_of (calls route53.Route53Provider_DNSProvider r53_provider_ready
                         [CallGetRecordIP; CallUpdateRecordIP "1.2.3.4"]) world0)) = [].
Proof.
  destruct (route53_client_loaded_once [CallGetRecordIP; CallUpdateRecordIP "1.2.3.4"]
              r53_provider_ready world0) as (_ & _ & Hready & _).
  destruct Hready as [Hnone _]; [eexists; reflexivity|exact Hnone].
Defined.

Lemma route53_GetRecordIP_reads_witness :
  exists client sets set,
    (result (route53.getClient r53_provider) world0).1 = inl client /\
    (route53_ListResourceRecordSets client (route53.listInput r53_provider)
       (world_after (route53.getClient r53_provider) world0)).1 = (sets, None) /\
    List.find (route53.matches r53_provider) sets = Some set /\
    set ∈ sets /\
    strings_EqualFold (r53types.Name set)
      (route53.RecordName (route53.Cfg r53_provider) ++ ".") = true /\
    r53types.Type_ set = route53.RecordType (route53.Cfg r53_provider) /\
    exists rest, r53types.ResourceRecords set = "9.9.9.9" :: rest.
Proof.
  destruct (route53_GetRecordIP_reads r53_provider world0) as (_ & _ & Hok & _).
  apply Hok. vm_compute. reflexivity.
Defined.

Lemma InitLogger_sets_threshold_witness :
  logging.log logger.InfoLevel globals_warn "DNSUpdateService starting... " [] = None /\
  logger.zerolog_GlobalLevel globals_warn = logger.logLevel globals_warn.
Proof.
  destruct (InitLogger_sets_threshold "" "warn" globals0 globals_warn world0)
    as (Hlog & Hlevel & _).
  - vm_compute. reflexivity.
  - split; [rewrite Hlog; reflexivity|exact Hlevel].
Defined.

Lemma InitLogger_failure_keeps_logger_witness :
  (result (logger.InitLogger "/proc/dynago.log" "debug" globals_warn) world0).2 =
    logger.set_appWriter logger.io_Discard globals_warn.
Proof.
  apply (InitLogger_failure_keeps_logger "/proc/dynago.log" "debug" globals_warn world0
           (lib_error "open: permission denied")).
  vm_compute. reflexivity.
Defined.

Lemma logging_by_severity_witness :
  is_Some (logging.log logger.ErrorLevel globals_warn "No DNS providers enabled: %v" []).
Proof.
  apply (proj1 (logging_by_severity globals_warn) logger.WarnLevel logger.ErrorLevel
           "warning" [] "No DNS providers enabled: %v" []).
  - vm_compute. discriminate.
  - eexists. reflexivity.
Defined.

Lemma LoadConfig_stages_witness :
  result (config_file.LoadConfig "configs/zero.yml") world0 = inl zero_interval_config.
Proof.
  apply (proj1 (proj2 (proj2 (LoadConfig_stages "configs/zero.yml" world0)))).
  exists (Some (sample_raw "0s")), (sample_raw "0s").
  split; [reflexivity|]. split; [reflexivity|]. split; [reflexivity|].
  split; [reflexivity|]. split; reflexivity.
Defined.

Lemma run_stages_witness :
  exists cfg, loaded (vars "configs/dynago.yml" "") (with_signal 2 world0) = inl cfg.
Proof.
  apply (proj1 (proj2 (run_stages (vars "configs/dynago.yml" "") 3 globals0
                         (with_signal 2 world0)))
           (logger_Info "DNSUpdateService starting... " [])).
  apply list_elem_of_lookup. exists 3%nat. vm_compute. reflexivity.
Defined.

Lemma run_outcomes_witness :
  exists p, (main.run (vars "configs/zero.yml" "") 3 globals0 world0).1.1.1 = main.Panicked p.
Proof.
  apply (proj2 (proj2 (proj2 (run_outcomes (vars "configs/zero.yml" "") 3 globals0 world0)))).
  exists zero_interval_config.
  split; [vm_compute; reflexivity|]. split; [vm_compute; reflexivity|].
  split.
  - intros Hnil. apply (f_equal names) in Hnil. vm_compute in Hnil. discriminate Hnil.
  - vm_compute. discriminate.
Defined.

Lemma Start_loads_config_once_witness :
  loads (events (service.Start 3 (service.NewDNSUpdateService (Some (sample_config true false)))
                   (with_signal 2 world0)).2) = 0.
Proof.
  apply (proj2 (Start_loads_config_once 3
                  (service.NewDNSUpdateService (Some (sample_config true false)))
                  (with_signal 2 world0)) (sample_config true false)).
  - reflexivity.
  - vm_compute. reflexivity.
Defined.
